(** * bimmer_connected.api.authentication: a shallow embedding

    The module under study is [bimmer_connected/api/authentication.py]:
    the [MyBMWAuthentication] request flow with its login strategies, the
    [MyBMWLoginClient] response hook and the [MyBMWLoginRetry] flow.

    Python values are kept dynamic where the source is dynamic (JSON bodies,
    token fields); effects are the constructors of a small free monad;
    library functions the source calls without defining (str(), int(),
    URL parsing, JWT decoding, RSA, the constants of [bimmer_connected.const]
    and [bimmer_connected.api.regions]) are fields of one record of
    externals.

    A string is a sequence of code points below U+0100.  The float of the
    wait computation is a binary64 number, a datetime a number of microseconds
    within the range of [datetime.datetime].  What the module relies on in
    httpx is written out as httpx has it: the driver of an auth flow, the
    case-insensitive [Headers], and the [BasicAuth] that an [auth=] argument
    puts in the place of the auth of the client. *)

From Stdlib Require Import ZArith QArith Qround List String Ascii Bool Lia.
From Stdlib Require Import SpecFloat.
Import ListNotations.

Set Warnings "-register-all".
Open Scope string_scope.
Open Scope Z_scope.

(** ** Python values and exceptions *)

(** A datetime is a number of microseconds since the epoch, UTC. *)
Definition datetime : Type := Z.

(** The microseconds of [datetime.timedelta(seconds=s)]. *)
Definition timedelta_seconds (s : Z) : Z := s * 1000000.

(** The objects the module handles: what [response.json()] returns, and
    the datetimes of the token data. *)
Inductive pyobj : Type :=
| PNone
| PBool (b : bool)
| PInt (n : Z)
| PFloat (q : Q)
| PStr (s : string)
| PList (items : list pyobj)
| PDict (fields : list (string * pyobj))
| PDatetime (t : datetime).

(** The exceptions that cross the functions of the module.
    [MyBMWAPIError] is the classified failure of [bimmer_connected.models];
    it carries the HTTP status and the body of the offending response. *)
Inductive exn : Type :=
| MyBMWAPIError (status : Z) (body : string)
| JSONDecodeError
| KeyError (key : string)
| TypeError
| ValueError
| AttributeError
| OverflowError
| StopAsyncIteration
| TransportError (detail : string).

Inductive result (A : Type) : Type :=
| Ok (a : A)
| Err (e : exn).
Arguments Ok {A} a.
Arguments Err {A} e.

Definition is_api_error (e : exn) : bool :=
  match e with MyBMWAPIError _ _ => true | _ => false end.

Module Py.

(** Truth value of an object, as [if x] / [not x] read it. *)
Definition truthy (v : pyobj) : bool :=
  match v with
  | PNone => false
  | PBool b => b
  | PInt n => negb (n =? 0)
  | PFloat q => negb (Qeq_bool q 0)
  | PStr s => negb (String.eqb s "")
  | PList l => match l with [] => false | _ => true end
  | PDict m => match m with [] => false | _ => true end
  | PDatetime _ => true
  end.

Definition code (c : ascii) : Z := Z.of_N (N_of_ascii c).

(** Characters are code points below 256.  [str.isdigit] holds there for
    the ten decimal digits and for the superscripts U+00B2, U+00B3 and
    U+00B9. *)
Definition is_decimal (c : ascii) : bool :=
  (48 <=? code c) && (code c <=? 57).

Definition isdigit (c : ascii) : bool :=
  is_decimal c || (code c =? 178) || (code c =? 179) || (code c =? 185).

(** [int(c)] for a one-character string: only decimal digits convert,
    a superscript digit raises ValueError. *)
Definition int_of_char (c : ascii) : result Z :=
  if is_decimal c then Ok (code c - 48) else Err ValueError.

Fixpoint str_isdigit_all (s : string) : bool :=
  match s with
  | EmptyString => true
  | String c s' => isdigit c && str_isdigit_all s'
  end.

(** [s.isdigit()]: non-empty and every character is a digit. *)
Definition str_isdigit (s : string) : bool :=
  match s with
  | EmptyString => false
  | _ => str_isdigit_all s
  end.

Fixpoint int_of_digits (acc : Z) (s : string) : result Z :=
  match s with
  | EmptyString => Ok acc
  | String c s' =>
      match int_of_char c with
      | Ok d => int_of_digits (10 * acc + d) s'
      | Err e => Err e
      end
  end.

(** [sys.int_info.default_max_str_digits]: CPython (3.11, and the
    maintenance releases of 3.7 to 3.10 that carry the same change) refuses
    to convert a longer string of digits. *)
Definition max_str_digits : nat := 4300.

(** [int(s)] on a string for which [s.isdigit()] holds. *)
Definition int_of_str (s : string) : result Z :=
  match s with
  | EmptyString => Err ValueError
  | _ =>
      if Nat.ltb max_str_digits (String.length s) then Err ValueError
      else int_of_digits 0 s
  end.

(** [str.lower] on code points below 256. *)
Definition lower_char (c : ascii) : ascii :=
  let n := code c in
  if ((65 <=? n) && (n <=? 90))
     || ((192 <=? n) && (n <=? 222) && negb (n =? 215))
  then ascii_of_N (Z.to_N (n + 32))
  else c.

Fixpoint lower (s : string) : string :=
  match s with
  | EmptyString => EmptyString
  | String c s' => String (lower_char c) (lower s')
  end.

(** [needle in hay] *)
Fixpoint contains (needle hay : string) : bool :=
  String.prefix needle hay
  || match hay with
     | EmptyString => false
     | String _ hay' => contains needle hay'
     end.

(** [bytes.lower]: the ASCII letters only. *)
Definition ascii_lower_char (c : ascii) : ascii :=
  let n := code c in
  if (65 <=? n) && (n <=? 90) then ascii_of_N (Z.to_N (n + 32)) else c.

Fixpoint ascii_lower (s : string) : string :=
  match s with
  | EmptyString => EmptyString
  | String c s' => String (ascii_lower_char c) (ascii_lower s')
  end.


(** A Python float is an IEEE 754 binary64 number: 53 bits of precision,
    rounding to nearest, ties to even. *)
Definition prec : Z := 53.
Definition emax : Z := 1024.

(** The conversion of an int operand of a float operation
    ([PyLong_AsDouble]): the nearest float, OverflowError when there is
    none. *)
Definition float_of_int (n : Z) : result spec_float :=
  match binary_normalize prec emax n 0 false with
  | S754_infinity _ => Err OverflowError
  | x => Ok x
  end.

(** The float literal [1.25] *)
Definition float_1_25 : spec_float := S754_finite false 5 (-2).

(** [x * y] on floats; an overflow gives an infinity, not an exception. *)
Definition float_mul (x y : spec_float) : spec_float := SFmul prec emax x y.

(** [math.ceil(x)] on a float: an int, exactly; OverflowError on an
    infinity, ValueError on a NaN. *)
Definition ceil_float (x : spec_float) : result Z :=
  match x with
  | S754_zero _ => Ok 0
  | S754_finite s m e =>
      let v := if s then Z.neg m else Z.pos m in
      Ok (if 0 <=? e then v * 2 ^ e else - ((- v) / 2 ^ (- e)))
  | S754_infinity _ => Err OverflowError
  | S754_nan => Err ValueError
  end.

(** [d.get(key, default)] on a decoded JSON object. *)
Fixpoint dict_get (key : string) (m : list (string * pyobj))
  : option pyobj :=
  match m with
  | [] => None
  | (k, v) :: m' => if String.eqb k key then Some v else dict_get key m'
  end.

(** [d[key]] *)
Definition subscript (v : pyobj) (key : string) : result pyobj :=
  match v with
  | PDict m =>
      match dict_get key m with
      | Some x => Ok x
      | None => Err (KeyError key)
      end
  | _ => Err TypeError
  end.

(** The elements a [for i in v] visits. *)
Definition iterate (v : pyobj) : result (list pyobj) :=
  match v with
  | PStr s => Ok (map (fun c => PStr (String c EmptyString)) (list_ascii_of_string s))
  | PList l => Ok l
  | PDict m => Ok (map (fun kv => PStr (fst kv)) m)
  | _ => Err TypeError
  end.

(** [sep.join(v)]: every element must be a string. *)
Fixpoint join_items (sep : string) (items : list pyobj) : result string :=
  match items with
  | [] => Ok ""
  | PStr s :: [] => Ok s
  | PStr s :: rest =>
      match join_items sep rest with
      | Ok t => Ok (s ++ sep ++ t)
      | Err e => Err e
      end
  | _ :: _ => Err TypeError
  end.

Definition join (sep : string) (v : pyobj) : result string :=
  match iterate v with
  | Ok items => join_items sep items
  | Err e => Err e
  end.

Fixpoint drop (n : nat) (s : string) : string :=
  match n, s with
  | O, _ => s
  | S n', String _ s' => drop n' s'
  | S _, EmptyString => EmptyString
  end.

(** [s.replace(old, new)] for a non-empty [old]: the occurrences of [old]
    are replaced from the left, without overlap. *)
Fixpoint replace_from (fuel : nat) (old new s : string) : string :=
  match fuel with
  | O => s
  | S fuel' =>
      match s with
      | EmptyString => EmptyString
      | String c s' =>
          if String.prefix old s
          then new ++ replace_from fuel' old new (drop (String.length old) s)
          else String c (replace_from fuel' old new s')
      end
  end.

Definition replace (old new : string) (v : pyobj) : result pyobj :=
  match v with
  | PStr s => Ok (PStr (replace_from (String.length s) old new s))
  | _ => Err AttributeError
  end.

(** [d[key] = value] *)
Fixpoint dict_set (key : string) (value : pyobj) (m : list (string * pyobj))
  : list (string * pyobj) :=
  match m with
  | [] => [(key, value)]
  | (k, v) :: m' =>
      if String.eqb k key then (key, value) :: m'
      else (k, v) :: dict_set key value m'
  end.

(** [dict(base, **extra)] *)
Definition dict_update (base extra : list (string * pyobj))
  : list (string * pyobj) :=
  fold_left (fun m kv => dict_set (fst kv) (snd kv) m) extra base.

(** [datetime.min] and [datetime.max] with [tzinfo=timezone.utc]:
    0001-01-01T00:00:00 and 9999-12-31T23:59:59.999999. *)
Definition datetime_min : datetime := -62135596800000000.
Definition datetime_max : datetime := 253402300799999999.

Definition is_datetime (t : Z) : bool :=
  (datetime_min <=? t) && (t <=? datetime_max).

(** [datetime.timedelta(seconds=s)] for an int [s], in microseconds: the
    days of a timedelta have a magnitude of 999999999 at most. *)
Definition timedelta (s : Z) : result Z :=
  if (-999999999 <=? s / 86400) && (s / 86400 <=? 999999999)
  then Ok (timedelta_seconds s)
  else Err OverflowError.

(** [t + delta] for a timedelta [delta] in microseconds: OverflowError
    ("date value out of range") outside the years 1 to 9999. *)
Definition add_timedelta (t : datetime) (delta : Z) : result datetime :=
  if is_datetime (t + delta) then Ok (t + delta) else Err OverflowError.

(** [v - delta] for a timedelta [delta] in microseconds. *)
Definition sub_timedelta (v : pyobj) (delta : Z) : result pyobj :=
  match v with
  | PDatetime t =>
      if is_datetime (t - delta) then Ok (PDatetime (t - delta))
      else Err OverflowError
  | _ => Err TypeError
  end.

End Py.

(** ** Requests and responses *)

Record Request : Type := mkRequest {
  method : string;
  url : string;
  headers : list (string * string);
  params : list (string * pyobj);
  data : list (string * pyobj);
  json_body : option pyobj;
  basic_auth : option (pyobj * pyobj)
}.

(** [httpx.Headers] keeps the headers in a list, each under the name as it
    was written; two names are the same header when they agree once in
    lower case. *)
Definition same_header (k key : string) : bool :=
  String.eqb (Py.ascii_lower k) (Py.ascii_lower key).

(** [del headers[key]]: every entry of that name goes. *)
Definition del_item (key : string) (hs : list (string * string))
  : list (string * string) :=
  filter (fun kv => negb (same_header (fst kv) key)) hs.

(** [headers[key] = value] ([Headers.__setitem__]): the first entry of that
    name is replaced where it stands and the later ones are removed; without
    such an entry the header is appended. *)
Fixpoint set_item (key value : string) (hs : list (string * string))
  : list (string * string) :=
  match hs with
  | [] => [(key, value)]
  | (k, v) :: hs' =>
      if same_header k key then (key, value) :: del_item key hs'
      else (k, v) :: set_item key value hs'
  end.

(** [headers.update(extra)] ([Headers.update]): the entries whose name
    occurs in [extra] are removed, and [extra] is appended. *)
Definition headers_update (hs extra : list (string * string))
  : list (string * string) :=
  (filter (fun kv => negb (existsb (fun kv' => same_header (fst kv) (fst kv')) extra)) hs
   ++ extra)%list.

(** [{**d, key: value}] on a dict of strings: keys are compared as
    written. *)
Fixpoint dict_put (key value : string) (d : list (string * string))
  : list (string * string) :=
  match d with
  | [] => [(key, value)]
  | (k, v) :: d' =>
      if String.eqb k key then (key, value) :: d'
      else (k, v) :: dict_put key value d'
  end.

Definition set_header (key value : string) (r : Request) : Request :=
  mkRequest (method r) (url r) (set_item key value (headers r))
            (params r) (data r) (json_body r) (basic_auth r).

(** A response as the flows read it: the status, the body text, the body
    decoded as JSON ([None] when [response.json()] raises), and the redirect
    request httpx prepared, if any. *)
Record Response : Type := mkResponse {
  status_code : Z;
  text : string;
  json : option pyobj;
  next_request : option Request
}.

Definition is_success (r : Response) : bool :=
  (200 <=? status_code r) && (status_code r <=? 299).

Definition is_error (r : Response) : bool :=
  (400 <=? status_code r) && (status_code r <=? 599).

Definition response_json (r : Response) : result pyobj :=
  match json r with
  | Some v => Ok v
  | None => Err JSONDecodeError
  end.

(** ** The wait of the retry loops

    [[int(i) for i in response.json().get("message", "") if i.isdigit()]] *)

Definition get_message (body : pyobj) : result pyobj :=
  match body with
  | PDict m =>
      match Py.dict_get "message" m with
      | Some v => Ok v
      | None => Ok (PStr "")
      end
  | _ => Err AttributeError
  end.

Fixpoint digits_of (items : list pyobj) : result (list Z) :=
  match items with
  | [] => Ok []
  | PStr s :: rest =>
      if Py.str_isdigit s then
        match Py.int_of_str s with
        | Ok d =>
            match digits_of rest with
            | Ok ds => Ok (d :: ds)
            | Err e => Err e
            end
        | Err e => Err e
        end
      else digits_of rest
  | _ :: _ => Err AttributeError
  end.

(** [next(iter(l), default)] *)
Definition next_or {A : Type} (l : list A) (default : A) : A :=
  match l with
  | [] => default
  | x :: _ => x
  end.

(** The base wait read from a 429 body: the first element of the list
    comprehension, 2 when the list is empty. *)
Definition base_wait (r : Response) : result Z :=
  match response_json r with
  | Err e => Err e
  | Ok body =>
      match get_message body with
      | Err e => Err e
      | Ok msg =>
          match Py.iterate msg with
          | Err e => Err e
          | Ok items =>
              match digits_of items with
              | Err e => Err e
              | Ok ds => Ok (next_or ds 2)
              end
          end
      end
  end.

(** [math.ceil(d * 1.25)]: the int [d] becomes a float, the product is
    rounded to a float, and the ceiling of that float is taken. *)
Definition scale_wait (d : Z) : result Z :=
  match Py.float_of_int d with
  | Ok x => Py.ceil_float (Py.float_mul x Py.float_1_25)
  | Err e => Err e
  end.

Definition wait_time (r : Response) : result Z :=
  match base_wait r with
  | Ok d => scale_wait d
  | Err e => Err e
  end.

(** ** The authentication object ([self] of [MyBMWAuthentication]) *)

Inductive Regions : Type := NORTH_AMERICA | REST_OF_WORLD | CHINA.

(** The attributes [__init__] sets and no method assigns again. *)
Record Account : Type := mkAccount {
  username : string;
  password : string;
  region : Regions;
  session_id : string
}.

(** The attributes the methods read and assign.  They hold whatever the
    token data carried. *)
Record Credential : Type := mkCredential {
  access_token : pyobj;
  expires_at : pyobj;
  refresh_token : pyobj;
  gcid : pyobj
}.

Inductive field : Type := AccessToken | ExpiresAt | RefreshToken | Gcid.

(** [self.<field>] *)
Definition get_field (f : field) (c : Credential) : pyobj :=
  match f with
  | AccessToken => access_token c
  | ExpiresAt => expires_at c
  | RefreshToken => refresh_token c
  | Gcid => gcid c
  end.

(** [self.<field> = v] *)
Definition set_field (f : field) (v : pyobj) (c : Credential) : Credential :=
  match f with
  | AccessToken => mkCredential v (expires_at c) (refresh_token c) (gcid c)
  | ExpiresAt => mkCredential (access_token c) v (refresh_token c) (gcid c)
  | RefreshToken => mkCredential (access_token c) (expires_at c) v (gcid c)
  | Gcid => mkCredential (access_token c) (expires_at c) (refresh_token c) v
  end.

(** ** Effects

    What a run leaves behind, in the order it happened. *)
Inductive event : Type :=
| EvSend (req : Request)
| EvRecv (r : result Response)
| EvSleep (secs : Z)
| EvNow (t : datetime)
| EvAcquire
| EvRelease
| EvSetattr (f : field) (v : pyobj)
| EvDebug (msg : string)
| EvCall (fn : string)
| EvReturn (fn : string)
| EvRaise (fn : string) (e : exn).

Inductive entropy_kind : Type :=
| Uuid4
| Token (length : nat).

(** Programs: a leaf ([Ret], [Raise]) or one effect and what follows it.
    [Yield] is the generator's [yield request]; [Send] is one exchange with
    the transport. *)
Inductive prog (A : Type) : Type :=
| Ret (a : A)
| Raise (e : exn)
| Yield (req : Request) (k : Response -> prog A)
| Send (req : Request) (k : result Response -> prog A)
| Sleep (secs : Z) (k : prog A)
| Now (k : datetime -> prog A)
| Acquire (k : prog A)
| Release (k : prog A)
| Getattr (f : field) (k : pyobj -> prog A)
| Setattr (f : field) (v : pyobj) (k : prog A)
| Fresh (kind : entropy_kind) (k : string -> prog A)
| Note (ev : event) (k : prog A).

Arguments Ret {A} a.
Arguments Raise {A} e.
Arguments Yield {A} req k.
Arguments Send {A} req k.
Arguments Sleep {A} secs k.
Arguments Now {A} k.
Arguments Acquire {A} k.
Arguments Release {A} k.
Arguments Getattr {A} f k.
Arguments Setattr {A} f v k.
Arguments Fresh {A} kind k.
Arguments Note {A} ev k.

Fixpoint bind {A B : Type} (p : prog A) (f : A -> prog B) : prog B :=
  match p with
  | Ret a => f a
  | Raise e => Raise e
  | Yield req k => Yield req (fun r => bind (k r) f)
  | Send req k => Send req (fun r => bind (k r) f)
  | Sleep secs k => Sleep secs (bind k f)
  | Now k => Now (fun t => bind (k t) f)
  | Acquire k => Acquire (bind k f)
  | Release k => Release (bind k f)
  | Getattr fld k => Getattr fld (fun v => bind (k v) f)
  | Setattr fld v k => Setattr fld v (bind k f)
  | Fresh kind k => Fresh kind (fun s => bind (k s) f)
  | Note ev k => Note ev (bind k f)
  end.

Declare Scope prog_scope.
Delimit Scope prog_scope with prog.
Notation "x <- p ;; q" := (bind p (fun x => q))
  (at level 61, p at next level, right associativity) : prog_scope.
Notation "p ;; q" := (bind p (fun _ => q))
  (at level 61, right associativity) : prog_scope.
Open Scope prog_scope.

(** [try: p except <class>: h]: [handler e] is [None] when the clause does
    not match the exception. *)
Fixpoint try_except {A : Type} (p : prog A) (handler : exn -> option (prog A))
  : prog A :=
  match p with
  | Ret a => Ret a
  | Raise e => match handler e with Some q => q | None => Raise e end
  | Yield req k => Yield req (fun r => try_except (k r) handler)
  | Send req k => Send req (fun r => try_except (k r) handler)
  | Sleep secs k => Sleep secs (try_except k handler)
  | Now k => Now (fun t => try_except (k t) handler)
  | Acquire k => Acquire (try_except k handler)
  | Release k => Release (try_except k handler)
  | Getattr fld k => Getattr fld (fun v => try_except (k v) handler)
  | Setattr fld v k => Setattr fld v (try_except k handler)
  | Fresh kind k => Fresh kind (fun s => try_except (k s) handler)
  | Note ev k => Note ev (try_except k handler)
  end.

(** [try: p finally: fin] *)
Fixpoint try_finally {A : Type} (p : prog A) (fin : prog unit) : prog A :=
  match p with
  | Ret a => fin ;; Ret a
  | Raise e => fin ;; Raise e
  | Yield req k => Yield req (fun r => try_finally (k r) fin)
  | Send req k => Send req (fun r => try_finally (k r) fin)
  | Sleep secs k => Sleep secs (try_finally k fin)
  | Now k => Now (fun t => try_finally (k t) fin)
  | Acquire k => Acquire (try_finally k fin)
  | Release k => Release (try_finally k fin)
  | Getattr fld k => Getattr fld (fun v => try_finally (k v) fin)
  | Setattr fld v k => Setattr fld v (try_finally k fin)
  | Fresh kind k => Fresh kind (fun s => try_finally (k s) fin)
  | Note ev k => Note ev (try_finally k fin)
  end.

Definition lift {A : Type} (r : result A) : prog A :=
  match r with
  | Ok a => Ret a
  | Err e => Raise e
  end.

Definition yield_ (req : Request) : prog Response := Yield req (fun r => Ret r).
Definition send (req : Request) : prog Response := Send req (fun r => lift r).
Definition sleep (secs : Z) : prog unit := Sleep secs (Ret tt).
Definition now : prog datetime := Now (fun t => Ret t).
Definition getattr (f : field) : prog pyobj := Getattr f (fun v => Ret v).
Definition setattr (f : field) (v : pyobj) : prog unit := Setattr f v (Ret tt).
Definition fresh (kind : entropy_kind) : prog string := Fresh kind (fun s => Ret s).
Definition note (ev : event) : prog unit := Note ev (Ret tt).
Definition debug (msg : string) : prog unit := note (EvDebug msg).

(** [async with self.login_lock: body] *)
Definition with_lock {A : Type} (body : prog A) : prog A :=
  Acquire (Note EvAcquire (try_finally body (Release (Note EvRelease (Ret tt))))).

(** A function body with its call and its way out recorded in the trace. *)
Definition traced {A : Type} (fn : string) (body : prog A) : prog A :=
  note (EvCall fn) ;;
  a <- try_except body (fun e => Some (note (EvRaise fn e) ;; Raise e)) ;;
  note (EvReturn fn) ;;
  Ret a.

(** ** Running a program

    The world outside the module: what the transport answers to the n-th
    exchange, how long that exchange takes (in microseconds), and the random
    strings [uuid4()] and [generate_token] draw. *)
Record Env : Type := mkEnv {
  reply : nat -> Request -> result Response;
  latency : nat -> Z;
  entropy : nat -> entropy_kind -> string
}.

(** The state a run threads: the credential, the login lock, the clock and the
    counters into the environment, and the trace, newest event first. *)
Record State : Type := mkState {
  self : Credential;
  locked : bool;
  clock : datetime;
  sent : nat;
  drawn : nat;
  log : list event
}.

Definition history (st : State) : list event := rev (log st).

Definition record (ev : event) (st : State) : State :=
  mkState (self st) (locked st) (clock st) (sent st) (drawn st) (ev :: log st).

Definition set_locked (b : bool) (st : State) : State :=
  mkState (self st) b (clock st) (sent st) (drawn st) (log st).

Definition exchange (env : Env) (req : Request) (st : State)
  : result Response * State :=
  let r := reply env (sent st) req in
  (r, mkState (self st) (locked st) (clock st + latency env (sent st))
              (S (sent st)) (drawn st) (EvRecv r :: EvSend req :: log st)).

Definition pass_time (secs : Z) (st : State) : State :=
  mkState (self st) (locked st) (clock st + timedelta_seconds secs)
          (sent st) (drawn st) (EvSleep secs :: log st).

Definition assign (f : field) (v : pyobj) (st : State) : State :=
  mkState (set_field f v (self st)) (locked st) (clock st) (sent st) (drawn st)
          (EvSetattr f v :: log st).

Definition draw (env : Env) (kind : entropy_kind) (st : State) : string * State :=
  (entropy env (drawn st) kind,
   mkState (self st) (locked st) (clock st) (sent st) (S (drawn st)) (log st)).

(** How a run ends.  [Stuck] is a task that cannot go on by itself: it waits
    for a lock that is held, or it yields with no driver to answer. *)
Inductive outcome (A : Type) : Type :=
| Returned (a : A)
| Raised (e : exn)
| Stuck.
Arguments Returned {A} a.
Arguments Raised {A} e.
Arguments Stuck {A}.

Fixpoint run {A : Type} (env : Env) (p : prog A) (st : State)
  : outcome A * State :=
  match p with
  | Ret a => (Returned a, st)
  | Raise e => (Raised e, st)
  | Yield _ _ => (Stuck, st)
  | Send req k =>
      let (r, st') := exchange env req st in run env (k r) st'
  | Sleep secs k => run env k (pass_time secs st)
  | Now k => run env (k (clock st)) (record (EvNow (clock st)) st)
  | Acquire k =>
      if locked st then (Stuck, st) else run env k (set_locked true st)
  | Release k => run env k (set_locked false st)
  | Getattr f k => run env (k (get_field f (self st))) st
  | Setattr f v k => run env k (assign f v st)
  | Fresh kind k =>
      let (s, st') := draw env kind st in run env (k s) st'
  | Note ev k => run env k (record ev st)
  end.

(** ** The httpx driver

    [AsyncClient._send_handling_auth]: every request the flow yields is
    sent, the response hooks see the response, and the response is handed
    back to the flow; when the flow ends, the last response is the result.
    [hook r] is the exception the client's response hooks raise on [r]. *)
Fixpoint send_handling_auth (hook : Response -> option exn) (flow : prog unit)
    (last : option Response) : prog Response :=
  match flow with
  | Ret _ =>
      match last with
      | Some r => Ret r
      | None => Raise StopAsyncIteration
      end
  | Raise e => Raise e
  | Yield req k =>
      Send req (fun rr =>
        match rr with
        | Err e => Raise e
        | Ok r =>
            match hook r with
            | Some e => Raise e
            | None => send_handling_auth hook (k r) (Some r)
            end
        end)
  | Send req k => Send req (fun r => send_handling_auth hook (k r) last)
  | Sleep secs k => Sleep secs (send_handling_auth hook k last)
  | Now k => Now (fun t => send_handling_auth hook (k t) last)
  | Acquire k => Acquire (send_handling_auth hook k last)
  | Release k => Release (send_handling_auth hook k last)
  | Getattr f k => Getattr f (fun v => send_handling_auth hook (k v) last)
  | Setattr f v k => Setattr f v (send_handling_auth hook k last)
  | Fresh kind k => Fresh kind (fun s => send_handling_auth hook (k s) last)
  | Note ev k => Note ev (send_handling_auth hook k last)
  end.

(** [client.send(request)] on a client whose auth is [flow]. *)
Definition client_send (hook : Response -> option exn)
    (flow : Request -> prog unit) (request : Request) : prog Response :=
  send_handling_auth hook (flow request) None.

(** ** Status errors *)

(** [response.raise_for_status()]: httpx raises HTTPStatusError unless the
    status is a 2xx. *)
Definition raise_for_status (r : Response) : bool := negb (is_success r).

(** Modelled from the spec: [handle_httpstatuserror] of
    [bimmer_connected.api.utils] is not part of the sources; it turns the
    HTTPStatusError into the classified failure carrying the status and the
    body of the response. *)
Definition handle_httpstatuserror (r : Response) : exn :=
  MyBMWAPIError (status_code r) (text r).

(** ** The retry loop, as both flows write it

    [[
    for _ in range(3):
        if response.status_code == 429:
            await response.aread()
            wait_time = math.ceil(...)
            _LOGGER.debug("Sleeping %s seconds due to 429 Too Many Requests", wait_time)
            await asyncio.sleep(wait_time)
            response = yield request
    ]] *)
Definition retry_once (request : Request) (response : Response) : prog Response :=
  if status_code response =? 429 then
    w <- lift (wait_time response) ;;
    debug "Sleeping %s seconds due to 429 Too Many Requests" ;;
    sleep w ;;
    yield_ request
  else Ret response.

Fixpoint retry_loop (n : nat) (request : Request) (response : Response)
  : prog Response :=
  match n with
  | O => Ret response
  | S n' =>
      r <- retry_once request response ;;
      retry_loop n' request r
  end.

(** ** [httpx.BasicAuth]

    What httpx makes of [auth=(username, password)].  [__init__] joins the
    two as bytes, which raises TypeError unless both are strings; the flow
    writes the Authorization header and yields the request once, whatever
    the response.  The header is kept as the pair [basic_auth] the request
    carries. *)
Module BasicAuth.

Definition init (user secret : pyobj) : result unit :=
  match user, secret with
  | PStr _, PStr _ => Ok tt
  | _, _ => Err TypeError
  end.

Definition auth_flow (request : Request) : prog unit :=
  _ <- yield_ request ;;
  Ret tt.

End BasicAuth.

(** ** [MyBMWLoginRetry] and [MyBMWLoginClient] *)

Module MyBMWLoginRetry.

Definition async_auth_flow (request : Request) : prog unit :=
  response <- yield_ request ;;
  response <- retry_loop 3 request response ;;
  if status_code response =? 429 then
    if raise_for_status response
    then Raise (handle_httpstatuserror response)
    else Ret tt
  else Ret tt.

End MyBMWLoginRetry.

Module MyBMWLoginClient.

(** [raise_for_status_event_handler] *)
Definition raise_for_status_event_handler (response : Response) : option exn :=
  if is_error response && negb (status_code response =? 429) then
    if raise_for_status response
    then Some (handle_httpstatuserror response)
    else None
  else None.

(** [client.send(request)]: the auth of the client is [MyBMWLoginRetry]. *)
Definition send (request : Request) : prog Response :=
  client_send raise_for_status_event_handler
              MyBMWLoginRetry.async_auth_flow request.

(** [client.send(request, auth=auth)]: an [auth] given with the call takes
    the place of the auth of the client.  httpx makes a [BasicAuth] of the
    pair before it sends anything. *)
Definition send_with (auth : option (pyobj * pyobj)) (request : Request)
  : prog Response :=
  match auth with
  | None => send request
  | Some (user, secret) =>
      lift (BasicAuth.init user secret) ;;
      client_send raise_for_status_event_handler BasicAuth.auth_flow request
  end.

End MyBMWLoginClient.

(** ** What the module imports

    Library functions and constants the source uses and does not define. *)
Record Externals : Type := mkExternals {
  (** [str(x)], as an f-string formats a value *)
  py_str : pyobj -> string;
  (** [int(x)] *)
  py_int : pyobj -> result Z;
  (** [bimmer_connected.const] *)
  HTTPX_TIMEOUT : Z;
  OAUTH_CONFIG_URL : string;
  AUTH_CHINA_PUBLIC_KEY_URL : string;
  AUTH_CHINA_CAPTCHA_URL : string;
  AUTH_CHINA_CAPTCHA_CHECK_URL : string;
  AUTH_CHINA_LOGIN_URL : string;
  AUTH_CHINA_TOKEN_URL : string;
  (** [X_USER_AGENT.format(brand="bmw", app_version=get_app_version(region),
      region=region.value)] *)
  x_user_agent : Regions -> string;
  (** [bimmer_connected.api.regions] *)
  get_server_url : Regions -> string;
  get_user_agent : Regions -> string;
  get_ocp_apim_key : Regions -> string;
  (** [bimmer_connected.api.utils]; [get_correlation_id] takes the random
      identifier it draws *)
  get_correlation_id : string -> list (string * string);
  create_s256_code_challenge : string -> string;
  generate_cn_nonce : pyobj -> result string;
  get_capture_position : pyobj -> result pyobj;
  (** [httpx.URL(u).params[key]] *)
  url_param : pyobj -> string -> result pyobj;
  (** the URL httpx builds from the client's base_url and the url argument *)
  merge_url : string -> pyobj -> result string;
  (** [jwt.decode(token, algorithms=["HS256"], options={"verify_signature": False})] *)
  jwt_decode : pyobj -> result pyobj;
  (** [base64.b64encode(PKCS1_v1_5.new(RSA.import_key(pem)).encrypt(pw.encode())).decode("UTF-8")] *)
  rsa_encrypt : pyobj -> string -> result string;
  (** [datetime.datetime.fromtimestamp(x, tz=datetime.timezone.utc)] *)
  fromtimestamp : pyobj -> result datetime
}.

Module MyBMWAuthentication.
Section WithExternals.

Variable lib : Externals.

(** The username, password, region and session id of [self]. *)
Variable me : Account.

(** [EXPIRES_AT_OFFSET = datetime.timedelta(seconds=HTTPX_TIMEOUT * 2)] *)
Definition EXPIRES_AT_OFFSET : Z := timedelta_seconds (HTTPX_TIMEOUT lib * 2).

(** A request of [MyBMWLoginClient(region=self.region)]: the client's
    default headers, updated with those of the call. *)
Definition build_request (meth : string) (target : pyobj)
    (hdrs : list (string * string)) (prms dat : list (string * pyobj))
    (js : option pyobj) (auth : option (pyobj * pyobj)) : prog Request :=
  u <- lift (merge_url lib (get_server_url lib (region me)) target) ;;
  Ret (mkRequest meth u
         (headers_update
            [("user-agent", get_user_agent lib (region me));
             ("x-user-agent", x_user_agent lib (region me))]
            hdrs)
         prms dat js auth).

Definition client_get (target : pyobj) (hdrs : list (string * string))
  : prog Response :=
  req <- build_request "GET" target hdrs [] [] None None ;;
  MyBMWLoginClient.send req.

Definition client_post (target : pyobj) (hdrs : list (string * string))
    (prms dat : list (string * pyobj)) (js : option pyobj)
    (auth : option (pyobj * pyobj)) : prog Response :=
  req <- build_request "POST" target hdrs prms dat js auth ;;
  MyBMWLoginClient.send_with auth req.

(** The OAuth settings request both ROW/NA strategies start with. *)
Definition get_oauth_settings : prog pyobj :=
  cid <- fresh Uuid4 ;;
  r_oauth_settings <-
    client_get (PStr (OAUTH_CONFIG_URL lib))
      (fold_left (fun hs kv => dict_put (fst kv) (snd kv) hs)
         (get_correlation_id lib cid)
         [("ocp-apim-subscription-key", get_ocp_apim_key lib (region me));
          ("bmw-session-id", session_id me)]) ;;
  lift (response_json r_oauth_settings).

(** [current_utc_time + datetime.timedelta(seconds=int(response_json["expires_in"]))] *)
Definition expiry_from (current_utc_time : datetime) (response_json : pyobj)
  : prog pyobj :=
  v <- lift (Py.subscript response_json "expires_in") ;;
  expiration_time <- lift (py_int lib v) ;;
  delta <- lift (Py.timedelta expiration_time) ;;
  expires_at <- lift (Py.add_timedelta current_utc_time delta) ;;
  Ret (PDatetime expires_at).

Definition _login_row_na : prog (list (string * pyobj)) :=
  debug "Authenticating with MyBMW flow for North America & Rest of World." ;;
  oauth_settings <- get_oauth_settings ;;
  code_verifier <- fresh (Token 86) ;;
  let code_challenge := create_s256_code_challenge lib code_verifier in
  state <- fresh (Token 22) ;;
  token_endpoint <- lift (Py.subscript oauth_settings "tokenEndpoint") ;;
  authenticate_url <- lift (Py.replace "/token" "/authenticate" token_endpoint) ;;
  client_id <- lift (Py.subscript oauth_settings "clientId") ;;
  return_url <- lift (Py.subscript oauth_settings "returnUrl") ;;
  scopes <- lift (Py.subscript oauth_settings "scopes") ;;
  scope <- lift (Py.join " " scopes) ;;
  let oauth_base_values :=
    [("client_id", client_id);
     ("response_type", PStr "code");
     ("redirect_uri", return_url);
     ("state", PStr state);
     ("nonce", PStr "login_nonce");
     ("scope", PStr scope);
     ("code_challenge", PStr code_challenge);
     ("code_challenge_method", PStr "S256")] in
  response <-
    client_post authenticate_url [] []
      (Py.dict_update oauth_base_values
         [("grant_type", PStr "authorization_code");
          ("username", PStr (username me));
          ("password", PStr (password me))])
      None None ;;
  body <- lift (response_json response) ;;
  redirect_to <- lift (Py.subscript body "redirect_to") ;;
  authorization <- lift (url_param lib redirect_to "authorization") ;;
  interaction_id <- fresh Uuid4 ;;
  response <-
    client_post authenticate_url []
      [("interaction-id", PStr interaction_id);
       ("client-version", PStr (x_user_agent lib (region me)))]
      (Py.dict_update oauth_base_values [("authorization", authorization)])
      None None ;;
  code <-
    match next_request response with
    | Some nxt => lift (url_param lib (PStr (url nxt)) "code")
    | None => Raise AttributeError
    end ;;
  current_utc_time <- now ;;
  token_endpoint <- lift (Py.subscript oauth_settings "tokenEndpoint") ;;
  return_url <- lift (Py.subscript oauth_settings "returnUrl") ;;
  client_id <- lift (Py.subscript oauth_settings "clientId") ;;
  client_secret <- lift (Py.subscript oauth_settings "clientSecret") ;;
  response <-
    client_post token_endpoint [] []
      [("code", code);
       ("code_verifier", PStr code_verifier);
       ("redirect_uri", return_url);
       ("grant_type", PStr "authorization_code")]
      None (Some (client_id, client_secret)) ;;
  response_json <- lift (response_json response) ;;
  expires_at <- expiry_from current_utc_time response_json ;;
  access <- lift (Py.subscript response_json "access_token") ;;
  refresh <- lift (Py.subscript response_json "refresh_token") ;;
  Ret [("access_token", access);
       ("expires_at", expires_at);
       ("refresh_token", refresh)].

(** [except MyBMWAPIError:] of the refresh functions: the clause matches
    the classified failure only, logs, and makes the function return [{}]
    ([None] here, the token response otherwise). *)
Definition except_api_error {A : Type} (e : exn) : option (prog (option A)) :=
  if is_api_error e then
    Some (debug "Unable to get access token using refresh token, falling back to username/password." ;;
          Ret None)
  else None.

(** The [try] block of [_refresh_token_row_na]. *)
Definition _refresh_token_row_na_try : prog (option (pyobj * pyobj)) :=
  debug "Authenticating with refresh token for North America & Rest of World." ;;
  oauth_settings <- get_oauth_settings ;;
  current_utc_time <- now ;;
  token_endpoint <- lift (Py.subscript oauth_settings "tokenEndpoint") ;;
  scopes <- lift (Py.subscript oauth_settings "scopes") ;;
  scope <- lift (Py.join " " scopes) ;;
  return_url <- lift (Py.subscript oauth_settings "returnUrl") ;;
  refresh <- getattr RefreshToken ;;
  client_id <- lift (Py.subscript oauth_settings "clientId") ;;
  client_secret <- lift (Py.subscript oauth_settings "clientSecret") ;;
  response <-
    client_post token_endpoint [] []
      [("scope", PStr scope);
       ("redirect_uri", return_url);
       ("grant_type", PStr "refresh_token");
       ("refresh_token", refresh)]
      None (Some (client_id, client_secret)) ;;
  response_json <- lift (response_json response) ;;
  expires_at <- expiry_from current_utc_time response_json ;;
  Ret (Some (response_json, expires_at)).

Definition _refresh_token_row_na : prog (list (string * pyobj)) :=
  tried <- try_except _refresh_token_row_na_try except_api_error ;;
  match tried with
  | None => Ret []
  | Some (response_json, expires_at) =>
      access <- lift (Py.subscript response_json "access_token") ;;
      refresh <- lift (Py.subscript response_json "refresh_token") ;;
      Ret [("access_token", access);
           ("expires_at", expires_at);
           ("refresh_token", refresh)]
  end.

Definition _login_china : prog (list (string * pyobj)) :=
  debug "Authenticating with MyBMW flow for China." ;;
  response <- client_get (PStr (AUTH_CHINA_PUBLIC_KEY_URL lib)) [] ;;
  body <- lift (response_json response) ;;
  dat <- lift (Py.subscript body "data") ;;
  pem_public_key <- lift (Py.subscript dat "value") ;;
  pw_encrypted <- lift (rsa_encrypt lib pem_public_key (password me)) ;;
  captcha_res <-
    client_post (PStr (AUTH_CHINA_CAPTCHA_URL lib)) [] [] []
      (Some (PDict [("mobile", PStr (username me))])) None ;;
  body <- lift (response_json captcha_res) ;;
  dat <- lift (Py.subscript body "data") ;;
  verify_id <- lift (Py.subscript dat "verifyId") ;;
  body <- lift (response_json captcha_res) ;;
  dat <- lift (Py.subscript body "data") ;;
  img <- lift (Py.subscript dat "backGroundImg") ;;
  position <- lift (get_capture_position lib img) ;;
  _ <- client_post (PStr (AUTH_CHINA_CAPTCHA_CHECK_URL lib)) [] [] []
         (Some (PDict [("position", position); ("verifyId", verify_id)])) None ;;
  nonce <- lift (generate_cn_nonce lib (PStr (username me))) ;;
  response <-
    client_post (PStr (AUTH_CHINA_LOGIN_URL lib))
      [("x-login-nonce", nonce)] [] []
      (Some (PDict [("mobile", PStr (username me));
                    ("password", PStr pw_encrypted);
                    ("verifyId", verify_id);
                    ("deviceId", PStr (username me))]))
      None ;;
  body <- lift (response_json response) ;;
  response_json <- lift (Py.subscript body "data") ;;
  access <- lift (Py.subscript response_json "access_token") ;;
  decoded_token <- lift (jwt_decode lib access) ;;
  access <- lift (Py.subscript response_json "access_token") ;;
  exp <- lift (Py.subscript decoded_token "exp") ;;
  expires_at <- lift (fromtimestamp lib exp) ;;
  refresh <- lift (Py.subscript response_json "refresh_token") ;;
  gc <- lift (Py.subscript response_json "gcid") ;;
  Ret [("access_token", access);
       ("expires_at", PDatetime expires_at);
       ("refresh_token", refresh);
       ("gcid", gc)].

(** The [try] block of [_refresh_token_china]. *)
Definition _refresh_token_china_try : prog (option (pyobj * pyobj)) :=
  debug "Authenticating with refresh token for China." ;;
  current_utc_time <- now ;;
  g <- getattr Gcid ;;
  nonce <- lift (generate_cn_nonce lib g) ;;
  refresh <- getattr RefreshToken ;;
  response <-
    client_post (PStr (AUTH_CHINA_TOKEN_URL lib))
      [("x-login-nonce", nonce)] []
      [("refresh_token", refresh);
       ("grant_type", PStr "refresh_token")]
      None None ;;
  response_json <- lift (response_json response) ;;
  expires_at <- expiry_from current_utc_time response_json ;;
  Ret (Some (response_json, expires_at)).

Definition _refresh_token_china : prog (list (string * pyobj)) :=
  tried <- try_except _refresh_token_china_try except_api_error ;;
  match tried with
  | None => Ret []
  | Some (response_json, expires_at) =>
      access <- lift (Py.subscript response_json "access_token") ;;
      refresh <- lift (Py.subscript response_json "refresh_token") ;;
      gc <- lift (Py.subscript response_json "gcid") ;;
      Ret [("access_token", access);
           ("expires_at", expires_at);
           ("refresh_token", refresh);
           ("gcid", gc)]
  end.

(** [token_data[key]] *)
Definition item (token_data : list (string * pyobj)) (key : string)
  : prog pyobj :=
  lift (Py.subscript (PDict token_data) key).

(** [token_data["expires_at"] = token_data["expires_at"] - EXPIRES_AT_OFFSET] *)
Definition shift_expiry (token_data : list (string * pyobj))
  : prog (list (string * pyobj)) :=
  e <- item token_data "expires_at" ;;
  e' <- lift (Py.sub_timedelta e EXPIRES_AT_OFFSET) ;;
  Ret (Py.dict_set "expires_at" e' token_data).

(** The fallback both regional branches share:
    [[
    if self.refresh_token:
        token_data = await self._refresh_token_...()
    if not token_data:
        token_data = await self._login_...()
    ]] *)
Definition refresh_or_login (refresh full : prog (list (string * pyobj)))
  : prog (list (string * pyobj)) :=
  stored <- getattr RefreshToken ;;
  token_data <- (if Py.truthy stored then refresh else Ret []) ;;
  if negb (Py.truthy (PDict token_data)) then full
  else Ret token_data.

(** The three assignments that end [login]. *)
Definition store_tokens (token_data : list (string * pyobj)) : prog unit :=
  a <- item token_data "access_token" ;;
  setattr AccessToken a ;;
  e <- item token_data "expires_at" ;;
  setattr ExpiresAt e ;;
  r <- item token_data "refresh_token" ;;
  setattr RefreshToken r.

(** The branch of [login] on the region, up to the three assignments. *)
Definition token_data_for_region : prog (list (string * pyobj)) :=
  match region me with
  | NORTH_AMERICA | REST_OF_WORLD =>
      token_data <-
        refresh_or_login
          (traced "_refresh_token_row_na" _refresh_token_row_na)
          (traced "_login_row_na" _login_row_na) ;;
      shift_expiry token_data
  | CHINA =>
      token_data <-
        refresh_or_login
          (traced "_refresh_token_china" _refresh_token_china)
          (traced "_login_china" _login_china) ;;
      token_data <- shift_expiry token_data ;;
      g <- item token_data "gcid" ;;
      setattr Gcid g ;;
      Ret token_data
  end.

Definition login_body : prog unit :=
  token_data <- token_data_for_region ;;
  store_tokens token_data.

Definition login : prog unit := traced "login" login_body.

(** [request.headers["authorization"] = f"Bearer {self.access_token}"]
    [request.headers["bmw-session-id"] = self.session_id]
    The flow yields one request object and rewrites its headers in place;
    here every yield carries the request as it is at that moment. *)
Definition with_auth_headers (token : pyobj) (request : Request) : Request :=
  set_header "bmw-session-id" (session_id me)
    (set_header "authorization" ("Bearer " ++ py_str lib token) request).

Definition attach (request : Request) : prog Request :=
  token <- getattr AccessToken ;;
  Ret (with_auth_headers token request).

Definition is_quota (response : Response) : bool :=
  (status_code response =? 429)
  || ((status_code response =? 403)
      && Py.contains "quota" (Py.lower (text response))).

Definition async_auth_flow (request : Request) : prog unit :=
  with_lock
    (token <- getattr AccessToken ;;
     if negb (Py.truthy token) then login else Ret tt) ;;
  request <- attach request ;;
  response <- yield_ request ;;
  if status_code response =? 401 then
    with_lock
      (debug "Received unauthorized response, refreshing token." ;;
       login) ;;
    request <- attach request ;;
    _ <- yield_ request ;;
    Ret tt
  else if is_quota response then
    response <- retry_loop 3 request response ;;
    if raise_for_status response
    then Raise (handle_httpstatuserror response)
    else Ret tt
  else Ret tt.

(** A client with this flow as its auth: [hook] stands for the response
    hooks of that client, which is not part of the module. *)
Definition apply (hook : Response -> option exn) (request : Request)
  : prog Response :=
  client_send hook async_auth_flow request.

End WithExternals.
End MyBMWAuthentication.

(** * Vocabulary of the properties *)

(** ** The wait, as the specification words it *)

(** The reading of the specification: the first maximal run of decimal
    digits of the message, taken as one number. *)
Module SpecWait.





End SpecWait.


(** A 429 response whose body is [{"message": msg}]. *)
Definition too_many_requests (body : string) (msg : string) : Response :=
  mkResponse 429 body (Some (PDict [("message", PStr msg)])) None.


(** ** Reading a trace *)

Definition is_sleep (ev : event) : bool :=
  match ev with EvSleep _ => true | _ => false end.

Definition is_send (ev : event) : bool :=
  match ev with EvSend _ => true | _ => false end.

Definition is_call (fn : string) (ev : event) : bool :=
  match ev with EvCall f => String.eqb f fn | _ => false end.

(** A recorded call of a function, and a recorded call of one of the four
    login strategies. *)
Definition is_a_call (ev : event) : bool :=
  match ev with EvCall _ => true | _ => false end.

Definition is_strategy_call (ev : event) : bool :=
  match ev with
  | EvCall fn =>
      existsb (String.eqb fn)
        ["_refresh_token_row_na"; "_login_row_na";
         "_refresh_token_china"; "_login_china"]
  | _ => false
  end.

Definition count (p : event -> bool) (l : list event) : nat :=
  List.length (filter p l).

(** The events of one round of the loop, newest first: the request has been
    sent again after a wait of [w] seconds and [r] has come back. *)
Definition round (req : Request) (w : Z) (r : Response) : list event :=
  [EvRecv (Ok r); EvSend req; EvSleep w;
   EvDebug "Sleeping %s seconds due to 429 Too Many Requests"].

(** [answers env n q rs]: from the n-th exchange on, the transport answers
    the request [q] with the responses [rs], in this order. *)
Fixpoint answers (env : Env) (n : nat) (q : Request) (rs : list Response) : Prop :=
  match rs with
  | [] => True
  | r :: rs' => reply env n q = Ok r /\ answers env (S n) q rs'
  end.

(** ** Which effects a program has *)

Inductive node : Type :=
| NYield (req : Request)
| NSend (req : Request)
| NSleep (secs : Z)
| NNow
| NAcquire
| NRelease
| NGetattr (f : field)
| NSetattr (f : field) (v : pyobj)
| NFresh (kind : entropy_kind)
| NNote (ev : event).

(** [every P p]: each effect [p] can perform, whatever it is answered,
    satisfies [P]. *)
Fixpoint every {A : Type} (P : node -> Prop) (p : prog A) : Prop :=
  match p with
  | Ret _ => True
  | Raise _ => True
  | Yield req k => P (NYield req) /\ forall r, every P (k r)
  | Send req k => P (NSend req) /\ forall r, every P (k r)
  | Sleep secs k => P (NSleep secs) /\ every P k
  | Now k => P NNow /\ forall t, every P (k t)
  | Acquire k => P NAcquire /\ every P k
  | Release k => P NRelease /\ every P k
  | Getattr f k => P (NGetattr f) /\ forall v, every P (k v)
  | Setattr f v k => P (NSetattr f v) /\ every P k
  | Fresh kind k => P (NFresh kind) /\ forall s, every P (k s)
  | Note ev k => P (NNote ev) /\ every P k
  end.

(** The driver performs what the flow performs, with a [Send] for each
    [Yield]. *)
Definition driven (P : node -> Prop) (n : node) : Prop :=
  match n with
  | NYield req => P (NSend req)
  | other => P other
  end.

(** A program that never yields goes through the driver unchanged. *)
Definition no_yield (n : node) : Prop :=
  match n with NYield _ => False | _ => True end.

(** ** The effects of the login strategies *)

(** What the retry loop does. *)
Definition retry_node (n : node) : Prop :=
  match n with
  | NYield _ | NSleep _ => True
  | NNote (EvDebug _) => True
  | _ => False
  end.

(** What a strategy does: it exchanges requests, sleeps, reads the clock,
    reads [self.refresh_token] and [self.gcid], draws random strings and logs
    debug lines.  It neither yields nor touches the lock, and it assigns no
    attribute of [self]. *)
Definition strategy_node (n : node) : Prop :=
  match n with
  | NSend _ | NSleep _ | NNow | NFresh _ => True
  | NGetattr f => f <> ExpiresAt /\ f <> AccessToken
  | NNote (EvDebug _) => True
  | _ => False
  end.

(** The body of [login] also records the calls of the strategies, and it
    assigns the token attributes.  It does not call [login]. *)
Definition login_node (n : node) : Prop :=
  match n with
  | NSend _ | NSleep _ | NNow | NFresh _ => True
  | NGetattr f => f <> ExpiresAt /\ f <> AccessToken
  | NNote (EvDebug _) | NNote (EvReturn _) | NNote (EvRaise _ _) => True
  | NNote (EvCall fn) => fn <> "login"
  | NSetattr _ _ => True
  | _ => False
  end.

(** [login] itself: its body, between the records of its call and of its
    way out. *)
Definition called_login_node (n : node) : Prop :=
  login_node n \/ n = NNote (EvCall "login").

(** ** A concrete world, for the examples *)
Module Demo.

Definition lib : Externals :=
  mkExternals
    (fun v => match v with PStr s => s | _ => "None" end)
    (fun v => match v with PInt n => Ok n | _ => Err TypeError end)
    30 "/eadrax-ucs/v1/presentation/oauth/config"
    "/eadrax-coas/v1/cop/publickey" "/eadrax-coas/v2/cop/slider-captcha"
    "/eadrax-coas/v1/cop/check-captcha" "/eadrax-coas/v2/login/pwd"
    "/eadrax-coas/v2/oauth/token"
    (fun _ => "android(AP2A.240605.024);bmw;4.9.2(36892);row")
    (fun _ => "https://cocoapi.bmwgroup.com")
    (fun _ => "Dart/3.3 (dart:io)")
    (fun _ => "4f1c85a3-758f-a37d-bbb6-f8704494acfa")
    (fun u => [("x-identity-provider", "gcdm"); ("x-correlation-id", u);
               ("bmw-correlation-id", u)])
    (fun verifier => verifier)
    (fun _ => Ok "nonce")
    (fun _ => Ok (PStr "123,45"))
    (fun _ key => Ok (PStr key))
    (fun base target =>
       match target with
       | PStr s => Ok (if String.prefix "https://" s then s else base ++ s)
       | _ => Err TypeError
       end)
    (fun _ => Ok (PDict [("exp", PInt 2000000000)]))
    (fun _ _ => Ok "cGFzc3dvcmQ=")
    (fun v => match v with
              | PInt n => Ok (timedelta_seconds n)
              | _ => Err TypeError
              end).

(** The transport answers the n-th exchange with the n-th response of
    [script], and with [rest] once the script is over; every exchange takes
    a quarter of a second. *)
Definition env_of (script : list Response) (rest : Response) : Env :=
  mkEnv (fun n _ => Ok (nth n script rest)) (fun _ => 250000)
        (fun n _ => "c3f1a9d2-0000-4000-8000-00000000002a").

Definition ok_response : Response := mkResponse 200 "{}" (Some (PDict [])) None.

Definition rate_limited : Response :=
  mkResponse 429 "Rate limit is exceeded. Try again in 2 seconds."
    (Some (PDict [("statusCode", PInt 429);
                  ("message", PStr "Rate limit is exceeded. Try again in 2 seconds.")]))
    None.


Definition unauthorized : Response := mkResponse 401 "Unauthorized" None None.

Definition request : Request :=
  mkRequest "GET" "/eadrax-vcs/v4/vehicles" [] [] [] None None.

Definition account (rg : Regions) : Account :=
  mkAccount "user@example.com" "secret" rg "5b1c2d3e-session".

Definition credential (access refresh : pyobj) : Credential :=
  mkCredential access PNone refresh PNone.

Definition start (c : Credential) : State := mkState c false 0 0 0 [].

Definition logged_in : State :=
  start (credential (PStr "token-1") (PStr "refresh-1")).

(** A credential whose token ran out an hour before the clock of the state. *)
Definition stale : State :=
  mkState (mkCredential (PStr "token-1") (PDatetime 1700000000000000)
                        (PStr "refresh-1") PNone)
          false 1700003600000000 0 0 [].

(** The answers of the ROW token endpoint. *)
Definition oauth_settings : Response :=
  mkResponse 200 "oauth settings"
    (Some (PDict [("clientId", PStr "31c357a0");
                  ("clientSecret", PStr "c0e3393d");
                  ("returnUrl", PStr "com.bmw.connected://oauth");
                  ("scopes", PList [PStr "openid"; PStr "profile"]);
                  ("tokenEndpoint", PStr "https://customer.bmwgroup.com/gcdm/oauth/token")]))
    None.

Definition token_response : Response :=
  mkResponse 200 "token data"
    (Some (PDict [("access_token", PStr "token-2");
                  ("refresh_token", PStr "refresh-2");
                  ("expires_in", PInt 3599)]))
    None.

(** A first answer 401, the two answers of a refresh-token login, and a
    second 401. *)
Definition script_401_login_401 : list Response :=
  [unauthorized; oauth_settings; token_response; unauthorized].

(** A refresh token the token endpoint rejects, and the answers of the
    full login that follows. *)
Definition invalid_grant : Response :=
  mkResponse 400 "invalid_grant" (Some (PDict [("error", PStr "invalid_grant")])) None.

Definition redirect_with_authorization : Response :=
  mkResponse 200 "redirect"
    (Some (PDict [("redirect_to", PStr "redirect_uri=com.bmw.connected://oauth&authorization=9s3c")]))
    None.

Definition redirect_with_code : Response :=
  mkResponse 302 "" None
    (Some (mkRequest "GET" "com.bmw.connected://oauth?code=4f7a" [] [] [] None None)).

Definition script_refresh_fails : list Response :=
  [oauth_settings; invalid_grant;
   oauth_settings; redirect_with_authorization; redirect_with_code; token_response].

(** The answers of the China backend to a full login.  The token response
    speaks of two hours; the token itself ([jwt_decode] of [lib]) expires at
    the Unix time 2000000000. *)
Definition public_key : Response :=
  mkResponse 200 "public key"
    (Some (PDict [("data", PDict [("value", PStr "-----BEGIN PUBLIC KEY-----")])]))
    None.

Definition captcha : Response :=
  mkResponse 200 "captcha"
    (Some (PDict [("data", PDict [("verifyId", PStr "verify-1");
                                  ("backGroundImg", PStr "iVBORw0KGgo")])]))
    None.

Definition china_login : Response :=
  mkResponse 200 "china login"
    (Some (PDict [("data", PDict [("access_token", PStr "cn-token");
                                  ("refresh_token", PStr "cn-refresh");
                                  ("gcid", PStr "gcid-1");
                                  ("expires_in", PInt 7200)]);
                  ("expires_in", PInt 7200)]))
    None.

Definition script_china_login : list Response :=
  [public_key; captcha; ok_response; china_login].

(** No token yet; the clock reads the Unix time 1700000000. *)
Definition logged_out : State :=
  mkState (mkCredential PNone PNone PNone PNone) false 1700000000000000 0 0 [].

(** The responses 429, 429, 429, 200. *)
Definition script_429_429_429_200 : list Response :=
  [rate_limited; rate_limited; rate_limited; ok_response].

(** A 429 of a gateway, whose body is not JSON. *)
Definition busy : Response := mkResponse 429 "Too Many Requests" None None.


(** A server error. *)
Definition server_error : Response :=
  mkResponse 500 "Internal Server Error" None None.

(** A 403 that does not speak of a quota. *)
Definition forbidden : Response := mkResponse 403 "Forbidden" None None.

(** The answers to a full login of the rest of the world, and to the
    request that follows it. *)
Definition script_full_login_then_200 : list Response :=
  [oauth_settings; redirect_with_authorization; redirect_with_code; token_response;
   ok_response].

(** A transport that has no connection. *)
Definition offline : Env :=
  mkEnv (fun _ _ => Err (TransportError "connection refused")) (fun _ => 0)
        (fun _ _ => "c3f1a9d2-0000-4000-8000-00000000002a").

(** A China credential with a refresh token at hand. *)
Definition logged_in_china : State :=
  start (mkCredential (PStr "cn-token-0") PNone (PStr "cn-refresh-0") (PStr "gcid-0")).

(** The China backend rejects the refresh token, and then fails on the
    login request of the full login. *)
Definition script_china_refresh_and_login_fail : list Response :=
  [invalid_grant; public_key; captcha; ok_response; server_error].

(** The token request of a refresh in the rest of the world, as it goes out
    for [logged_in] after [oauth_settings]. *)
Definition refresh_token_request : Request :=
  mkRequest "POST" "https://customer.bmwgroup.com/gcdm/oauth/token"
    [("user-agent", "Dart/3.3 (dart:io)");
     ("x-user-agent", "android(AP2A.240605.024);bmw;4.9.2(36892);row")]
    []
    [("scope", PStr "openid profile");
     ("redirect_uri", PStr "com.bmw.connected://oauth");
     ("grant_type", PStr "refresh_token");
     ("refresh_token", PStr "refresh-1")]
    None (Some (PStr "31c357a0", PStr "c0e3393d")).

(** Two callers of the flow, and a schedule that lets the first one into
    its login and then names both of them in turn. *)
Definition two_callers : list (prog Response) :=
  map (MyBMWAuthentication.apply lib (account REST_OF_WORLD) (fun _ => None))
      [request; request].

Definition first_then_both : list nat := [0; 1; 0; 1; 0; 1; 1; 0]%nat.

(** The two callers named in turn, [n] times each. *)
Definition in_turns (n : nat) : list nat := List.concat (List.repeat [0; 1]%nat n).

End Demo.

(** ** The strategies of a region, by name *)

(** The names under which [login] calls the refresh function and the full
    login of a region. *)
Definition refresh_name (rg : Regions) : string :=
  match rg with CHINA => "_refresh_token_china" | _ => "_refresh_token_row_na" end.

Definition full_login_name (rg : Regions) : string :=
  match rg with CHINA => "_login_china" | _ => "_login_row_na" end.

(** An effect that is not a call of [fn]. *)
Definition no_call_of (fn : string) (n : node) : Prop :=
  match n with NNote (EvCall f) => f <> fn | _ => True end.

(** The refresh function and the full login of the region of [me]. *)
Definition refresh_strategy (lib : Externals) (me : Account)
  : prog (list (string * pyobj)) :=
  match region me with
  | CHINA => MyBMWAuthentication._refresh_token_china lib me
  | _ => MyBMWAuthentication._refresh_token_row_na lib me
  end.

Definition full_login_strategy (lib : Externals) (me : Account)
  : prog (list (string * pyobj)) :=
  match region me with
  | CHINA => MyBMWAuthentication._login_china lib me
  | _ => MyBMWAuthentication._login_row_na lib me
  end.

(** ** A run on its own trace *)

(** The state [st] with the trace [l] in place of its own. *)
Definition with_log (l : list event) (st : State) : State :=
  mkState (self st) (locked st) (clock st) (sent st) (drawn st) l.

(** ** Where the token data of a login comes from *)

(** [supplied env refresh full start td s]: in the run that begins at
    [start], the token data [td] is what one call of a strategy returned, in
    the state [s]: the refresh function [refresh], when a refresh token is
    stored and the function returned something; or the full login [full],
    called at once when no refresh token is stored, or else after [refresh]
    returned [{}]. *)
Definition supplied (env : Env) (refresh full : prog (list (string * pyobj)))
    (start : State) (td : list (string * pyobj)) (s : State) : Prop :=
  (Py.truthy (refresh_token (self start)) = true
   /\ td <> []
   /\ run env refresh start = (Returned td, s))
  \/ (Py.truthy (refresh_token (self start)) = false
      /\ run env full start = (Returned td, s))
  \/ (Py.truthy (refresh_token (self start)) = true
      /\ exists s_r,
           run env refresh start = (Returned [], s_r)
           /\ run env full s_r = (Returned td, s)).

(** ** What goes out *)


(** The headers of a request that go by the name [key], in whatever case
    the name is written. *)
Definition header_values (key : string) (hs : list (string * string))
  : list (string * string) :=
  filter (fun kv => same_header (fst kv) key) hs.


(** ** The flows, piece by piece *)

(** The end of [MyBMWLoginRetry.async_auth_flow], after the loop. *)
Definition login_retry_end (response : Response) : prog unit :=
  if status_code response =? 429 then
    if raise_for_status response
    then Raise (handle_httpstatuserror response)
    else Ret tt
  else Ret tt.

(** An effect that neither blocks nor touches the lock. *)
Definition free_node (n : node) : Prop :=
  match n with NYield _ | NAcquire | NRelease => False | _ => True end.

(** How a run may end for the lock to be free afterwards. *)
Definition ends_unlocked {A : Type} (out : outcome A * State) : Prop :=
  fst out <> Stuck /\ locked (snd out) = false.

(** ** Several callers on one event loop

    The callers of one authentication object share its attributes and its
    lock.  The event loop runs one of them at a time and may switch at any
    effect; this allows every interleaving asyncio can produce, and more.  The
    clock of the shared state adds up the waits of all callers; nothing below
    reads it. *)

(** One step of a task on the shared state.  [None]: the task cannot move,
    because it is over, or waits for the lock, or yields to no driver. *)
Definition step {A : Type} (env : Env) (p : prog A) (st : State)
  : option (prog A * State) :=
  match p with
  | Ret _ | Raise _ | Yield _ _ => None
  | Send req k => let (r, st') := exchange env req st in Some (k r, st')
  | Sleep secs k => Some (k, pass_time secs st)
  | Now k => Some (k (clock st), record (EvNow (clock st)) st)
  | Acquire k => if locked st then None else Some (k, set_locked true st)
  | Release k => Some (k, set_locked false st)
  | Getattr f k => Some (k (get_field f (self st)), st)
  | Setattr f v k => Some (k, assign f v st)
  | Fresh kind k => let (s, st') := draw env kind st in Some (k s, st')
  | Note ev k => Some (k, record ev st)
  end.

Definition finished {A : Type} (p : prog A) : bool :=
  match p with Ret _ | Raise _ => true | _ => false end.

Fixpoint set_nth {X : Type} (i : nat) (x : X) (l : list X) : list X :=
  match l, i with
  | [], _ => []
  | _ :: l', O => x :: l'
  | y :: l', S i' => y :: set_nth i' x l'
  end.

(** The task [i] of the pool takes a turn: one step, if it can move. *)
Definition turn {A : Type} (env : Env) (i : nat) (tasks : list (prog A)) (st : State)
  : list (prog A) * State :=
  match nth_error tasks i with
  | Some p =>
      match step env p st with
      | Some (p', st') => (set_nth i p' tasks, st')
      | None => (tasks, st)
      end
  | None => (tasks, st)
  end.

(** The pool under a schedule: the tasks take turns in the order given. *)
Fixpoint run_tasks {A : Type} (env : Env) (schedule : list nat)
    (tasks : list (prog A)) (st : State) : list (prog A) * State :=
  match schedule with
  | [] => (tasks, st)
  | i :: rest =>
      let (tasks', st') := turn env i tasks st in
      run_tasks env rest tasks' st'
  end.

(** [lockwise yields held p]: along every path of [p], starting with the
    lock held by the task or not, the lock is taken only when the task does not
    hold it and given back only when it does; an attribute is assigned and
    [login] is called only while it is held; the task ends, and yields (when
    [yields] allows it at all), only without the lock. *)
Fixpoint lockwise {A : Type} (yields held : bool) (p : prog A) : Prop :=
  match p with
  | Ret _ | Raise _ => held = false
  | Yield _ k => yields = true /\ held = false /\ forall r, lockwise yields held (k r)
  | Send _ k => forall r, lockwise yields held (k r)
  | Sleep _ k => lockwise yields held k
  | Now k => forall t, lockwise yields held (k t)
  | Acquire k => held = false /\ lockwise yields true k
  | Release k => held = true /\ lockwise yields false k
  | Getattr _ k => forall v, lockwise yields held (k v)
  | Setattr _ _ k => held = true /\ lockwise yields held k
  | Fresh _ k => forall s, lockwise yields held (k s)
  | Note ev k => (is_call "login" ev = true -> held = true) /\ lockwise yields held k
  end.

(** A task of the pool holds the lock when the next thing it does with the
    lock, on every path, is to give it back. *)
Definition holds_lock {A : Type} (p : prog A) : Prop := lockwise false true p.

Definition holders (flags : list bool) : nat := List.length (filter (fun b => b) flags).

(** An effect outside the lock: it neither touches the lock nor assigns an
    attribute nor calls [login] or any other function that records its
    calls. *)
Definition quiet_node (n : node) : Prop :=
  match n with
  | NAcquire | NRelease | NSetattr _ _ => False
  | NNote ev => is_a_call ev = false
  | _ => True
  end.

(** The callers of the pool: one call of the flow for each request. *)
Definition callers (lib : Externals) (me : Account) (hook : Response -> option exn)
    (requests : list Request) : list (prog Response) :=
  map (MyBMWAuthentication.apply lib me hook) requests.

(** [calm p]: as long as every access token it reads is truthy and no
    response it gets is a 401, [p] assigns no attribute and calls neither
    [login] nor a strategy. *)
Fixpoint calm {A : Type} (p : prog A) : Prop :=
  match p with
  | Ret _ | Raise _ => True
  | Yield _ k => forall r, status_code r <> 401 -> calm (k r)
  | Send _ k =>
      forall r, (forall resp, r = Ok resp -> status_code resp <> 401) -> calm (k r)
  | Sleep _ k => calm k
  | Now k => forall t, calm (k t)
  | Acquire k => calm k
  | Release k => calm k
  | Getattr f k => forall v, (f = AccessToken -> Py.truthy v = true) -> calm (k v)
  | Setattr _ _ _ => False
  | Fresh _ k => forall s, calm (k s)
  | Note ev k => is_a_call ev = false /\ calm k
  end.

(** The first block of the flow, under the lock. *)
Definition login_if_no_token (lib : Externals) (me : Account) : prog unit :=
  token <- getattr AccessToken ;;
  if negb (Py.truthy token) then MyBMWAuthentication.login lib me else Ret tt.

(** A caller inside a block under the lock: [b] is what is left of the
    block, [f] what the flow does after it. *)
Definition under_lock (hook : Response -> option exn) (f : unit -> prog unit)
    (b : prog unit) : prog Response :=
  send_handling_auth hook
    (bind (try_finally b (Release (Note EvRelease (Ret tt)))) f) None.

(** * Properties *)

(** ** The wait computed from a 429 body *)

Lemma int_of_str_char (c : ascii) :
  Py.int_of_str (String c EmptyString) = Py.int_of_char c.
Proof.
  unfold Py.int_of_str, Py.int_of_digits.
  change (Nat.ltb Py.max_str_digits (String.length (String c EmptyString)))
    with false.
  cbv iota. destruct (Py.int_of_char c); [|reflexivity].
  f_equal.
Qed.








(** ** Counting events *)

Lemma count_app (p : event -> bool) (l1 l2 : list event) :
  count p (l1 ++ l2) = (count p l1 + count p l2)%nat.
Proof. unfold count. rewrite filter_app, length_app. reflexivity. Qed.

(** ** The retry loop on a run of 429 responses *)

Lemma is_quota_429 (lib : Externals) (r : Response) :
  status_code r = 429 -> MyBMWAuthentication.is_quota r = true.
Proof. intros H. unfold MyBMWAuthentication.is_quota. rewrite H. reflexivity. Qed.

Lemma retry_once_429 (req : Request) (r : Response) (w : Z) :
  status_code r = 429 -> wait_time r = Ok w ->
  retry_once req r
  = Note (EvDebug "Sleeping %s seconds due to 429 Too Many Requests")
      (Sleep w (Yield req (fun r' => Ret r'))).
Proof. intros Hs Hw. unfold retry_once. rewrite Hs, Hw. reflexivity. Qed.

Lemma retry_once_other (req : Request) (r : Response) :
  status_code r <> 429 -> retry_once req r = Ret r.
Proof.
  intros Hs. unfold retry_once.
  destruct (status_code r =? 429) eqn:E; [|reflexivity].
  apply Z.eqb_eq in E. contradiction.
Qed.

Lemma hook_passes_429 (r : Response) :
  status_code r = 429 ->
  MyBMWLoginClient.raise_for_status_event_handler r = None.
Proof.
  intros H. unfold MyBMWLoginClient.raise_for_status_event_handler.
  rewrite H. rewrite Bool.andb_false_r. reflexivity.
Qed.

Lemma hook_passes_success (r : Response) :
  is_success r = true ->
  MyBMWLoginClient.raise_for_status_event_handler r = None.
Proof.
  intros H. unfold MyBMWLoginClient.raise_for_status_event_handler, raise_for_status.
  rewrite H. destruct (is_error r && negb (status_code r =? 429)); reflexivity.
Qed.

Section FourResponses.

Variables (lib : Externals) (me : Account) (env : Env) (hook : Response -> option exn).
Variables (req : Request) (st : State).
Variables (r1 r2 r3 r4 : Response) (w1 w2 w3 : Z).

Let sent_req : Request :=
  MyBMWAuthentication.with_auth_headers lib me (access_token (self st)) req.

(** The state after the four exchanges and the three waits between them;
    [q] is the request as sent and [prelude] what was logged before the
    first exchange. *)
Definition after_three_retries (q : Request) (prelude : list event) : State :=
  mkState (self st) false
    (clock st + latency env (sent st)
     + timedelta_seconds w1 + latency env (S (sent st))
     + timedelta_seconds w2 + latency env (S (S (sent st)))
     + timedelta_seconds w3 + latency env (S (S (S (sent st)))))
    (S (S (S (S (sent st))))) (drawn st)
    (round q w3 r4 ++ round q w2 r3 ++ round q w1 r2
     ++ [EvRecv (Ok r1); EvSend q] ++ prelude ++ log st).

Hypothesis unlocked : locked st = false.
Hypothesis st1 : status_code r1 = 429.
Hypothesis st2 : status_code r2 = 429.
Hypothesis st3 : status_code r3 = 429.
Hypothesis wt1 : wait_time r1 = Ok w1.
Hypothesis wt2 : wait_time r2 = Ok w2.
Hypothesis wt3 : wait_time r3 = Ok w3.

(** The authenticated flow, on a credential that has a token. *)
Lemma auth_flow_three_retries :
  Py.truthy (access_token (self st)) = true ->
  reply env (sent st) sent_req = Ok r1 ->
  reply env (S (sent st)) sent_req = Ok r2 ->
  reply env (S (S (sent st))) sent_req = Ok r3 ->
  reply env (S (S (S (sent st)))) sent_req = Ok r4 ->
  hook r1 = None -> hook r2 = None -> hook r3 = None -> hook r4 = None ->
  run env (MyBMWAuthentication.apply lib me hook req) st
  = (if raise_for_status r4
     then Raised (handle_httpstatuserror r4)
     else Returned r4,
     after_three_retries sent_req [EvRelease; EvAcquire]).
Proof.
  intros Ht Q1 Q2 Q3 Q4 H1 H2 H3 H4. subst sent_req.
  unfold MyBMWAuthentication.apply, client_send,
    MyBMWAuthentication.async_auth_flow, MyBMWAuthentication.attach, with_lock.
  cbn -[MyBMWAuthentication.with_auth_headers wait_time retry_once].
  rewrite unlocked. cbn -[MyBMWAuthentication.with_auth_headers wait_time retry_once].
  rewrite Ht. cbn -[MyBMWAuthentication.with_auth_headers wait_time retry_once].
  rewrite Q1, H1, st1, (is_quota_429 lib r1 st1).
  cbn -[MyBMWAuthentication.with_auth_headers wait_time retry_once].
  rewrite (retry_once_429 _ _ _ st1 wt1).
  cbn -[MyBMWAuthentication.with_auth_headers wait_time retry_once].
  rewrite Q2, H2, (retry_once_429 _ _ _ st2 wt2).
  cbn -[MyBMWAuthentication.with_auth_headers wait_time retry_once].
  rewrite Q3, H3, (retry_once_429 _ _ _ st3 wt3).
  cbn -[MyBMWAuthentication.with_auth_headers wait_time retry_once].
  rewrite Q4, H4. unfold after_three_retries, round.
  destruct (raise_for_status r4); reflexivity.
Qed.

(** The login client's flow; a 429 passes the client's response hook. *)
Lemma login_flow_three_retries :
  reply env (sent st) req = Ok r1 ->
  reply env (S (sent st)) req = Ok r2 ->
  reply env (S (S (sent st))) req = Ok r3 ->
  reply env (S (S (S (sent st)))) req = Ok r4 ->
  status_code r4 = 429 \/ is_success r4 = true ->
  run env (MyBMWLoginClient.send req) st
  = (if status_code r4 =? 429
     then Raised (handle_httpstatuserror r4)
     else Returned r4,
     mkState (self st) (locked st)
       (clock (after_three_retries req [])) (sent (after_three_retries req []))
       (drawn st) (log (after_three_retries req []))).
Proof.
  intros Q1 Q2 Q3 Q4 H4.
  assert (K4 : MyBMWLoginClient.raise_for_status_event_handler r4 = None).
  { destruct H4; [apply hook_passes_429 | apply hook_passes_success]; assumption. }
  unfold MyBMWLoginClient.send, client_send, MyBMWLoginRetry.async_auth_flow.
  cbn -[wait_time retry_once MyBMWLoginClient.raise_for_status_event_handler].
  rewrite Q1, (hook_passes_429 _ st1), (retry_once_429 _ _ _ st1 wt1).
  cbn -[wait_time retry_once MyBMWLoginClient.raise_for_status_event_handler].
  rewrite Q2, (hook_passes_429 _ st2), (retry_once_429 _ _ _ st2 wt2).
  cbn -[wait_time retry_once MyBMWLoginClient.raise_for_status_event_handler].
  rewrite Q3, (hook_passes_429 _ st3), (retry_once_429 _ _ _ st3 wt3).
  cbn -[wait_time retry_once MyBMWLoginClient.raise_for_status_event_handler].
  rewrite Q4, K4.
  destruct (status_code r4 =? 429) eqn:E.
  - apply Z.eqb_eq in E.
    assert (R : raise_for_status r4 = true).
    { unfold raise_for_status, is_success. rewrite E. reflexivity. }
    rewrite R. reflexivity.
  - reflexivity.
Qed.

End FourResponses.

(** ** Four responses in a row *)




(** C2, as the code has it: with responses 429, 429, 429 and then a 2xx,
    both flows sleep three times, once before each of the three resends, and
    the response handed to the caller is the fourth one. *)
Theorem C2_three_sleeps_then_success
    (lib : Externals) (me : Account) (env : Env) (hook : Response -> option exn)
    (req : Request) (st : State) (r1 r2 r3 r4 : Response) (w1 w2 w3 : Z) :
  locked st = false ->
  status_code r1 = 429 -> status_code r2 = 429 ->
  status_code r3 = 429 -> is_success r4 = true ->
  wait_time r1 = Ok w1 -> wait_time r2 = Ok w2 -> wait_time r3 = Ok w3 ->
  (Py.truthy (access_token (self st)) = true ->
   hook r1 = None -> hook r2 = None -> hook r3 = None -> hook r4 = None ->
   let q := MyBMWAuthentication.with_auth_headers lib me (access_token (self st)) req in
   answers env (sent st) q [r1; r2; r3; r4] ->
   let out := run env (MyBMWAuthentication.apply lib me hook req) st in
   fst out = Returned r4
   /\ log (snd out)
      = (round q w3 r4 ++ round q w2 r3 ++ round q w1 r2
        ++ [EvRecv (Ok r1); EvSend q; EvRelease; EvAcquire] ++ log st)%list
   /\ count is_sleep (log (snd out)) = (3 + count is_sleep (log st))%nat)
  /\ (answers env (sent st) req [r1; r2; r3; r4] ->
      let out := run env (MyBMWLoginClient.send req) st in
      fst out = Returned r4
      /\ log (snd out)
         = (round req w3 r4 ++ round req w2 r3 ++ round req w1 r2
           ++ [EvRecv (Ok r1); EvSend req] ++ log st)%list
      /\ count is_sleep (log (snd out)) = (3 + count is_sleep (log st))%nat).
Proof.
  intros Hl S1 S2 S3 S4 W1 W2 W3.
  assert (R4 : raise_for_status r4 = false).
  { unfold raise_for_status. rewrite S4. reflexivity. }
  assert (N4 : (status_code r4 =? 429) = false).
  { unfold is_success in S4. apply Bool.andb_true_iff in S4. destruct S4 as [_ S4].
    apply Z.leb_le in S4. apply Z.eqb_neq. lia. }
  split.
  - intros Ht H1 H2 H3 H4 q [Q1 [Q2 [Q3 [Q4 _]]]] out. subst out q.
    rewrite (auth_flow_three_retries lib me env hook req st r1 r2 r3 r4 w1 w2 w3
               Hl S1 S2 S3 W1 W2 W3 Ht Q1 Q2 Q3 Q4 H1 H2 H3 H4).
    rewrite R4. split; [reflexivity|]. split; [reflexivity|].
    unfold after_three_retries. cbn [snd log]. rewrite !count_app. reflexivity.
  - intros [Q1 [Q2 [Q3 [Q4 _]]]] out. subst out.
    rewrite (login_flow_three_retries env req st r1 r2 r3 r4 w1 w2 w3
               S1 S2 S3 W1 W2 W3 Q1 Q2 Q3 Q4 (or_intror S4)).
    rewrite N4. split; [reflexivity|]. split; [reflexivity|].
    unfold after_three_retries. cbn [snd log]. rewrite !count_app. reflexivity.
Qed.

Lemma C2_three_sleeps_then_success_witness :
  let env := Demo.env_of Demo.script_429_429_429_200 Demo.ok_response in
  fst (run env (MyBMWAuthentication.apply Demo.lib (Demo.account REST_OF_WORLD)
                    (fun _ => None) Demo.request)
         Demo.logged_in)
  = Returned Demo.ok_response
  /\ fst (run env (MyBMWLoginClient.send Demo.request) Demo.logged_in)
     = Returned Demo.ok_response.
Proof.
  intros env.
  destruct (C2_three_sleeps_then_success Demo.lib (Demo.account REST_OF_WORLD) env (fun _ => None)
              Demo.request Demo.logged_in
              Demo.rate_limited Demo.rate_limited Demo.rate_limited Demo.ok_response
              3 3 3 eq_refl eq_refl eq_refl eq_refl eq_refl eq_refl eq_refl eq_refl)
    as [Ha Hb].
  split.
  - apply Ha; try reflexivity. simpl. repeat split.
  - apply Hb. simpl. repeat split.
Defined.

(** C2 as stated fails: on the sequence 429, 429, 429, 200 the authenticated
    flow and the login flow each sleep three times, not twice. *)
Lemma C2_sleeps_twice_counterexample :
  let env := Demo.env_of Demo.script_429_429_429_200 Demo.ok_response in
  map status_code Demo.script_429_429_429_200 = [429; 429; 429; 200]
  /\ count is_sleep
       (log (snd (run env
                    (MyBMWAuthentication.apply Demo.lib (Demo.account REST_OF_WORLD)
                    (fun _ => None) Demo.request)
                    Demo.logged_in))) = 3%nat
  /\ count is_sleep
       (log (snd (run env (MyBMWLoginClient.send Demo.request) Demo.logged_in)))
     = 3%nat
  /\ count is_sleep
       (log (snd (run env
                    (MyBMWAuthentication.apply Demo.lib (Demo.account REST_OF_WORLD)
                    (fun _ => None) Demo.request)
                    Demo.logged_in))) <> 2%nat.
Proof.
  intros env. repeat split; try reflexivity. vm_compute. discriminate.
Qed.

(** ** Laws of the interpreter *)

Lemma run_bind {A B : Type} (env : Env) (p : prog A) (f : A -> prog B) :
  forall st,
    run env (bind p f) st
    = match run env p st with
      | (Returned a, st') => run env (f a) st'
      | (Raised e, st') => (Raised e, st')
      | (Stuck, st') => (Stuck, st')
      end.
Proof.
  induction p as [a|e|req k IH|req k IH|secs k IH|k IH|k IH|k IH|fld k IH|fld v k IH|kind k IH|ev k IH];
    intros st; simpl; auto.
  destruct (locked st); auto.
Qed.

(** A run never reads the trace: what happened before it stays below what
    it adds. *)
Lemma run_with_log {A : Type} (env : Env) (p : prog A) :
  forall st l0,
    run env p (with_log (log st ++ l0) st)
    = (fst (run env p st),
       with_log (log (snd (run env p st)) ++ l0) (snd (run env p st))).
Proof.
  induction p as [a|e|req k IH|req k IH|secs k IH|k IH|k IH|k IH|fld k IH|fld v k IH|kind k IH|ev k IH];
    intros st l0; cbn [run]; try reflexivity.
  - exact (IH (reply env (sent st) req) (snd (exchange env req st)) l0).
  - exact (IH (pass_time secs st) l0).
  - exact (IH (clock st) (record (EvNow (clock st)) st) l0).
  - cbn [with_log locked]. destruct (locked st); [reflexivity|].
    exact (IH (set_locked true st) l0).
  - exact (IH (set_locked false st) l0).
  - exact (IH (get_field fld (self st)) st l0).
  - exact (IH (assign fld v st) l0).
  - exact (IH (entropy env (drawn st) kind) (snd (draw env kind st)) l0).
  - exact (IH (record ev st) l0).
Qed.

Lemma run_try_finally {A : Type} (env : Env) (p : prog A) (fin : prog unit) :
  forall st,
    run env (try_finally p fin) st
    = match run env p st with
      | (Returned a, st') => run env (fin ;; Ret a) st'
      | (Raised e, st') => run env (fin ;; Raise e) st'
      | (Stuck, st') => (Stuck, st')
      end.
Proof.
  induction p as [a|e|req k IH|req k IH|secs k IH|k IH|k IH|k IH|fld k IH|fld v k IH|kind k IH|ev k IH];
    intros st; simpl; auto.
  destruct (locked st); auto.
Qed.

Lemma run_try_except {A : Type} (env : Env) (p : prog A)
    (handler : exn -> option (prog A)) :
  forall st,
    run env (try_except p handler) st
    = match run env p st with
      | (Raised e, st') =>
          match handler e with
          | Some q => run env q st'
          | None => (Raised e, st')
          end
      | other => other
      end.
Proof.
  induction p as [a|e|req k IH|req k IH|secs k IH|k IH|k IH|k IH|fld k IH|fld v k IH|kind k IH|ev k IH];
    intros st; simpl; auto.
  - destruct (handler e); reflexivity.
  - destruct (locked st); auto.
Qed.

Lemma every_bind {A B : Type} (P : node -> Prop) (p : prog A) (f : A -> prog B) :
  every P p -> (forall a, every P (f a)) -> every P (bind p f).
Proof.
  intros Hp Hf.
  induction p as [a|e|req k IH|req k IH|secs k IH|k IH|k IH|k IH|fld k IH|fld v k IH|kind k IH|ev k IH];
    simpl in *; auto;
    try (destruct Hp as [Hn Hk]; split; [exact Hn|]; auto).
Qed.

Lemma every_try_except {A : Type} (P : node -> Prop) (p : prog A)
    (handler : exn -> option (prog A)) :
  every P p ->
  (forall e q, handler e = Some q -> every P q) ->
  every P (try_except p handler).
Proof.
  intros Hp Hh.
  induction p as [a|e|req k IH|req k IH|secs k IH|k IH|k IH|k IH|fld k IH|fld v k IH|kind k IH|ev k IH];
    simpl in *; auto;
    try (destruct Hp as [Hn Hk]; split; [exact Hn|]; auto).
  destruct (handler e) eqn:E; simpl; auto. eapply Hh. exact E.
Qed.

Lemma every_try_finally {A : Type} (P : node -> Prop) (p : prog A) (fin : prog unit) :
  every P p -> every P fin -> every P (try_finally p fin).
Proof.
  intros Hp Hf.
  induction p as [a|e|req k IH|req k IH|secs k IH|k IH|k IH|k IH|fld k IH|fld v k IH|kind k IH|ev k IH];
    simpl in *; auto;
    try (destruct Hp as [Hn Hk]; split; [exact Hn|]; auto).
  - apply every_bind; simpl; auto.
  - apply every_bind; simpl; auto.
Qed.

Lemma every_weaken {A : Type} (P Q : node -> Prop) (p : prog A) :
  (forall n, P n -> Q n) -> every P p -> every Q p.
Proof.
  intros HPQ Hp.
  induction p as [a|e|req k IH|req k IH|secs k IH|k IH|k IH|k IH|fld k IH|fld v k IH|kind k IH|ev k IH];
    simpl in *; auto;
    try (destruct Hp as [Hn Hk]; split; [apply HPQ; exact Hn|]; auto).
Qed.

Lemma every_lift {A : Type} (P : node -> Prop) (r : result A) : every P (lift r).
Proof. destruct r; exact I. Qed.

Lemma every_send_handling_auth (P : node -> Prop) (hook : Response -> option exn)
    (flow : prog unit) :
  every (driven P) flow -> forall last, every P (send_handling_auth hook flow last).
Proof.
  induction flow as [a|e|req k IH|req k IH|secs k IH|k IH|k IH|k IH|fld k IH|fld v k IH|kind k IH|ev k IH];
    simpl; intros Hf last; auto;
    try (destruct Hf as [Hn Hk]; split; [exact Hn|]; auto).
  - destruct last; exact I.
  - intros [r|e]; simpl; auto. destruct (hook r); simpl; auto.
Qed.

Lemma run_driver_bind {A : Type} (env : Env) (hook : Response -> option exn)
    (p : prog A) (k : A -> prog unit) (last : option Response) :
  every no_yield p ->
  forall st,
    run env (send_handling_auth hook (bind p k) last) st
    = match run env p st with
      | (Returned a, st') => run env (send_handling_auth hook (k a) last) st'
      | (Raised e, st') => (Raised e, st')
      | (Stuck, st') => (Stuck, st')
      end.
Proof.
  induction p as [a|e|req k' IH|req k' IH|secs k' IH|k' IH|k' IH|k' IH|fld k' IH|fld v k' IH|kind k' IH|ev k' IH];
    simpl; intros Hp st; auto;
    try (destruct Hp as [Hn Hk]).
  - destruct Hn.
  - unfold exchange. apply IH. apply Hk.
  - apply IH. exact Hk.
  - apply IH. apply Hk.
  - destruct (locked st); auto.
  - apply IH. exact Hk.
  - apply IH. apply Hk.
  - apply IH. exact Hk.
  - unfold draw. apply IH. apply Hk.
  - apply IH. exact Hk.
Qed.

(** ** The effects of the login strategies *)

Lemma strategy_is_login_node (n : node) : strategy_node n -> login_node n.
Proof. destruct n as [| | | | | | | | |ev]; simpl; auto. destruct ev; auto. Qed.

Lemma login_node_no_yield (n : node) : called_login_node n -> no_yield n.
Proof. intros [H|H]; [destruct n; simpl; auto | subst; exact I]. Qed.

Create HintDb effects.

Ltac walk :=
  repeat first
    [ exact I
    | discriminate
    | apply every_lift
    | apply every_bind; [|intros]
    | apply every_try_except; [|intros]
    | match goal with
      | |- every _ (if ?b then _ else _) => destruct b
      | |- every _ (match ?x with _ => _ end) => destruct x
      | |- _ /\ _ => split
      | |- forall _, _ => intro
      end
    | solve [auto with effects]
    | progress simpl ].

Lemma every_retry_loop (n : nat) (req : Request) :
  forall r, every retry_node (retry_loop n req r).
Proof.
  induction n as [|n IH]; intros r; simpl; [exact I|].
  apply every_bind; [|intros a; apply IH].
  unfold retry_once. destruct (status_code r =? 429); [|exact I].
  apply every_bind; [apply every_lift|]. intros w. simpl. auto.
Qed.

Lemma every_login_client_send (req : Request) :
  every strategy_node (MyBMWLoginClient.send req).
Proof.
  unfold MyBMWLoginClient.send, client_send.
  apply every_send_handling_auth.
  unfold MyBMWLoginRetry.async_auth_flow.
  apply every_bind; [simpl; auto|]. intros r.
  apply every_bind.
  - eapply every_weaken; [|apply every_retry_loop].
    intros n. destruct n as [| | | | | | | | |ev]; simpl; auto.
  - intros r'. destruct (status_code r' =? 429); [|exact I].
    destruct (raise_for_status r'); exact I.
Qed.

Lemma every_login_client_send_with (auth : option (pyobj * pyobj)) (req : Request) :
  every strategy_node (MyBMWLoginClient.send_with auth req).
Proof.
  destruct auth as [[user secret]|]; [|apply every_login_client_send].
  unfold MyBMWLoginClient.send_with.
  apply every_bind; [apply every_lift|]. intros _.
  unfold client_send. apply every_send_handling_auth.
  simpl. auto.
Qed.

#[local] Hint Resolve every_login_client_send every_login_client_send_with : effects.

Section StrategyEffects.

Variable lib : Externals.
Variable me : Account.

Lemma every_client_get (target : pyobj) (hdrs : list (string * string)) :
  every strategy_node (MyBMWAuthentication.client_get lib me target hdrs).
Proof.
  unfold MyBMWAuthentication.client_get, MyBMWAuthentication.build_request. walk.
Qed.

Lemma every_client_post (target : pyobj)
    (hdrs : list (string * string)) (prms dat : list (string * pyobj))
    (js : option pyobj) (auth : option (pyobj * pyobj)) :
  every strategy_node
    (MyBMWAuthentication.client_post lib me target hdrs prms dat js auth).
Proof.
  unfold MyBMWAuthentication.client_post, MyBMWAuthentication.build_request. walk.
Qed.

Hint Resolve every_client_get every_client_post : effects.

Lemma every_get_oauth_settings :
  every strategy_node (MyBMWAuthentication.get_oauth_settings lib me).
Proof. unfold MyBMWAuthentication.get_oauth_settings. walk. Qed.

Lemma every_expiry_from (t : datetime) (v : pyobj) :
  every strategy_node (MyBMWAuthentication.expiry_from lib t v).
Proof. unfold MyBMWAuthentication.expiry_from. walk. Qed.

Hint Resolve every_get_oauth_settings every_expiry_from : effects.

Lemma every_login_row_na : every strategy_node (MyBMWAuthentication._login_row_na lib me).
Proof. unfold MyBMWAuthentication._login_row_na. walk. Qed.

Lemma every_except_api_error {A : Type} (e : exn) (q : prog (option A)) :
  MyBMWAuthentication.except_api_error e = Some q -> every strategy_node q.
Proof.
  unfold MyBMWAuthentication.except_api_error.
  destruct (is_api_error e); [|discriminate].
  intros H. injection H as <-. simpl. auto.
Qed.

Lemma every_refresh_token_row_na :
  every strategy_node (MyBMWAuthentication._refresh_token_row_na lib me).
Proof.
  unfold MyBMWAuthentication._refresh_token_row_na.
  apply every_bind.
  - apply every_try_except; [|apply every_except_api_error].
    unfold MyBMWAuthentication._refresh_token_row_na_try. walk.
  - intros [[response_json expires_at]|]; walk.
Qed.

Lemma every_login_china : every strategy_node (MyBMWAuthentication._login_china lib me).
Proof. unfold MyBMWAuthentication._login_china. walk. Qed.

Lemma every_refresh_token_china :
  every strategy_node (MyBMWAuthentication._refresh_token_china lib me).
Proof.
  unfold MyBMWAuthentication._refresh_token_china.
  apply every_bind.
  - apply every_try_except; [|apply every_except_api_error].
    unfold MyBMWAuthentication._refresh_token_china_try. walk.
  - intros [[response_json expires_at]|]; walk.
Qed.

End StrategyEffects.

(** ** What a run preserves *)

(** [stepwise P R]: each single effect that [P] allows takes a state to a
    state related to it by [R]. *)
Definition stepwise (env : Env) (P : node -> Prop) (R : State -> State -> Prop)
  : Prop :=
  (forall st req, P (NSend req) -> R st (snd (exchange env req st)))
  /\ (forall st secs, P (NSleep secs) -> R st (pass_time secs st))
  /\ (forall st, P NNow -> R st (record (EvNow (clock st)) st))
  /\ (forall st, P NAcquire -> R st (set_locked true st))
  /\ (forall st, P NRelease -> R st (set_locked false st))
  /\ (forall st f v, P (NSetattr f v) -> R st (assign f v st))
  /\ (forall st kind, P (NFresh kind) -> R st (snd (draw env kind st)))
  /\ (forall st ev, P (NNote ev) -> R st (record ev st)).

Lemma run_keeps {A : Type} (env : Env) (P : node -> Prop)
    (R : State -> State -> Prop) (p : prog A) :
  (forall st, R st st) ->
  (forall s1 s2 s3, R s1 s2 -> R s2 s3 -> R s1 s3) ->
  stepwise env P R ->
  every P p ->
  forall st, R st (snd (run env p st)).
Proof.
  intros Hrefl Htrans (Hsend & Hsleep & Hnow & Hacq & Hrel & Hset & Hfresh & Hnote).
  induction p as [a|e|req k IH|req k IH|secs k IH|k IH|k IH|k IH|fld k IH|fld v k IH|kind k IH|ev k IH];
    simpl; intros Hp st; auto;
    try (destruct Hp as [Hn Hk]).
  - eapply Htrans; [apply (Hsend st req Hn)|]. apply IH. apply Hk.
  - eapply Htrans; [apply (Hsleep st secs Hn)|]. apply IH. exact Hk.
  - eapply Htrans; [apply (Hnow st Hn)|]. apply IH. apply Hk.
  - destruct (locked st); [apply Hrefl|].
    eapply Htrans; [apply (Hacq st Hn)|]. apply IH. exact Hk.
  - eapply Htrans; [apply (Hrel st Hn)|]. apply IH. exact Hk.
  - apply IH. apply Hk.
  - eapply Htrans; [apply (Hset st fld v Hn)|]. apply IH. exact Hk.
  - eapply Htrans; [apply (Hfresh st kind Hn)|]. apply IH. apply Hk.
  - eapply Htrans; [apply (Hnote st ev Hn)|]. apply IH. exact Hk.
Qed.

(** A program that neither yields nor takes the lock always comes to an
    end: it returns or it raises. *)
Definition unblocked (n : node) : Prop :=
  match n with NYield _ | NAcquire => False | _ => True end.

Lemma run_ends {A : Type} (env : Env) (p : prog A) :
  every unblocked p -> forall st, fst (run env p st) <> Stuck.
Proof.
  induction p as [a|e|req k IH|req k IH|secs k IH|k IH|k IH|k IH|fld k IH|fld v k IH|kind k IH|ev k IH];
    simpl; intros Hp st; try discriminate;
    destruct Hp as [Hn Hk]; try (destruct Hn); auto.
Qed.

Lemma run_bind_returned {A B : Type} (env : Env) (p : prog A) (f : A -> prog B)
    (st st' : State) (b : B) :
  run env (bind p f) st = (Returned b, st') ->
  exists a st1, run env p st = (Returned a, st1) /\ run env (f a) st1 = (Returned b, st').
Proof.
  rewrite run_bind. destruct (run env p st) as [[a|e|] st1]; intros H.
  - exists a, st1. split; [reflexivity|exact H].
  - discriminate.
  - discriminate.
Qed.

Lemma run_lift_returned {A : Type} (env : Env) (r : result A) (st st' : State) (a : A) :
  run env (lift r) st = (Returned a, st') -> r = Ok a /\ st' = st.
Proof.
  destruct r; simpl; intros H; inversion H; auto.
Qed.

(** The attributes of [self] change only through an assignment. *)
Definition no_setattr (n : node) : Prop :=
  match n with NSetattr _ _ => False | _ => True end.

Lemma run_keeps_self {A : Type} (env : Env) (p : prog A) :
  every no_setattr p -> forall st, self (snd (run env p st)) = self st.
Proof.
  intros Hp st.
  apply (run_keeps env no_setattr (fun s s' => self s' = self s) p); auto.
  - intros s1 s2 s3 H12 H23. congruence.
  - repeat split; intros; simpl; auto. contradiction.
Qed.

(** The lock changes hands only through [Acquire] and [Release]. *)
Definition no_lock (n : node) : Prop :=
  match n with NAcquire | NRelease => False | _ => True end.

Lemma run_keeps_locked {A : Type} (env : Env) (p : prog A) :
  every no_lock p -> forall st, locked (snd (run env p st)) = locked st.
Proof.
  intros Hp st.
  apply (run_keeps env no_lock (fun s s' => locked s' = locked s) p); auto.
  - intros s1 s2 s3 H12 H23. congruence.
  - repeat split; intros; simpl; auto; contradiction.
Qed.

(** The trace only grows. *)
Lemma run_extends_log {A : Type} (env : Env) (p : prog A) :
  forall st, exists new, log (snd (run env p st)) = (new ++ log st)%list.
Proof.
  intros st.
  apply (run_keeps env (fun _ => True)
           (fun s s' => exists new, log s' = (new ++ log s)%list) p).
  - intros s. exists []. reflexivity.
  - intros s1 s2 s3 [l1 H1] [l2 H2]. exists (l2 ++ l1)%list.
    rewrite H2, H1, app_assoc. reflexivity.
  - repeat split; intros; simpl.
    + eexists [_; _]. reflexivity.
    + eexists [_]. reflexivity.
    + eexists [_]. reflexivity.
    + exists []. reflexivity.
    + exists []. reflexivity.
    + eexists [_]. reflexivity.
    + exists []. reflexivity.
    + eexists [_]. reflexivity.
  - clear. induction p as [a|e|req k IH|req k IH|secs k IH|k IH|k IH|k IH|fld k IH|fld v k IH|kind k IH|ev k IH];
      simpl; auto.
Qed.

(** ** The effects of [login] *)

Lemma every_traced {A : Type} (P : node -> Prop) (fn : string) (body : prog A) :
  P (NNote (EvCall fn)) -> P (NNote (EvReturn fn)) ->
  (forall e, P (NNote (EvRaise fn e))) ->
  every P body -> every P (traced fn body).
Proof.
  intros Hc Hr He Hb. unfold traced.
  apply every_bind; [simpl; auto|]. intros _.
  apply every_bind.
  - apply every_try_except; [exact Hb|].
    intros e q H. injection H as <-. simpl. auto.
  - intros a. simpl. auto.
Qed.

Section LoginEffects.

Variable lib : Externals.
Variable me : Account.

Lemma every_traced_strategy (fn : string) (body : prog (list (string * pyobj))) :
  fn <> "login" ->
  every strategy_node body -> every login_node (traced fn body).
Proof.
  intros Hfn H. apply every_traced; simpl; auto.
  eapply every_weaken; [apply strategy_is_login_node|exact H].
Qed.

Lemma every_refresh_or_login (refresh full : prog (list (string * pyobj))) :
  every login_node refresh -> every login_node full ->
  every login_node (MyBMWAuthentication.refresh_or_login refresh full).
Proof.
  intros Hr Hf. unfold MyBMWAuthentication.refresh_or_login.
  apply every_bind; [simpl; repeat split; discriminate|]. intros stored.
  apply every_bind.
  - destruct (Py.truthy stored); [exact Hr|exact I].
  - intros td. destruct (negb (Py.truthy (PDict td))); [exact Hf|exact I].
Qed.

Lemma every_shift_expiry (td : list (string * pyobj)) :
  every login_node (MyBMWAuthentication.shift_expiry lib td).
Proof.
  unfold MyBMWAuthentication.shift_expiry, MyBMWAuthentication.item. walk.
Qed.

Lemma every_store_tokens (td : list (string * pyobj)) :
  every login_node (MyBMWAuthentication.store_tokens td).
Proof.
  unfold MyBMWAuthentication.store_tokens, MyBMWAuthentication.item. walk.
Qed.

Lemma every_login_body : every login_node (MyBMWAuthentication.login_body lib me).
Proof.
  unfold MyBMWAuthentication.login_body, MyBMWAuthentication.token_data_for_region.
  apply every_bind; [|intros td; apply every_store_tokens].
  destruct (region me).
  - apply every_bind; [|intros td; apply every_shift_expiry].
    apply every_refresh_or_login; apply every_traced_strategy;
      try discriminate;
      [apply every_refresh_token_row_na | apply every_login_row_na].
  - apply every_bind; [|intros td; apply every_shift_expiry].
    apply every_refresh_or_login; apply every_traced_strategy;
      try discriminate;
      [apply every_refresh_token_row_na | apply every_login_row_na].
  - apply every_bind.
    + apply every_refresh_or_login; apply every_traced_strategy;
        try discriminate;
        [apply every_refresh_token_china | apply every_login_china].
    + intros td. apply every_bind; [apply every_shift_expiry|]. intros td'.
      unfold MyBMWAuthentication.item. walk.
Qed.

Lemma every_login : every called_login_node (MyBMWAuthentication.login lib me).
Proof.
  unfold MyBMWAuthentication.login.
  apply every_traced; try (left; exact I); [right; reflexivity|].
  eapply every_weaken; [|apply every_login_body]. intros n H. left. exact H.
Qed.

(** [login] always comes to an end, and never touches the lock. *)
Lemma login_ends (env : Env) (st : State) :
  fst (run env (MyBMWAuthentication.login lib me) st) <> Stuck.
Proof.
  apply run_ends. eapply every_weaken; [|apply every_login].
  intros n [H|H]; [destruct n; simpl; auto | subst; exact I].
Qed.

Lemma login_keeps_locked (env : Env) (st : State) :
  locked (snd (run env (MyBMWAuthentication.login lib me) st)) = locked st.
Proof.
  apply run_keeps_locked. eapply every_weaken; [|apply every_login].
  intros n [H|H]; [destruct n; simpl; auto | subst; exact I].
Qed.

End LoginEffects.

(** ** The first response of the authenticated flow *)

(** The lock given back at the end of an [async with] block. *)
Definition released (st : State) : State := record EvRelease (set_locked false st).


(** The state in which the flow has its first response [r1] to the request
    [q]: the lock was taken and given back, nothing else has happened. *)
Definition first_answered (env : Env) (q : Request) (r1 : Response) (st : State)
  : State :=
  mkState (self st) false (clock st + latency env (sent st)) (S (sent st))
    (drawn st) (EvRecv (Ok r1) :: EvSend q :: EvRelease :: EvAcquire :: log st).

Section FirstResponse.

Variables (lib : Externals) (me : Account) (env : Env).
Variables (hook : Response -> option exn) (req : Request) (st : State).
Variable r1 : Response.

Let q : Request :=
  MyBMWAuthentication.with_auth_headers lib me (access_token (self st)) req.

Hypothesis unlocked : locked st = false.
Hypothesis has_token : Py.truthy (access_token (self st)) = true.
Hypothesis first_reply : reply env (sent st) q = Ok r1.
Hypothesis hook_passes : hook r1 = None.

(** With a token at hand the flow sends the request at once, the token in
    its authorization header. *)
Lemma auth_flow_first_response :
  run env (MyBMWAuthentication.apply lib me hook req) st
  = run env
      (send_handling_auth hook
         (if status_code r1 =? 401 then
            with_lock
              (debug "Received unauthorized response, refreshing token." ;;
               MyBMWAuthentication.login lib me) ;;
            request <- MyBMWAuthentication.attach lib me q ;;
            _ <- yield_ request ;;
            Ret tt
          else if MyBMWAuthentication.is_quota r1 then
            response <- retry_loop 3 q r1 ;;
            if raise_for_status response
            then Raise (handle_httpstatuserror response)
            else Ret tt
          else Ret tt)
         (Some r1))
      (first_answered env q r1 st).
Proof.
  unfold MyBMWAuthentication.apply, client_send,
    MyBMWAuthentication.async_auth_flow, MyBMWAuthentication.attach, with_lock.
  cbn -[MyBMWAuthentication.login MyBMWAuthentication.with_auth_headers
        MyBMWAuthentication.is_quota retry_loop].
  rewrite unlocked.
  cbn -[MyBMWAuthentication.login MyBMWAuthentication.with_auth_headers
        MyBMWAuthentication.is_quota retry_loop].
  rewrite has_token.
  cbn -[MyBMWAuthentication.login MyBMWAuthentication.with_auth_headers
        MyBMWAuthentication.is_quota retry_loop].
  fold q. rewrite first_reply, hook_passes. reflexivity.
Qed.



(** Any other first response is the result. *)
Lemma auth_flow_plain_response :
  status_code r1 <> 401 ->
  MyBMWAuthentication.is_quota r1 = false ->
  run env (MyBMWAuthentication.apply lib me hook req) st
  = (Returned r1, first_answered env q r1 st).
Proof.
  intros Hs Hq. rewrite auth_flow_first_response.
  assert (H401 : (status_code r1 =? 401) = false) by (apply Z.eqb_neq; exact Hs).
  rewrite H401, Hq. reflexivity.
Qed.

End FirstResponse.

(** ** How often [login] is called *)

Lemma count_cons (p : event -> bool) (ev : event) (l : list event) :
  count p (ev :: l) = ((if p ev then 1 else 0) + count p l)%nat.
Proof. unfold count. simpl. destruct (p ev); reflexivity. Qed.

Lemma body_keeps_login_calls {A : Type} (env : Env) (p : prog A) :
  every login_node p ->
  forall st,
    count (is_call "login") (log (snd (run env p st)))
    = count (is_call "login") (log st).
Proof.
  intros Hp st.
  apply (run_keeps env login_node
           (fun s s' => count (is_call "login") (log s')
                        = count (is_call "login") (log s)) p); auto.
  - intros s1 s2 s3 H12 H23. congruence.
  - repeat split; intros; simpl; auto; try contradiction.
    destruct ev; simpl in *; try contradiction; rewrite count_cons; simpl; auto.
    destruct (String.eqb fn "login") eqn:E; [|reflexivity].
    apply String.eqb_eq in E. contradiction.
Qed.

Lemma login_counts_once (lib : Externals) (me : Account) (env : Env) (st : State) :
  count (is_call "login") (log (snd (run env (MyBMWAuthentication.login lib me) st)))
  = S (count (is_call "login") (log st)).
Proof.
  unfold MyBMWAuthentication.login, traced.
  cbn [note bind run record].
  rewrite run_bind, run_try_except.
  pose proof (body_keeps_login_calls env (MyBMWAuthentication.login_body lib me)
                (every_login_body lib me)
                (record (EvCall "login") st)) as Hbody.
  destruct (run env (MyBMWAuthentication.login_body lib me)
              (record (EvCall "login") st)) as [[u|e|] st1];
    cbn in Hbody |- *; exact Hbody.
Qed.

(** ** The expiry is written, never read *)

Definition no_read_expiry (n : node) : Prop :=
  match n with NGetattr ExpiresAt => False | _ => True end.

(** Two states that differ at most in [self.expires_at]. *)
Definition same_but_expiry (s1 s2 : State) : Prop :=
  access_token (self s1) = access_token (self s2)
  /\ refresh_token (self s1) = refresh_token (self s2)
  /\ gcid (self s1) = gcid (self s2)
  /\ locked s1 = locked s2
  /\ clock s1 = clock s2
  /\ sent s1 = sent s2
  /\ drawn s1 = drawn s2
  /\ log s1 = log s2.

(** [self.expires_at = v], from outside the module. *)
Definition with_expires_at (v : pyobj) (st : State) : State :=
  mkState (set_field ExpiresAt v (self st)) (locked st) (clock st) (sent st)
          (drawn st) (log st).

Lemma same_but_expiry_with (v : pyobj) (st : State) :
  same_but_expiry (with_expires_at v st) st.
Proof. repeat split. Qed.

Lemma run_blind_to_expiry {A : Type} (env : Env) (p : prog A) :
  every no_read_expiry p ->
  forall s1 s2, same_but_expiry s1 s2 ->
    fst (run env p s1) = fst (run env p s2)
    /\ same_but_expiry (snd (run env p s1)) (snd (run env p s2)).
Proof.
  induction p as [a|e|req k IH|req k IH|secs k IH|k IH|k IH|k IH|fld k IH|fld v k IH|kind k IH|ev k IH];
    simpl; intros Hp s1 s2 Hs; auto;
    destruct Hp as [Hn Hk];
    pose proof Hs as (Ha & Hr & Hg & Hl & Hc & Hse & Hd & Hlog).
  - unfold exchange. rewrite Hse. apply IH; [apply Hk|].
    repeat split; simpl; congruence.
  - apply IH; [exact Hk|]. repeat split; simpl; congruence.
  - rewrite Hc. apply IH; [apply Hk|]. repeat split; simpl; congruence.
  - rewrite Hl. destruct (locked s2); [split; [reflexivity|exact Hs]|].
    apply IH; [exact Hk|]. repeat split; simpl; congruence.
  - apply IH; [exact Hk|]. repeat split; simpl; congruence.
  - assert (Hv : get_field fld (self s1) = get_field fld (self s2)).
    { destruct fld; simpl; auto. destruct Hn. }
    rewrite Hv. apply IH; [apply Hk|exact Hs].
  - apply IH; [exact Hk|]. destruct fld; repeat split; simpl; congruence.
  - unfold draw. rewrite Hd. apply IH; [apply Hk|].
    repeat split; simpl; congruence.
  - apply IH; [exact Hk|]. repeat split; simpl; congruence.
Qed.

Lemma called_login_no_read_expiry (n : node) :
  called_login_node n -> no_read_expiry n.
Proof.
  intros [H|H]; [|subst; exact I].
  destruct n as [| | | | | |f| | |]; simpl in *; auto.
  destruct f; auto. destruct H as [H _]. apply H. reflexivity.
Qed.

Lemma every_with_lock {A : Type} (P : node -> Prop) (body : prog A) :
  P NAcquire -> P NRelease -> P (NNote EvAcquire) -> P (NNote EvRelease) ->
  every P body -> every P (with_lock body).
Proof.
  intros Ha Hr Hna Hnr Hb. unfold with_lock. simpl.
  split; [exact Ha|]. split; [exact Hna|].
  apply every_try_finally; [exact Hb|]. simpl. auto.
Qed.

Lemma auth_flow_no_read_expiry (lib : Externals) (me : Account) (req : Request) :
  every (driven no_read_expiry) (MyBMWAuthentication.async_auth_flow lib me req).
Proof.
  assert (Hlogin : every (driven no_read_expiry) (MyBMWAuthentication.login lib me)).
  { eapply every_weaken; [|apply every_login].
    intros n H. pose proof (called_login_no_read_expiry n H) as H'.
    destruct H as [H|H]; [|subst; exact I]. destruct n; simpl in *; auto. }
  assert (Hretry : forall n q r, every (driven no_read_expiry) (retry_loop n q r)).
  { intros n q r. eapply every_weaken; [|apply every_retry_loop].
    intros m. destruct m; simpl; auto; contradiction. }
  unfold MyBMWAuthentication.async_auth_flow, MyBMWAuthentication.attach.
  apply every_bind.
  - apply every_with_lock; try exact I.
    apply every_bind; [simpl; auto|]. intros tok.
    destruct (negb (Py.truthy tok)); [exact Hlogin|exact I].
  - intros _. apply every_bind; [simpl; auto|]. intros request.
    apply every_bind; [simpl; auto|]. intros response.
    destruct (status_code response =? 401).
    + apply every_bind.
      * apply every_with_lock; try exact I.
        apply every_bind; [simpl; auto|]. intros _. exact Hlogin.
      * intros _. simpl. auto.
    + destruct (MyBMWAuthentication.is_quota response); [|exact I].
      apply every_bind; [apply Hretry|]. intros r.
      destruct (raise_for_status r); exact I.
Qed.

Lemma set_item_in (key value : string) (hs : list (string * string)) :
  In (key, value) (set_item key value hs).
Proof.
  induction hs as [|[k v] hs IH]; simpl; [left; reflexivity|].
  destruct (same_header k key); [left; reflexivity|right; exact IH].
Qed.

Lemma del_item_in (key k v : string) (hs : list (string * string)) :
  In (k, v) (del_item key hs) <-> In (k, v) hs /\ same_header k key = false.
Proof.
  unfold del_item. rewrite filter_In. simpl.
  rewrite Bool.negb_true_iff. reflexivity.
Qed.

Lemma set_item_keeps (key value k v : string) (hs : list (string * string)) :
  same_header k key = false -> In (k, v) hs -> In (k, v) (set_item key value hs).
Proof.
  intros Hk. induction hs as [|[k' v'] hs IH]; simpl; [tauto|].
  intros [H|H].
  - injection H as -> ->. rewrite Hk. left; reflexivity.
  - destruct (same_header k' key); right; [|auto].
    apply del_item_in. split; assumption.
Qed.

Lemma bearer_header_attached (lib : Externals) (me : Account) (token : pyobj)
    (req : Request) :
  In ("authorization", "Bearer " ++ py_str lib token)
     (headers (MyBMWAuthentication.with_auth_headers lib me token req))
  /\ In ("bmw-session-id", session_id me)
        (headers (MyBMWAuthentication.with_auth_headers lib me token req)).
Proof.
  unfold MyBMWAuthentication.with_auth_headers, set_header. simpl. split.
  - apply set_item_keeps; [reflexivity|]. apply set_item_in.
  - apply set_item_in.
Qed.

(** ** The claims on the first response *)







(** C10: no effect of the flow, of [login] or of a strategy reads
    [self.expires_at].  So a run does not depend on it: two runs from states
    that differ in [expires_at] only end the same way.  In particular, with
    a token at hand and an expiry in the past, the flow calls no [login]
    before it sends the request, and the request carries the stale token in
    its authorization header. *)
Theorem C10_expiry_never_read
    (lib : Externals) (me : Account) (env : Env) (hook : Response -> option exn)
    (req : Request) (st : State) :
  every no_read_expiry (MyBMWAuthentication.apply lib me hook req)
  /\ every no_read_expiry (MyBMWAuthentication.login lib me)
  /\ (forall v,
        fst (run env (MyBMWAuthentication.apply lib me hook req) (with_expires_at v st))
        = fst (run env (MyBMWAuthentication.apply lib me hook req) st)
        /\ same_but_expiry
             (snd (run env (MyBMWAuthentication.apply lib me hook req)
                     (with_expires_at v st)))
             (snd (run env (MyBMWAuthentication.apply lib me hook req) st)))
  /\ (forall t r1,
        locked st = false ->
        Py.truthy (access_token (self st)) = true ->
        expires_at (self st) = PDatetime t ->
        t < clock st ->
        let q := MyBMWAuthentication.with_auth_headers lib me
                   (access_token (self st)) req in
        reply env (sent st) q = Ok r1 ->
        hook r1 = None ->
        In ("authorization", "Bearer " ++ py_str lib (access_token (self st)))
           (headers q)
        /\ exists new,
             log (snd (run env (MyBMWAuthentication.apply lib me hook req) st))
             = (new ++ EvRecv (Ok r1) :: EvSend q :: EvRelease :: EvAcquire
                    :: log st)%list).
Proof.
  assert (Hflow : every no_read_expiry (MyBMWAuthentication.apply lib me hook req)).
  { unfold MyBMWAuthentication.apply, client_send.
    apply every_send_handling_auth. apply auth_flow_no_read_expiry. }
  split; [exact Hflow|]. split.
  { eapply every_weaken; [apply called_login_no_read_expiry|apply every_login]. }
  split.
  - intros v. apply run_blind_to_expiry; [exact Hflow|apply same_but_expiry_with].
  - intros t r1 Hl Ht He Hpast q Q1 H1. split.
    + apply bearer_header_attached.
    + rewrite (auth_flow_first_response lib me env hook req st r1 Hl Ht Q1 H1).
      match goal with
      | |- context [run env ?p (first_answered env ?q' r1 st)] =>
          destruct (run_extends_log env p (first_answered env q' r1 st)) as [new Hnew]
      end.
      exists new. rewrite Hnew. reflexivity.
Qed.

Lemma C10_expiry_never_read_witness :
  In ("authorization", "Bearer token-1")
     (headers (MyBMWAuthentication.with_auth_headers Demo.lib
                 (Demo.account REST_OF_WORLD) (PStr "token-1") Demo.request))
  /\ exists new,
       log (snd (run (Demo.env_of [] Demo.ok_response)
                   (MyBMWAuthentication.apply Demo.lib (Demo.account REST_OF_WORLD)
                      (fun _ => None) Demo.request)
                   Demo.stale))
       = (new ++ [EvRecv (Ok Demo.ok_response);
                  EvSend (MyBMWAuthentication.with_auth_headers Demo.lib
                            (Demo.account REST_OF_WORLD) (PStr "token-1") Demo.request);
                  EvRelease; EvAcquire])%list.
Proof.
  destruct (C10_expiry_never_read Demo.lib (Demo.account REST_OF_WORLD)
              (Demo.env_of [] Demo.ok_response) (fun _ => None) Demo.request
              Demo.stale) as (_ & _ & _ & Hstale).
  apply (Hstale 1700000000000000 Demo.ok_response); reflexivity.
Defined.

(** ** Inside [login] *)

(** The latest clock reading and the latest response of a trace (newest
    event first). *)
Fixpoint last_now (l : list event) : option datetime :=
  match l with
  | [] => None
  | EvNow t :: _ => Some t
  | _ :: l' => last_now l'
  end.

Fixpoint last_recv (l : list event) : option Response :=
  match l with
  | [] => None
  | EvRecv (Ok r) :: _ => Some r
  | EvRecv (Err _) :: _ => None
  | _ :: l' => last_recv l'
  end.

(** The exchange a trace ends with, and the clock reading it was started
    after: since the response [r] came in, nothing has been sent or received
    and no clock has been read; [r] answered the request [q]; and [t] is the
    latest clock reading from before [q] went out. *)
Fixpoint token_clock (l : list event) : option (datetime * Request * Response) :=
  match l with
  | [] => None
  | EvRecv (Ok r) :: EvSend q :: older =>
      match last_now older with
      | Some t => Some (t, q, r)
      | None => None
      end
  | EvRecv _ :: _ => None
  | EvSend _ :: _ => None
  | EvNow _ :: _ => None
  | _ :: l' => token_clock l'
  end.

Lemma run_traced {A : Type} (env : Env) (fn : string) (body : prog A) (st : State) :
  run env (traced fn body) st
  = match run env body (record (EvCall fn) st) with
    | (Returned a, s1) => (Returned a, record (EvReturn fn) s1)
    | (Raised e, s1) => (Raised e, record (EvRaise fn e) s1)
    | (Stuck, s1) => (Stuck, s1)
    end.
Proof.
  unfold traced. cbn [note bind run].
  rewrite run_bind, run_try_except.
  destruct (run env body (record (EvCall fn) st)) as [[a|e|] s1]; reflexivity.
Qed.

Lemma run_refresh_or_login (env : Env) (refresh full : prog (list (string * pyobj)))
    (st : State) :
  run env (MyBMWAuthentication.refresh_or_login refresh full) st
  = if Py.truthy (refresh_token (self st)) then
      match run env refresh st with
      | (Returned td, s1) =>
          if negb (Py.truthy (PDict td)) then run env full s1
          else (Returned td, s1)
      | other => other
      end
    else run env full st.
Proof.
  unfold MyBMWAuthentication.refresh_or_login.
  cbn [getattr bind run get_field].
  rewrite run_bind.
  destruct (Py.truthy (refresh_token (self st))).
  - destruct (run env refresh st) as [[td|e|] s1]; try reflexivity.
    destruct (negb (Py.truthy (PDict td))); reflexivity.
  - reflexivity.
Qed.

(** What the login client hands back is the response it received last. *)
Lemma retry_loop_returns_last (env : Env) (hook : Response -> option exn)
    (k : Response -> prog unit) (req : Request) (n : nat) :
  (forall r, k r = Ret tt \/ exists e, k r = Raise e) ->
  forall r st r' st',
    run env (send_handling_auth hook (bind (retry_loop n req r) k) (Some r)) st
    = (Returned r', st') ->
    (r' = r /\ st' = st)
    \/ exists l, log st' = EvRecv (Ok r') :: EvSend req :: l
                 /\ last_now l = last_now (log st).
Proof.
  intros Hk. induction n as [|n IH]; intros r st r' st' H.
  - cbn [retry_loop bind] in H.
    destruct (Hk r) as [E|[e E]]; rewrite E in H; cbn in H; inversion H; auto.
  - cbn [retry_loop] in H. unfold retry_once in H.
    destruct (status_code r =? 429).
    + destruct (wait_time r) as [w|e]; cbn in H; [|discriminate].
      destruct (reply env (sent st) req) as [r2|e]; cbn in H; [|discriminate].
      destruct (hook r2); cbn in H; [discriminate|].
      apply IH in H. right. destruct H as [[-> ->]|[l [Hl Hn]]].
      * eexists. split; reflexivity.
      * exists l. split; [exact Hl|exact Hn].
    + cbn [bind] in H. apply IH in H. exact H.
Qed.

(** The response the login client hands back answered the request as the
    last thing of the run, and the client has read no clock. *)
Lemma login_client_returns_exchange (env : Env) (req : Request) (st st' : State)
    (r : Response) :
  run env (MyBMWLoginClient.send req) st = (Returned r, st') ->
  exists l, log st' = EvRecv (Ok r) :: EvSend req :: l
            /\ last_now l = last_now (log st).
Proof.
  unfold MyBMWLoginClient.send, client_send, MyBMWLoginRetry.async_auth_flow.
  cbn -[retry_loop MyBMWLoginClient.raise_for_status_event_handler].
  destruct (reply env (sent st) req) as [r1|e];
    cbn -[retry_loop MyBMWLoginClient.raise_for_status_event_handler];
    [|discriminate].
  destruct (MyBMWLoginClient.raise_for_status_event_handler r1);
    cbn -[retry_loop MyBMWLoginClient.raise_for_status_event_handler];
    [discriminate|].
  intros H.
  apply (retry_loop_returns_last env _
           (fun response =>
              if status_code response =? 429
              then if raise_for_status response
                   then Raise (handle_httpstatuserror response)
                   else Ret tt
              else Ret tt) req 3) in H.
  - destruct H as [[-> ->]|[l [Hl Hn]]].
    + eexists. split; reflexivity.
    + exists l. split; [exact Hl|exact Hn].
  - intros r0. destruct (status_code r0 =? 429); [|left; reflexivity].
    destruct (raise_for_status r0); [right; eexists; reflexivity|left; reflexivity].
Qed.

(** The same with an [auth] given with the call. *)
Lemma login_client_send_with_returns (env : Env) (auth : option (pyobj * pyobj))
    (req : Request) (st st' : State) (r : Response) :
  run env (MyBMWLoginClient.send_with auth req) st = (Returned r, st') ->
  exists l, log st' = EvRecv (Ok r) :: EvSend req :: l
            /\ last_now l = last_now (log st).
Proof.
  destruct auth as [[user secret]|]; [|apply login_client_returns_exchange].
  unfold MyBMWLoginClient.send_with, client_send, BasicAuth.auth_flow.
  destruct (BasicAuth.init user secret);
    cbn -[MyBMWLoginClient.raise_for_status_event_handler]; [|discriminate].
  destruct (reply env (sent st) req) as [r1|e];
    cbn -[MyBMWLoginClient.raise_for_status_event_handler]; [|discriminate].
  destruct (MyBMWLoginClient.raise_for_status_event_handler r1);
    cbn -[MyBMWLoginClient.raise_for_status_event_handler]; [discriminate|].
  intros H. injection H as <- <-. eexists. split; reflexivity.
Qed.

Lemma login_client_returns_last (env : Env) (req : Request) (st st' : State)
    (r : Response) :
  run env (MyBMWLoginClient.send req) st = (Returned r, st') ->
  last_recv (log st') = Some r.
Proof.
  intros H. apply login_client_returns_exchange in H.
  destruct H as [l [Hl _]]. rewrite Hl. reflexivity.
Qed.

(** The login client reads no clock. *)
Definition no_now (n : node) : Prop :=
  match n with
  | NNow => False
  | NNote (EvNow _) => False
  | _ => True
  end.

Lemma run_keeps_last_now {A : Type} (env : Env) (p : prog A) :
  every no_now p -> forall st, last_now (log (snd (run env p st))) = last_now (log st).
Proof.
  intros Hp st.
  apply (run_keeps env no_now (fun s s' => last_now (log s') = last_now (log s)) p); auto.
  - intros s1 s2 s3 H12 H23. congruence.
  - repeat split; intros; simpl; auto; try contradiction.
    destruct ev; simpl in *; auto. contradiction.
Qed.

(** After the last exchange nothing more is received. *)
Definition no_exchange (n : node) : Prop :=
  match n with
  | NSend _ => False
  | NNote (EvRecv _) => False
  | _ => True
  end.

Lemma run_keeps_last_recv {A : Type} (env : Env) (p : prog A) :
  every no_exchange p -> forall st, last_recv (log (snd (run env p st))) = last_recv (log st).
Proof.
  intros Hp st.
  apply (run_keeps env no_exchange (fun s s' => last_recv (log s') = last_recv (log s)) p); auto.
  - intros s1 s2 s3 H12 H23. congruence.
  - repeat split; intros; simpl; auto; try contradiction.
    destruct ev; simpl in *; auto. contradiction.
Qed.

Section StrategyRuns.

Variables (lib : Externals) (me : Account) (env : Env).

Lemma client_send_no_now (req : Request) : every no_now (MyBMWLoginClient.send req).
Proof.
  unfold MyBMWLoginClient.send, client_send.
  apply every_send_handling_auth.
  unfold MyBMWLoginRetry.async_auth_flow.
  apply every_bind; [simpl; auto|]. intros r.
  apply every_bind.
  - eapply every_weaken; [|apply every_retry_loop].
    intros n. destruct n as [| | | | | | | | |ev]; simpl; auto; try contradiction.
    destruct ev; simpl; auto.
  - intros r'. destruct (status_code r' =? 429); [|exact I].
    destruct (raise_for_status r'); exact I.
Qed.

Lemma client_post_returned (target : pyobj) (hdrs : list (string * string))
    (prms dat : list (string * pyobj)) (js : option pyobj)
    (auth : option (pyobj * pyobj)) (st st' : State) (r : Response) :
  run env (MyBMWAuthentication.client_post lib me target hdrs prms dat js auth) st
  = (Returned r, st') ->
  last_recv (log st') = Some r
  /\ last_now (log st') = last_now (log st)
  /\ exists q l, log st' = EvRecv (Ok r) :: EvSend q :: l
                 /\ last_now l = last_now (log st).
Proof.
  unfold MyBMWAuthentication.client_post, MyBMWAuthentication.build_request.
  destruct (merge_url lib (get_server_url lib (region me)) target) as [u|e];
    cbn [lift bind run]; [|discriminate].
  intros H. apply login_client_send_with_returns in H.
  destruct H as [l [Hl Hn]]. rewrite Hl. cbn [last_recv last_now].
  split; [reflexivity|]. split; [exact Hn|].
  do 2 eexists. split; [reflexivity|exact Hn].
Qed.

Lemma expiry_from_returned (t : datetime) (v e : pyobj) (st st' : State) :
  run env (MyBMWAuthentication.expiry_from lib t v) st = (Returned e, st') ->
  st' = st
  /\ exists x n,
       Py.subscript v "expires_in" = Ok x
       /\ py_int lib x = Ok n
       /\ e = PDatetime (t + timedelta_seconds n).
Proof.
  unfold MyBMWAuthentication.expiry_from.
  destruct (Py.subscript v "expires_in") as [x|err] eqn:Ex;
    cbn [lift bind run]; [|discriminate].
  destruct (py_int lib x) as [n|err] eqn:En; cbn [lift bind run]; [|discriminate].
  unfold Py.timedelta.
  destruct ((-999999999 <=? n / 86400) && (n / 86400 <=? 999999999));
    cbn [lift bind run]; [|discriminate].
  unfold Py.add_timedelta.
  destruct (Py.is_datetime (t + timedelta_seconds n));
    cbn [lift bind run]; [|discriminate].
  intros H. injection H as <- <-. split; [reflexivity|].
  exists x, n. repeat split. exact En.
Qed.

End StrategyRuns.

(** ** What the strategies return *)

(** The expiry [expires] is a clock reading plus the [expires_in] seconds of
    the latest response of the trace; the clock was read before the request
    that this response answers was sent, and not again since. *)
Definition by_expires_in (lib : Externals) (final_log : list event) (expires : pyobj)
  : Prop :=
  exists t_now request resp body v n,
    token_clock final_log = Some (t_now, request, resp)
    /\ json resp = Some body
    /\ Py.subscript body "expires_in" = Ok v
    /\ py_int lib v = Ok n
    /\ expires = PDatetime (t_now + timedelta_seconds n).

(** The expiry [expires] is the [exp] claim of the access token that the
    latest response of the trace carries, read as a Unix time. *)
Definition by_exp_claim (lib : Externals) (final_log : list event) (expires : pyobj)
  : Prop :=
  exists resp body dat access claims exp t,
    last_recv final_log = Some resp
    /\ json resp = Some body
    /\ Py.subscript body "data" = Ok dat
    /\ Py.subscript dat "access_token" = Ok access
    /\ jwt_decode lib access = Ok claims
    /\ Py.subscript claims "exp" = Ok exp
    /\ fromtimestamp lib exp = Ok t
    /\ expires = PDatetime t.

(** One step of a run that returned: a leading effect is performed, a
    successful lookup is named, a call that returned is split off. *)
Ltac exec_step H env :=
  first
    [ progress cbn [bind run lift debug note now getattr fresh draw] in H
    | match type of H with
      | context [bind (lift ?r) _] =>
          let E := fresh "E" in
          destruct r eqn:E; cbn [bind run lift] in H; [|discriminate H]
      | context [run env (bind ?p ?f) ?s] =>
          let E := fresh "R" in
          rewrite (run_bind env p f s) in H;
          destruct (run env p s) as [[?|?|] ?] eqn:E;
          [|discriminate H|discriminate H]
      end ].

Lemma response_json_ok (r : Response) (v : pyobj) :
  response_json r = Ok v -> json r = Some v.
Proof.
  unfold response_json. destruct (json r); intros H; inversion H; reflexivity.
Qed.

Section StrategyResults.

Variables (lib : Externals) (me : Account) (env : Env).

(** A token request answered by [resp] at clock reading [t]. *)
Lemma token_request_expiry (target : pyobj) (hdrs : list (string * string))
    (prms dat : list (string * pyobj)) (js : option pyobj)
    (auth : option (pyobj * pyobj)) (s s3 s4 : State) (t : datetime)
    (resp : Response) (body e : pyobj) :
  last_now (log s) = Some t ->
  run env (MyBMWAuthentication.client_post lib me target hdrs prms dat js auth) s
  = (Returned resp, s3) ->
  response_json resp = Ok body ->
  run env (MyBMWAuthentication.expiry_from lib t body) s3 = (Returned e, s4) ->
  by_expires_in lib (log s4) e.
Proof.
  intros Hnow Hpost Hbody Hexp.
  apply client_post_returned in Hpost.
  destruct Hpost as (_ & _ & q & l & Hlog & Hkeep).
  apply expiry_from_returned in Hexp. destruct Hexp as [-> (x & n & Hx & Hn & ->)].
  exists t, q, resp, body, x, n. repeat split; auto.
  - rewrite Hlog. cbn [token_clock]. rewrite Hkeep, Hnow. reflexivity.
  - apply response_json_ok. exact Hbody.
Qed.

Lemma login_row_na_returned (st st' : State) (td : list (string * pyobj)) :
  run env (MyBMWAuthentication._login_row_na lib me) st = (Returned td, st') ->
  exists a e r,
    td = [("access_token", a); ("expires_at", e); ("refresh_token", r)]
    /\ by_expires_in lib (log st') e.
Proof.
  unfold MyBMWAuthentication._login_row_na. intros H.
  repeat exec_step H env.
  injection H as <- <-. do 3 eexists. split; [reflexivity|].
  eapply token_request_expiry; [|eassumption|eassumption|eassumption].
  reflexivity.
Qed.

Lemma refresh_row_na_try_returned (st st' : State) (x : option (pyobj * pyobj)) :
  run env (MyBMWAuthentication._refresh_token_row_na_try lib me) st
  = (Returned x, st') ->
  exists body e, x = Some (body, e) /\ by_expires_in lib (log st') e.
Proof.
  unfold MyBMWAuthentication._refresh_token_row_na_try. intros H.
  repeat exec_step H env.
  injection H as <- <-. do 2 eexists. split; [reflexivity|].
  eapply token_request_expiry; [|eassumption|eassumption|eassumption].
  reflexivity.
Qed.

Lemma refresh_china_try_returned (st st' : State) (x : option (pyobj * pyobj)) :
  run env (MyBMWAuthentication._refresh_token_china_try lib me) st
  = (Returned x, st') ->
  exists body e, x = Some (body, e) /\ by_expires_in lib (log st') e.
Proof.
  unfold MyBMWAuthentication._refresh_token_china_try. intros H.
  repeat exec_step H env.
  injection H as <- <-. do 2 eexists. split; [reflexivity|].
  eapply token_request_expiry; [|eassumption|eassumption|eassumption].
  reflexivity.
Qed.

(** The [try] of a refresh function with its [except] clause: either the
    block returned, or it raised the classified failure and the clause
    answered with nothing. *)
Lemma refresh_try_except (attempt : prog (option (pyobj * pyobj)))
    (st st' : State) (x : option (pyobj * pyobj)) :
  run env (try_except attempt MyBMWAuthentication.except_api_error) st
  = (Returned x, st') ->
  run env attempt st = (Returned x, st')
  \/ (x = None
      /\ exists status body s1,
           run env attempt st = (Raised (MyBMWAPIError status body), s1)
           /\ st' = record (EvDebug "Unable to get access token using refresh token, falling back to username/password.") s1).
Proof.
  rewrite run_try_except.
  destruct (run env attempt st) as [[y|e|] s1]; intros H.
  - left. exact H.
  - right. destruct e; cbn in H; try discriminate H.
    injection H as <- <-. split; [reflexivity|]. do 3 eexists. split; reflexivity.
  - discriminate H.
Qed.

Lemma refresh_row_na_returned (st st' : State) (td : list (string * pyobj)) :
  run env (MyBMWAuthentication._refresh_token_row_na lib me) st = (Returned td, st') ->
  td = []
  \/ exists a e r,
       td = [("access_token", a); ("expires_at", e); ("refresh_token", r)]
       /\ by_expires_in lib (log st') e.
Proof.
  unfold MyBMWAuthentication._refresh_token_row_na. intros H.
  rewrite run_bind in H.
  destruct (run env (try_except (MyBMWAuthentication._refresh_token_row_na_try lib me)
                       MyBMWAuthentication.except_api_error) st)
    as [[x|e|] s1] eqn:R; try discriminate H.
  apply refresh_try_except in R. destruct R as [R|[-> _]].
  - apply refresh_row_na_try_returned in R. destruct R as (body & e & -> & He).
    repeat exec_step H env. injection H as <- <-.
    right. do 3 eexists. split; [reflexivity|exact He].
  - cbn in H. injection H as <- <-. left. reflexivity.
Qed.

Lemma refresh_china_returned (st st' : State) (td : list (string * pyobj)) :
  run env (MyBMWAuthentication._refresh_token_china lib me) st = (Returned td, st') ->
  td = []
  \/ exists a e r g,
       td = [("access_token", a); ("expires_at", e); ("refresh_token", r);
             ("gcid", g)]
       /\ by_expires_in lib (log st') e.
Proof.
  unfold MyBMWAuthentication._refresh_token_china. intros H.
  rewrite run_bind in H.
  destruct (run env (try_except (MyBMWAuthentication._refresh_token_china_try lib me)
                       MyBMWAuthentication.except_api_error) st)
    as [[x|e|] s1] eqn:R; try discriminate H.
  apply refresh_try_except in R. destruct R as [R|[-> _]].
  - apply refresh_china_try_returned in R. destruct R as (body & e & -> & He).
    repeat exec_step H env. injection H as <- <-.
    right. do 4 eexists. split; [reflexivity|exact He].
  - cbn in H. injection H as <- <-. left. reflexivity.
Qed.

Lemma login_china_returned (st st' : State) (td : list (string * pyobj)) :
  run env (MyBMWAuthentication._login_china lib me) st = (Returned td, st') ->
  exists a e r g,
    td = [("access_token", a); ("expires_at", e); ("refresh_token", r);
          ("gcid", g)]
    /\ by_exp_claim lib (log st') e.
Proof.
  unfold MyBMWAuthentication._login_china. intros H.
  repeat exec_step H env.
  injection H as <- <-. do 4 eexists. split; [reflexivity|].
  match goal with
  | R : run env (MyBMWAuthentication.client_post lib me (PStr (AUTH_CHINA_LOGIN_URL lib))
                   _ _ _ _ _) _ = (Returned ?resp, _) |- _ =>
      apply client_post_returned in R; destruct R as [Hrecv _]; exists resp
  end.
  do 6 eexists. repeat split; try eassumption.
  apply response_json_ok. eassumption.
Qed.

End StrategyResults.

(** ** The result of [login] *)

(** The latest call recorded in a trace. *)
Fixpoint last_call (l : list event) : option string :=
  match l with
  | [] => None
  | EvCall fn :: _ => Some fn
  | _ :: l' => last_call l'
  end.

Definition no_call (n : node) : Prop :=
  match n with NNote (EvCall _) => False | _ => True end.

Lemma run_keeps_last_call {A : Type} (env : Env) (p : prog A) :
  every no_call p -> forall st, last_call (log (snd (run env p st))) = last_call (log st).
Proof.
  intros Hp st.
  apply (run_keeps env no_call (fun s s' => last_call (log s') = last_call (log s)) p); auto.
  - intros s1 s2 s3 H12 H23. congruence.
  - repeat split; intros; simpl; auto; try contradiction.
    destruct ev; simpl in *; auto. contradiction.
Qed.

Lemma strategy_no_call (n : node) : strategy_node n -> no_call n.
Proof. destruct n as [| | | | | | | | |ev]; simpl; auto. destruct ev; auto. Qed.

Lemma strategy_no_setattr (n : node) : strategy_node n -> no_setattr n.
Proof. destruct n; simpl; auto. Qed.

Section LoginResults.

Variables (lib : Externals) (me : Account) (env : Env).

(** A strategy called under its name: when it returns, the call is the latest of
    the trace and [self] is as before. *)
Lemma traced_strategy_returned (fn : string) (strategy : prog (list (string * pyobj)))
    (st st' : State) (td : list (string * pyobj)) :
  every strategy_node strategy ->
  run env (traced fn strategy) st = (Returned td, st') ->
  exists s_end,
    run env strategy (record (EvCall fn) st) = (Returned td, s_end)
    /\ st' = record (EvReturn fn) s_end
    /\ last_call (log s_end) = Some fn
    /\ self s_end = self st.
Proof.
  intros Hs H. rewrite run_traced in H.
  pose proof (run_keeps_last_call env strategy
                (every_weaken _ _ _ strategy_no_call Hs) (record (EvCall fn) st)) as Hc.
  pose proof (run_keeps_self env strategy
                (every_weaken _ _ _ strategy_no_setattr Hs) (record (EvCall fn) st)) as Hself.
  destruct (run env strategy (record (EvCall fn) st)) as [[x|e|] s_end];
    try discriminate H.
  injection H as <- <-. exists s_end. repeat split; assumption.
Qed.

Lemma refresh_or_login_returned (rn fn : string)
    (refresh full : prog (list (string * pyobj)))
    (st st' : State) (td : list (string * pyobj)) :
  every strategy_node refresh -> every strategy_node full ->
  run env (MyBMWAuthentication.refresh_or_login (traced rn refresh) (traced fn full)) st
  = (Returned td, st') ->
  exists name strategy s0 s_end,
    ((name = rn /\ strategy = refresh /\ td <> []) \/ (name = fn /\ strategy = full))
    /\ run env strategy s0 = (Returned td, s_end)
    /\ st' = record (EvReturn name) s_end
    /\ last_call (log s_end) = Some name
    /\ self s_end = self st.
Proof.
  intros Hr Hf H. rewrite run_refresh_or_login in H.
  destruct (Py.truthy (refresh_token (self st))).
  - destruct (run env (traced rn refresh) st) as [[x|e|] s1] eqn:R; try discriminate H.
    apply (traced_strategy_returned rn refresh st s1 x Hr) in R.
    destruct R as (s_end & Hrun & -> & Hcall & Hself).
    destruct x as [|kv x]; cbn [Py.truthy negb] in H.
    + apply (traced_strategy_returned fn full _ st' td Hf) in H.
      destruct H as (s_end' & Hrun' & -> & Hcall' & Hself').
      exists fn, full. do 2 eexists. split; [right; auto|].
      split; [exact Hrun'|]. repeat split; auto.
      rewrite Hself'. exact Hself.
    + injection H as <- <-.
      exists rn, refresh. do 2 eexists. split; [left; repeat split; discriminate|].
      split; [exact Hrun|]. repeat split; auto.
  - apply (traced_strategy_returned fn full st st' td Hf) in H.
    destruct H as (s_end' & Hrun' & -> & Hcall' & Hself').
    exists fn, full. do 2 eexists. split; [right; auto|].
    split; [exact Hrun'|]. repeat split; auto.
Qed.

(** The strategies of a region: the refresh function and the full login,
    under the names [login] calls them by. *)
Definition strategies : list (string * prog (list (string * pyobj))) :=
  match region me with
  | CHINA =>
      [("_refresh_token_china", MyBMWAuthentication._refresh_token_china lib me);
       ("_login_china", MyBMWAuthentication._login_china lib me)]
  | _ =>
      [("_refresh_token_row_na", MyBMWAuthentication._refresh_token_row_na lib me);
       ("_login_row_na", MyBMWAuthentication._login_row_na lib me)]
  end.

(** How the strategy called [name] computes the expiry it returns. *)
Definition expiry_of (name : string) (final_log : list event) (e : pyobj) : Prop :=
  if String.eqb name "_login_china"
  then by_exp_claim lib final_log e
  else by_expires_in lib final_log e.

(** The token data of a strategy: [gc] is the gcid of the China ones. *)
Definition token_data_of (a e r : pyobj) (gc : option pyobj)
  : list (string * pyobj) :=
  [("access_token", a); ("expires_at", e); ("refresh_token", r)]
  ++ match gc with Some g => [("gcid", g)] | None => [] end.

Lemma expiry_transfer (name : string) (l l' : list event) (e : pyobj) :
  token_clock l' = token_clock l -> last_recv l' = last_recv l ->
  expiry_of name l e -> expiry_of name l' e.
Proof.
  intros Hn Hr. unfold expiry_of, by_exp_claim, by_expires_in.
  rewrite Hn, Hr. auto.
Qed.

Lemma expiry_is_datetime (name : string) (l : list event) (e : pyobj) :
  expiry_of name l e -> exists t, e = PDatetime t.
Proof.
  unfold expiry_of. destruct (String.eqb name "_login_china").
  - intros (resp & body & dat & access & claims & exp & t & H). exists t. apply H.
  - intros (t & q & resp & body & v & n & H). eexists. apply H.
Qed.

(** What a strategy of the region returned, when it did not return [{}]. *)
Lemma strategy_returned (name : string) (strategy : prog (list (string * pyobj)))
    (s0 s_end : State) (td : list (string * pyobj)) :
  In (name, strategy) strategies ->
  run env strategy s0 = (Returned td, s_end) ->
  td = []
  \/ exists a e r gc,
       td = token_data_of a e r gc
       /\ expiry_of name (log s_end) e
       /\ (region me = CHINA -> gc <> None)
       /\ (region me <> CHINA -> gc = None).
Proof.
  unfold strategies. intros Hin Hrun.
  destruct (region me) eqn:Hreg; simpl in Hin;
    destruct Hin as [Hin|[Hin|[]]]; injection Hin as <- <-.
  - apply refresh_row_na_returned in Hrun.
    destruct Hrun as [->|(a & e & r & -> & He)]; [left; reflexivity|].
    right. exists a, e, r, None. repeat split; auto; discriminate.
  - apply login_row_na_returned in Hrun. destruct Hrun as (a & e & r & -> & He).
    right. exists a, e, r, None. repeat split; auto; discriminate.
  - apply refresh_row_na_returned in Hrun.
    destruct Hrun as [->|(a & e & r & -> & He)]; [left; reflexivity|].
    right. exists a, e, r, None. repeat split; auto; discriminate.
  - apply login_row_na_returned in Hrun. destruct Hrun as (a & e & r & -> & He).
    right. exists a, e, r, None. repeat split; auto; discriminate.
  - apply refresh_china_returned in Hrun.
    destruct Hrun as [->|(a & e & r & g & -> & He)]; [left; reflexivity|].
    right. exists a, e, r, (Some g). repeat split; auto; try discriminate. contradiction.
  - apply login_china_returned in Hrun. destruct Hrun as (a & e & r & g & -> & He).
    right. exists a, e, r, (Some g). repeat split; auto; try discriminate. contradiction.
Qed.

(** The expiry of the token data of a strategy, moved back by the offset. *)
Lemma shift_expiry_returned (a r : pyobj) (t : datetime) (gc : option pyobj)
    (st s1 : State) (td' : list (string * pyobj)) :
  run env (MyBMWAuthentication.shift_expiry lib (token_data_of a (PDatetime t) r gc)) st
  = (Returned td', s1) ->
  td' = token_data_of a (PDatetime (t - MyBMWAuthentication.EXPIRES_AT_OFFSET lib)) r gc
  /\ s1 = st
  /\ Py.is_datetime (t - MyBMWAuthentication.EXPIRES_AT_OFFSET lib) = true.
Proof.
  unfold MyBMWAuthentication.shift_expiry, MyBMWAuthentication.item, token_data_of.
  cbn [app Py.subscript Py.dict_get String.eqb Ascii.eqb Bool.eqb lift bind run
       Py.sub_timedelta].
  destruct (Py.is_datetime (t - MyBMWAuthentication.EXPIRES_AT_OFFSET lib));
    cbn [lift bind run]; [|discriminate].
  intros H. injection H as <- <-.
  split; [destruct gc; reflexivity|split; reflexivity].
Qed.

(** [token_data_for_region], when it returns: one strategy of the region
    supplied the data, the expiry was moved back by the offset, and [self] is
    as before but for the gcid of the China branch. *)
Lemma token_data_for_region_returned (st s1 : State) (td' : list (string * pyobj)) :
  run env (MyBMWAuthentication.token_data_for_region lib me) st = (Returned td', s1) ->
  exists name strategy s0 s_end a t r gc,
    In (name, strategy) strategies
    /\ run env strategy s0 = (Returned (token_data_of a (PDatetime t) r gc), s_end)
    /\ expiry_of name (log s_end) (PDatetime t)
    /\ td' = token_data_of a
               (PDatetime (t - MyBMWAuthentication.EXPIRES_AT_OFFSET lib)) r gc
    /\ last_call (log s1) = Some name
    /\ token_clock (log s1) = token_clock (log s_end)
    /\ last_recv (log s1) = last_recv (log s_end)
    /\ access_token (self s1) = access_token (self st)
    /\ expires_at (self s1) = expires_at (self st)
    /\ refresh_token (self s1) = refresh_token (self st)
    /\ match gc with
       | Some g => region me = CHINA /\ gcid (self s1) = g
       | None => region me <> CHINA /\ gcid (self s1) = gcid (self st)
       end.
Proof.
  unfold MyBMWAuthentication.token_data_for_region. intros H.
  assert (Hcases :
    exists td s,
      (exists name strategy s0 s_end,
         In (name, strategy) strategies
         /\ run env strategy s0 = (Returned td, s_end)
         /\ s = record (EvReturn name) s_end
         /\ last_call (log s_end) = Some name
         /\ self s_end = self st)
      /\ run env
           (if match region me with CHINA => true | _ => false end
            then (token_data <- MyBMWAuthentication.shift_expiry lib td ;;
                  g <- MyBMWAuthentication.item token_data "gcid" ;;
                  setattr Gcid g ;;
                  Ret token_data)
            else MyBMWAuthentication.shift_expiry lib td) s
         = (Returned td', s1)).
  { unfold strategies.
    destruct (region me); rewrite run_bind in H;
      match type of H with
      | context [run env (MyBMWAuthentication.refresh_or_login ?R ?F) st] =>
          destruct (run env (MyBMWAuthentication.refresh_or_login R F) st)
            as [[td|e|] s] eqn:R0; try discriminate H
      end;
      exists td, s; (split; [|exact H]);
      apply refresh_or_login_returned in R0;
      try apply every_refresh_token_row_na; try apply every_login_row_na;
      try apply every_refresh_token_china; try apply every_login_china;
      destruct R0 as (name & strategy & s0 & s_end & Hwhich & Hrun & Hs & Hc & Hself);
      exists name, strategy, s0, s_end; (split; [|auto]);
      destruct Hwhich as [(-> & -> & _)|(-> & ->)]; simpl; auto. }
  destruct Hcases as (td & s & (name & strategy & s0 & s_end & Hin & Hrun & -> & Hc & Hself) & Hrest).
  destruct (strategy_returned name strategy s0 s_end td Hin Hrun)
    as [->|(a & e & r & gc & -> & He & Hch & Hnch)].
  { destruct (region me); cbn in Hrest; discriminate Hrest. }
  destruct (expiry_is_datetime _ _ _ He) as [t ->].
  exists name, strategy, s0, s_end, a, t, r, gc.
  split; [exact Hin|]. split; [exact Hrun|]. split; [exact He|].
  destruct (region me) eqn:Hreg.
  - rewrite (Hnch ltac:(discriminate)) in *.
    apply shift_expiry_returned in Hrest. destruct Hrest as (-> & -> & _).
    cbn. rewrite Hself. repeat split; auto. discriminate.
  - rewrite (Hnch ltac:(discriminate)) in *.
    apply shift_expiry_returned in Hrest. destruct Hrest as (-> & -> & _).
    cbn. rewrite Hself. repeat split; auto. discriminate.
  - destruct gc as [g|]; [|exfalso; apply Hch; reflexivity].
    rewrite run_bind in Hrest.
    destruct (run env (MyBMWAuthentication.shift_expiry lib
                         (token_data_of a (PDatetime t) r (Some g)))
                (record (EvReturn name) s_end)) as [[td2|e0|] s2] eqn:Rs;
      try discriminate Hrest.
    apply shift_expiry_returned in Rs. destruct Rs as (-> & -> & _).
    cbn in Hrest. injection Hrest as <- <-.
    cbn. rewrite Hself. repeat split; auto.
Qed.

Lemma every_refresh_or_login_no_setattr
    (refresh full : prog (list (string * pyobj))) :
  every no_setattr refresh -> every no_setattr full ->
  every no_setattr (MyBMWAuthentication.refresh_or_login refresh full).
Proof.
  intros Hr Hf. unfold MyBMWAuthentication.refresh_or_login.
  apply every_bind; [simpl; auto|]. intros stored.
  apply every_bind.
  - destruct (Py.truthy stored); [exact Hr|exact I].
  - intros td. destruct (negb (Py.truthy (PDict td))); [exact Hf|exact I].
Qed.

Lemma every_traced_strategy_no_setattr (fn : string)
    (strategy : prog (list (string * pyobj))) :
  every strategy_node strategy -> every no_setattr (traced fn strategy).
Proof.
  intros H. apply every_traced; [exact I|exact I|intros; exact I|].
  eapply every_weaken; [apply strategy_no_setattr|exact H].
Qed.

(** [token_data_for_region], when it raises: nothing was assigned. *)
Lemma token_data_for_region_raised (st s1 : State) (e : exn) :
  run env (MyBMWAuthentication.token_data_for_region lib me) st = (Raised e, s1) ->
  self s1 = self st.
Proof.
  unfold MyBMWAuthentication.token_data_for_region. intros H.
  assert (Hrow : every no_setattr
            (MyBMWAuthentication.refresh_or_login
               (traced "_refresh_token_row_na" (MyBMWAuthentication._refresh_token_row_na lib me))
               (traced "_login_row_na" (MyBMWAuthentication._login_row_na lib me)))).
  { apply every_refresh_or_login_no_setattr; apply every_traced_strategy_no_setattr;
      [apply every_refresh_token_row_na|apply every_login_row_na]. }
  assert (Hcn : every no_setattr
            (MyBMWAuthentication.refresh_or_login
               (traced "_refresh_token_china" (MyBMWAuthentication._refresh_token_china lib me))
               (traced "_login_china" (MyBMWAuthentication._login_china lib me)))).
  { apply every_refresh_or_login_no_setattr; apply every_traced_strategy_no_setattr;
      [apply every_refresh_token_china|apply every_login_china]. }
  assert (Hshift : forall td, every no_setattr (MyBMWAuthentication.shift_expiry lib td)).
  { intros td. unfold MyBMWAuthentication.shift_expiry, MyBMWAuthentication.item. walk. }
  destruct (region me).
  - match type of H with
    | run env ?p st = _ =>
        assert (Hp : every no_setattr p)
          by (apply every_bind; [exact Hrow|exact Hshift]);
        pose proof (run_keeps_self env p Hp st) as Hk
    end.
    rewrite H in Hk. exact Hk.
  - match type of H with
    | run env ?p st = _ =>
        assert (Hp : every no_setattr p)
          by (apply every_bind; [exact Hrow|exact Hshift]);
        pose proof (run_keeps_self env p Hp st) as Hk
    end.
    rewrite H in Hk. exact Hk.
  - rewrite run_bind in H.
    pose proof (run_keeps_self env _ Hcn st) as Hk.
    destruct (run env
                (MyBMWAuthentication.refresh_or_login
                   (traced "_refresh_token_china" (MyBMWAuthentication._refresh_token_china lib me))
                   (traced "_login_china" (MyBMWAuthentication._login_china lib me))) st)
      as [[td|e0|] s] eqn:R0; try discriminate H.
    + cbn [snd] in Hk. unfold MyBMWAuthentication.shift_expiry, MyBMWAuthentication.item in H.
      repeat match type of H with
      | context [bind (lift ?r) _] =>
          destruct r; cbn [bind run lift] in H;
          [|injection H as <- <-; exact Hk]
      end.
      cbn in H. discriminate H.
    + injection H as <- <-. exact Hk.
Qed.

(** [store_tokens] on the token data of a strategy. *)
Lemma store_tokens_returns (a e r : pyobj) (gc : option pyobj) (st : State) :
  run env (MyBMWAuthentication.store_tokens (token_data_of a e r gc)) st
  = (Returned tt,
     assign RefreshToken r (assign ExpiresAt e (assign AccessToken a st))).
Proof. destruct gc; reflexivity. Qed.

(** [login], when it returns. *)
Lemma login_returned (st st' : State) (u : unit) :
  run env (MyBMWAuthentication.login lib me) st = (Returned u, st') ->
  exists name strategy s0 s_end a t r gc,
    In (name, strategy) strategies
    /\ run env strategy s0 = (Returned (token_data_of a (PDatetime t) r gc), s_end)
    /\ expiry_of name (log st') (PDatetime t)
    /\ last_call (log st') = Some name
    /\ access_token (self st') = a
    /\ expires_at (self st')
       = PDatetime (t - MyBMWAuthentication.EXPIRES_AT_OFFSET lib)
    /\ refresh_token (self st') = r
    /\ match gc with
       | Some g => region me = CHINA /\ gcid (self st') = g
       | None => region me <> CHINA /\ gcid (self st') = gcid (self st)
       end.
Proof.
  unfold MyBMWAuthentication.login. rewrite run_traced.
  unfold MyBMWAuthentication.login_body. rewrite run_bind.
  destruct (run env (MyBMWAuthentication.token_data_for_region lib me)
              (record (EvCall "login") st)) as [[td'|e|] s1] eqn:R; try discriminate.
  apply token_data_for_region_returned in R.
  destruct R as (name & strategy & s0 & s_end & a & t & r & gc & Hin & Hrun & He & ->
                 & Hc & Hn & Hr & Ha & Hx & Hrf & Hg).
  rewrite store_tokens_returns. intros H. inversion H; subst; clear H.
  exists name, strategy, s0, s_end, a, t, r, gc.
  split; [exact Hin|]. split; [exact Hrun|].
  split; [eapply expiry_transfer; [| |exact He]; cbn; assumption|].
  cbn. repeat split; auto.
Qed.

(** [login], when it raises: no attribute of [self] has changed. *)
Lemma login_raised (st st' : State) (e : exn) :
  run env (MyBMWAuthentication.login lib me) st = (Raised e, st') ->
  self st' = self st.
Proof.
  unfold MyBMWAuthentication.login. rewrite run_traced.
  unfold MyBMWAuthentication.login_body. rewrite run_bind.
  destruct (run env (MyBMWAuthentication.token_data_for_region lib me)
              (record (EvCall "login") st)) as [[td'|e0|] s1] eqn:R.
  - apply token_data_for_region_returned in R.
    destruct R as (name & strategy & s0 & s_end & a & t & r & gc & _ & _ & _ & -> & _).
    rewrite store_tokens_returns. discriminate.
  - apply token_data_for_region_raised in R. intros H.
    inversion H; subst; clear H. cbn. exact R.
  - discriminate.
Qed.
End LoginResults.

(** ** The claims on [login] *)

Lemma dict_get_set_same (k : string) (v : pyobj) (m : list (string * pyobj)) :
  Py.dict_get k (Py.dict_set k v m) = Some v.
Proof.
  induction m as [|[k0 v0] m IH]; cbn [Py.dict_set Py.dict_get].
  - rewrite String.eqb_refl. reflexivity.
  - destruct (String.eqb k0 k) eqn:E; cbn [Py.dict_get].
    + rewrite String.eqb_refl. reflexivity.
    + rewrite E. exact IH.
Qed.

Lemma dict_get_set_other (k k' : string) (v : pyobj) (m : list (string * pyobj)) :
  k <> k' -> Py.dict_get k' (Py.dict_set k v m) = Py.dict_get k' m.
Proof.
  intros Hk. apply String.eqb_neq in Hk.
  induction m as [|[k0 v0] m IH]; cbn [Py.dict_set Py.dict_get].
  - rewrite Hk. reflexivity.
  - destruct (String.eqb k0 k) eqn:E; cbn [Py.dict_get].
    + apply String.eqb_eq in E. subst k0. rewrite Hk. reflexivity.
    + rewrite IH. reflexivity.
Qed.

(** [shift_expiry], when it returns, on any token data. *)
Lemma shift_expiry_run (lib : Externals) (env : Env) (td td' : list (string * pyobj))
    (st s1 : State) :
  run env (MyBMWAuthentication.shift_expiry lib td) st = (Returned td', s1) ->
  exists t,
    Py.dict_get "expires_at" td = Some (PDatetime t)
    /\ td' = Py.dict_set "expires_at"
               (PDatetime (t - MyBMWAuthentication.EXPIRES_AT_OFFSET lib)) td
    /\ s1 = st.
Proof.
  unfold MyBMWAuthentication.shift_expiry, MyBMWAuthentication.item, Py.subscript.
  destruct (Py.dict_get "expires_at" td) as [e|]; cbn [lift bind run]; [|discriminate].
  unfold Py.sub_timedelta.
  destruct e as [| | | | | | |t]; cbn [lift bind run]; try discriminate.
  destruct (Py.is_datetime (t - MyBMWAuthentication.EXPIRES_AT_OFFSET lib));
    cbn [lift bind run]; [|discriminate].
  intros H. injection H as <- <-. exists t. repeat split.
Qed.

(** The three assignments, when they return, on any token data. *)
Lemma store_tokens_run (env : Env) (td : list (string * pyobj)) (st s1 : State)
    (u : unit) :
  run env (MyBMWAuthentication.store_tokens td) st = (Returned u, s1) ->
  exists a e r,
    Py.dict_get "access_token" td = Some a
    /\ Py.dict_get "expires_at" td = Some e
    /\ Py.dict_get "refresh_token" td = Some r
    /\ s1 = assign RefreshToken r (assign ExpiresAt e (assign AccessToken a st)).
Proof.
  unfold MyBMWAuthentication.store_tokens, MyBMWAuthentication.item, Py.subscript.
  destruct (Py.dict_get "access_token" td) as [a|];
    cbn [lift bind run setattr]; [|discriminate].
  destruct (Py.dict_get "expires_at" td) as [e|];
    cbn [lift bind run setattr]; [|discriminate].
  destruct (Py.dict_get "refresh_token" td) as [r|];
    cbn [lift bind run setattr]; [|discriminate].
  intros H. inversion H. exists a, e, r. repeat split.
Qed.

(** What [refresh_or_login] returns is what one of the two calls
    returned. *)
Lemma refresh_or_login_supplied (env : Env)
    (refresh full : prog (list (string * pyobj))) (st s : State)
    (td : list (string * pyobj)) :
  run env (MyBMWAuthentication.refresh_or_login refresh full) st = (Returned td, s) ->
  supplied env refresh full st td s.
Proof.
  rewrite run_refresh_or_login. unfold supplied.
  destruct (Py.truthy (refresh_token (self st))).
  - destruct (run env refresh st) as [[tdr|e|] sr]; try discriminate.
    destruct tdr as [|kv tdr]; cbn [Py.truthy negb].
    + intros H. right. right. split; [reflexivity|]. exists sr. split; [reflexivity|exact H].
    + intros H. injection H as <- <-. left. repeat split. discriminate.
  - intros H. right. left. split; [reflexivity|exact H].
Qed.

(** C8: whatever the world answers, [login] either returns or raises; it
    never stops in between.  When it returns, [access_token] and [expires_at]
    are both taken from the same token data, the one dict that a single call
    of a strategy returned in this very run of [login]: the access token as it
    is, the expiry moved back by the offset.  When it raises, both are what
    they were. *)
Theorem C8_access_token_and_expiry_together
    (lib : Externals) (me : Account) (env : Env) (st : State) :
  let out := run env (MyBMWAuthentication.login lib me) st in
  match fst out with
  | Returned _ =>
      exists td s a t,
        supplied env
          (traced (refresh_name (region me)) (refresh_strategy lib me))
          (traced (full_login_name (region me)) (full_login_strategy lib me))
          (record (EvCall "login") st) td s
        /\ Py.subscript (PDict td) "access_token" = Ok a
        /\ Py.subscript (PDict td) "expires_at" = Ok (PDatetime t)
        /\ access_token (self (snd out)) = a
        /\ expires_at (self (snd out))
           = PDatetime (t - MyBMWAuthentication.EXPIRES_AT_OFFSET lib)
  | Raised _ =>
      access_token (self (snd out)) = access_token (self st)
      /\ expires_at (self (snd out)) = expires_at (self st)
  | Stuck => False
  end.
Proof.
  intros out. subst out.
  pose proof (login_ends lib me env st) as Hends.
  destruct (run env (MyBMWAuthentication.login lib me) st) as [[u|e|] st'] eqn:R;
    cbn [fst snd] in *.
  - unfold MyBMWAuthentication.login in R. rewrite run_traced in R.
    unfold MyBMWAuthentication.login_body in R. rewrite run_bind in R.
    destruct (run env (MyBMWAuthentication.token_data_for_region lib me)
                (record (EvCall "login") st)) as [[td'|e|] s2] eqn:R2;
      try discriminate R.
    destruct (run env (MyBMWAuthentication.store_tokens td') s2)
      as [[u'|e|] s1] eqn:R3; try discriminate R.
    injection R as _ <-.
    apply store_tokens_run in R3. destruct R3 as (a & e & r & Ha & He & _ & ->).
    assert (K : exists td s t,
               supplied env
                 (traced (refresh_name (region me)) (refresh_strategy lib me))
                 (traced (full_login_name (region me)) (full_login_strategy lib me))
                 (record (EvCall "login") st) td s
               /\ Py.dict_get "expires_at" td = Some (PDatetime t)
               /\ td' = Py.dict_set "expires_at"
                          (PDatetime (t - MyBMWAuthentication.EXPIRES_AT_OFFSET lib)) td).
    { unfold MyBMWAuthentication.token_data_for_region in R2.
      unfold refresh_name, full_login_name, refresh_strategy, full_login_strategy.
      destruct (region me); rewrite run_bind in R2;
        match type of R2 with
        | context [run env (MyBMWAuthentication.refresh_or_login ?rf ?fl) ?s0] =>
            destruct (run env (MyBMWAuthentication.refresh_or_login rf fl) s0)
              as [[td|e0|] s3] eqn:R4; try discriminate R2
        end;
        apply refresh_or_login_supplied in R4; exists td, s3.
      - apply shift_expiry_run in R2. destruct R2 as (t & Ht & -> & _).
        exists t. auto.
      - apply shift_expiry_run in R2. destruct R2 as (t & Ht & -> & _).
        exists t. auto.
      - rewrite run_bind in R2.
        destruct (run env (MyBMWAuthentication.shift_expiry lib td) s3)
          as [[td2|e0|] s4] eqn:R5; try discriminate R2.
        apply shift_expiry_run in R5. destruct R5 as (t & Ht & -> & ->).
        exists t. split; [exact R4|]. split; [exact Ht|].
        unfold MyBMWAuthentication.item in R2.
        destruct (Py.subscript _ "gcid"); cbn [lift bind run setattr] in R2;
          [|discriminate R2].
        injection R2 as <- _. reflexivity. }
    destruct K as (td & s & t & Hs & Ht & ->).
    rewrite dict_get_set_other in Ha by discriminate.
    rewrite dict_get_set_same in He. injection He as <-.
    exists td, s, a, t. split; [exact Hs|].
    unfold Py.subscript. rewrite Ha, Ht. repeat split.
  - apply login_raised in R. rewrite R. split; reflexivity.
  - apply Hends. reflexivity.
Qed.

(** C4, as the code has it: after a [login] that returned, the stored
    [expires_at] is the expiry of the strategy that supplied the token data,
    moved back by twice the HTTP timeout.  For the full login of China that
    expiry is the [exp] claim of the access token.  For every other strategy
    (both ROW/NA ones and the refresh of China) it is a clock reading plus the
    [expires_in] of the last response of this login, the token response; the
    clock was read in this login before the token request was sent, and not
    after.  [new] is what this run of [login] added to the trace. *)
Theorem C4_stored_expiry
    (lib : Externals) (me : Account) (env : Env) (st st' : State) (u : unit) :
  run env (MyBMWAuthentication.login lib me) st = (Returned u, st') ->
  exists name t new,
    log st' = (new ++ log st)%list
    /\ last_call new = Some name
    /\ In name (map fst (strategies lib me))
    /\ expires_at (self st')
       = PDatetime (t - timedelta_seconds (HTTPX_TIMEOUT lib * 2))
    /\ (name <> "_login_china" -> by_expires_in lib new (PDatetime t))
    /\ (name = "_login_china" ->
        region me = CHINA /\ by_exp_claim lib new (PDatetime t)).
Proof.
  intros R.
  pose proof (run_with_log env (MyBMWAuthentication.login lib me)
                (with_log [] st) (log st)) as F.
  assert (E : with_log (log (with_log [] st) ++ log st) (with_log [] st) = st)
    by (destruct st; reflexivity).
  rewrite E, R in F. clear E.
  destruct (run env (MyBMWAuthentication.login lib me) (with_log [] st))
    as [o s'] eqn:R0.
  cbn [fst snd] in F. injection F as <- ->.
  apply login_returned in R0.
  destruct R0 as (name & strategy & s0 & s_end & a & t & r & gc
                  & Hin & Hrun & He & Hc & Ha & Hx & Hr & Hg).
  exists name, t, (log s'). cbn [with_log log self].
  split; [reflexivity|]. split; [exact Hc|]. split.
  { change name with (fst (name, strategy)). apply in_map. exact Hin. }
  split; [exact Hx|]. unfold expiry_of in He. split.
  - intros Hne. destruct (String.eqb name "_login_china") eqn:E; [|exact He].
    apply String.eqb_eq in E. contradiction.
  - intros ->. cbn in He. split; [|exact He].
    unfold strategies in Hin. destruct (region me); [| |reflexivity];
      simpl in Hin; destruct Hin as [Hin|[Hin|[]]]; discriminate Hin.
Qed.

Lemma C4_stored_expiry_witness :
  exists name t,
    In name (map fst (strategies Demo.lib (Demo.account REST_OF_WORLD)))
    /\ expires_at
         (self (snd (run (Demo.env_of [Demo.oauth_settings; Demo.token_response]
                            Demo.ok_response)
                       (MyBMWAuthentication.login Demo.lib (Demo.account REST_OF_WORLD))
                       Demo.logged_in)))
       = PDatetime (t - timedelta_seconds (HTTPX_TIMEOUT Demo.lib * 2)).
Proof.
  destruct (C4_stored_expiry Demo.lib (Demo.account REST_OF_WORLD)
              (Demo.env_of [Demo.oauth_settings; Demo.token_response] Demo.ok_response)
              Demo.logged_in
              (snd (run (Demo.env_of [Demo.oauth_settings; Demo.token_response]
                           Demo.ok_response)
                      (MyBMWAuthentication.login Demo.lib (Demo.account REST_OF_WORLD))
                      Demo.logged_in))
              tt ltac:(vm_compute; reflexivity))
    as (name & t & new & _ & _ & Hc & Hx & _).
  exists name, t. split; assumption.
Defined.

(** C4 as stated fails for the full login of China: the token response
    speaks of 7200 seconds, the clock reads 1700000000 when [login] starts, and
    the stored expiry is the [exp] claim 2000000000 less the offset; no clock
    reading of the run plus 7200 seconds less the offset gives that. *)
Lemma C4_china_full_login_counterexample :
  let out :=
    run (Demo.env_of Demo.script_china_login Demo.ok_response)
      (MyBMWAuthentication.login Demo.lib (Demo.account CHINA))
      Demo.logged_out in
  fst out = Returned tt
  /\ expires_at (self (snd out))
     = PDatetime (timedelta_seconds 2000000000
                  - timedelta_seconds (HTTPX_TIMEOUT Demo.lib * 2))
  /\ forall t_now,
       clock Demo.logged_out <= t_now <= clock (snd out) ->
       expires_at (self (snd out))
       <> PDatetime (t_now + timedelta_seconds 7200
                     - timedelta_seconds (HTTPX_TIMEOUT Demo.lib * 2)).
Proof.
  intros out.
  assert (E1 : fst out = Returned tt) by (vm_compute; reflexivity).
  assert (E2 : expires_at (self (snd out)) = PDatetime 1999999940000000)
    by (vm_compute; reflexivity).
  assert (E3 : clock (snd out) = 1700000001000000) by (vm_compute; reflexivity).
  split; [exact E1|]. split; [rewrite E2; reflexivity|].
  intros t_now [H1 H2] H. rewrite E2 in H. rewrite E3 in H2.
  injection H as H. unfold timedelta_seconds in H.
  change (HTTPX_TIMEOUT Demo.lib) with 30 in H. lia.
Qed.

(** ** The refresh functions fail softly *)

(** [extends l' l]: the trace [l'] is [l] with later events on top. *)
Definition extends (l' l : list event) : Prop := exists new, l' = (new ++ l)%list.

Lemma extends_refl (l : list event) : extends l l.
Proof. exists []. reflexivity. Qed.

Lemma extends_trans (l1 l2 l3 : list event) :
  extends l3 l2 -> extends l2 l1 -> extends l3 l1.
Proof.
  intros [n2 ->] [n1 ->]. exists (n2 ++ n1)%list. rewrite app_assoc. reflexivity.
Qed.

Lemma extends_cons (ev : event) (l' l : list event) :
  extends l' (ev :: l) -> extends l' l.
Proof.
  intros [new ->]. exists (new ++ [ev])%list. rewrite <- app_assoc. reflexivity.
Qed.

Lemma run_bind_extends {A B : Type} (env : Env) (p : prog A) (f : A -> prog B)
    (st : State) :
  extends (log (snd (run env (bind p f) st))) (log (snd (run env p st))).
Proof.
  rewrite run_bind. destruct (run env p st) as [[a|e|] s1]; cbn [snd].
  - apply run_extends_log.
  - apply extends_refl.
  - apply extends_refl.
Qed.

Lemma run_traced_extends {A : Type} (env : Env) (fn : string) (body : prog A)
    (st : State) :
  extends (log (snd (run env (traced fn body) st)))
          (log (snd (run env body (record (EvCall fn) st)))).
Proof.
  rewrite run_traced.
  destruct (run env body (record (EvCall fn) st)) as [[a|e|] s1]; cbn [snd].
  - exists [EvReturn fn]. reflexivity.
  - exists [EvRaise fn e]. reflexivity.
  - apply extends_refl.
Qed.

Section RefreshFailure.

Variables (lib : Externals) (me : Account) (env : Env).







End RefreshFailure.



(** * Further properties of the module *)

(** ** The response hook of the login client *)

(** X1: [raise_for_status_event_handler] lets a response through exactly
    when its status is outside 400..599 or is 429; on every other 4xx or 5xx
    it raises the classified failure carrying the status and the body of that
    response. *)
Theorem hook_raises_on_errors_but_429 (r : Response) :
  (MyBMWLoginClient.raise_for_status_event_handler r = None
   <-> status_code r < 400 \/ 599 < status_code r \/ status_code r = 429)
  /\ (MyBMWLoginClient.raise_for_status_event_handler r
      = Some (MyBMWAPIError (status_code r) (text r))
      <-> 400 <= status_code r <= 599 /\ status_code r <> 429).
Proof.
  unfold MyBMWLoginClient.raise_for_status_event_handler, raise_for_status,
    is_error, is_success, handle_httpstatuserror.
  destruct (Z.leb_spec 400 (status_code r));
    destruct (Z.leb_spec (status_code r) 599);
    destruct (Z.eqb_spec (status_code r) 429);
    destruct (Z.leb_spec 200 (status_code r));
    destruct (Z.leb_spec (status_code r) 299);
    cbn; repeat split; intros; try discriminate; try lia; try reflexivity;
    try (exfalso; lia).
Qed.

(** ** The login client *)

Lemma login_retry_end_leaf (r : Response) :
  login_retry_end r = Ret tt \/ exists e, login_retry_end r = Raise e.
Proof.
  unfold login_retry_end. destruct (status_code r =? 429); [|left; reflexivity].
  destruct (raise_for_status r); [right; eexists; reflexivity|left; reflexivity].
Qed.

Lemma login_retry_end_returns (r : Response) :
  login_retry_end r = Ret tt -> status_code r <> 429.
Proof.
  unfold login_retry_end, raise_for_status, is_success. intros H E.
  rewrite E in H. cbn in H. discriminate H.
Qed.

Lemma login_client_send_unfold (req : Request) :
  MyBMWLoginClient.send req
  = Send req (fun rr =>
      match rr with
      | Err e => Raise e
      | Ok r =>
          match MyBMWLoginClient.raise_for_status_event_handler r with
          | Some e => Raise e
          | None =>
              send_handling_auth MyBMWLoginClient.raise_for_status_event_handler
                (bind (retry_loop 3 req r) login_retry_end) (Some r)
          end
      end).
Proof. reflexivity. Qed.

Lemma hook_passed_status (r : Response) :
  MyBMWLoginClient.raise_for_status_event_handler r = None ->
  status_code r < 400 \/ 599 < status_code r \/ status_code r = 429.
Proof.
  unfold MyBMWLoginClient.raise_for_status_event_handler, raise_for_status,
    is_error, is_success.
  destruct (Z.leb_spec 400 (status_code r));
    destruct (Z.leb_spec (status_code r) 599);
    destruct (Z.eqb_spec (status_code r) 429);
    destruct (Z.leb_spec 200 (status_code r));
    destruct (Z.leb_spec (status_code r) 299);
    cbn; intros; try discriminate; lia.
Qed.

(** A response that went through the loop and came back as the result
    passed the hook, and the end of the flow let it through. *)
Lemma retry_loop_returns_passed (env : Env) (hook : Response -> option exn)
    (k : Response -> prog unit) (req : Request) (n : nat) :
  (forall r, k r = Ret tt \/ exists e, k r = Raise e) ->
  forall r st r' st',
    hook r = None ->
    run env (send_handling_auth hook (bind (retry_loop n req r) k) (Some r)) st
    = (Returned r', st') ->
    hook r' = None /\ k r' = Ret tt.
Proof.
  intros Hk. induction n as [|n IH]; intros r st r' st' Hr H.
  - cbn [retry_loop bind] in H.
    destruct (Hk r) as [E|[e E]]; rewrite E in H; cbn in H; inversion H; subst; auto.
  - cbn [retry_loop] in H. unfold retry_once in H.
    destruct (status_code r =? 429).
    + destruct (wait_time r) as [w|e]; cbn in H; [|discriminate].
      destruct (reply env (sent st) req) as [r2|e]; cbn in H; [|discriminate].
      destruct (hook r2) eqn:H2; cbn in H; [discriminate|].
      apply IH in H; auto.
    + cbn [bind] in H. apply IH in H; auto.
Qed.

Lemma login_client_default_returns
    (env : Env) (req : Request) (st st' : State) (r : Response) :
  run env (MyBMWLoginClient.send req) st = (Returned r, st') ->
  is_error r = false /\ status_code r <> 429 /\ last_recv (log st') = Some r.
Proof.
  intros H. pose proof (login_client_returns_last env req st st' r H) as Hlast.
  rewrite login_client_send_unfold in H. cbn [run exchange] in H.
  destruct (reply env (sent st) req) as [r1|e]; [|discriminate H].
  destruct (MyBMWLoginClient.raise_for_status_event_handler r1) eqn:H1;
    [discriminate H|].
  apply (retry_loop_returns_passed env _ login_retry_end req 3
           login_retry_end_leaf) in H; [|exact H1].
  destruct H as [Hhook Hend]. apply login_retry_end_returns in Hend.
  repeat split; auto.
  apply hook_passed_status in Hhook.
  unfold is_error.
  destruct (Z.leb_spec 400 (status_code r)); destruct (Z.leb_spec (status_code r) 599);
    cbn; auto; lia.
Qed.

(** X2: what a call of [MyBMWLoginClient] hands back to a login strategy is
    the response it received last.  On a call without an [auth] of its own it
    is never a 4xx or 5xx: those are raised by the hook, or by
    [MyBMWLoginRetry] when they are a 429 that outlasted the retries.  On a
    call with [auth=(id, secret)], as the token requests of the two ROW/NA
    strategies are, [MyBMWLoginRetry] is not in place: a 429 is the one 4xx or
    5xx that is handed back, and it is handed back at once, after one exchange
    and without a sleep. *)
Theorem login_client_hands_back
    (env : Env) (auth : option (pyobj * pyobj)) (req : Request) (st : State) :
  (forall r st',
     run env (MyBMWLoginClient.send_with auth req) st = (Returned r, st') ->
     last_recv (log st') = Some r
     /\ (is_error r = true -> status_code r = 429 /\ auth <> None))
  /\ (forall user secret r1,
        auth = Some (PStr user, PStr secret) ->
        reply env (sent st) req = Ok r1 ->
        status_code r1 = 429 ->
        run env (MyBMWLoginClient.send_with auth req) st
        = (Returned r1, snd (exchange env req st))).
Proof.
  split.
  - intros r st' H. split.
    { apply login_client_send_with_returns in H. destruct H as [l [Hl _]].
      rewrite Hl. reflexivity. }
    destruct auth as [[user secret]|].
    + intros Herr. split; [|discriminate].
      unfold MyBMWLoginClient.send_with, client_send, BasicAuth.auth_flow in H.
      destruct (BasicAuth.init user secret);
        cbn -[MyBMWLoginClient.raise_for_status_event_handler] in H;
        [|discriminate H].
      destruct (reply env (sent st) req) as [r1|e];
        cbn -[MyBMWLoginClient.raise_for_status_event_handler] in H;
        [|discriminate H].
      destruct (MyBMWLoginClient.raise_for_status_event_handler r1) eqn:H1;
        cbn -[MyBMWLoginClient.raise_for_status_event_handler] in H;
        [discriminate H|].
      injection H as <- _. apply hook_passed_status in H1.
      unfold is_error in Herr. apply andb_prop in Herr. lia.
    + intros Herr. apply login_client_default_returns in H.
      destruct H as [H _]. rewrite H in Herr. discriminate Herr.
  - intros user secret r1 -> Hreply Hs.
    unfold MyBMWLoginClient.send_with, client_send, BasicAuth.auth_flow.
    cbn -[MyBMWLoginClient.raise_for_status_event_handler].
    rewrite Hreply. cbn -[MyBMWLoginClient.raise_for_status_event_handler].
    unfold MyBMWLoginClient.raise_for_status_event_handler.
    rewrite Hs. cbn. rewrite Bool.andb_false_r. reflexivity.
Qed.

Lemma login_client_hands_back_witness :
  let env := Demo.env_of [Demo.rate_limited] Demo.ok_response in
  let out :=
    run env (MyBMWLoginClient.send_with (basic_auth Demo.refresh_token_request)
               Demo.refresh_token_request)
      Demo.logged_in in
  fst out = Returned Demo.rate_limited
  /\ count is_sleep (log (snd out)) = 0%nat
  /\ last_recv (log (snd out)) = Some Demo.rate_limited.
Proof.
  intros env out.
  destruct (login_client_hands_back env (basic_auth Demo.refresh_token_request)
              Demo.refresh_token_request Demo.logged_in) as [H1 H2].
  pose proof (H2 "31c357a0" "c0e3393d" Demo.rate_limited eq_refl eq_refl eq_refl) as E.
  subst out. rewrite E. split; [reflexivity|]. split; [reflexivity|].
  apply (H1 Demo.rate_limited _ E).
Defined.

(** Counting over a trace that starts with known events. *)
Ltac tally :=
  rewrite ?count_cons in *; cbn [is_send is_sleep] in *.

(** The loop of [n] rounds sends at most [n] requests, each of them the
    request it was given, sleeps once before each of them, and comes to an
    end. *)
Lemma retry_loop_bounded (env : Env) (hook : Response -> option exn)
    (k : Response -> prog unit) (req : Request) (n : nat) :
  (forall r, k r = Ret tt \/ exists e, k r = Raise e) ->
  forall r st last,
    let out :=
      run env (send_handling_auth hook (bind (retry_loop n req r) k) last) st in
    fst out <> Stuck
    /\ (count is_send (log st) <= count is_send (log (snd out))
        <= count is_send (log st) + n)%nat
    /\ (count is_sleep (log (snd out)) + count is_send (log st)
        = count is_sleep (log st) + count is_send (log (snd out)))%nat
    /\ (forall q, In (EvSend q) (log (snd out)) -> In (EvSend q) (log st) \/ q = req).
Proof.
  intros Hk. induction n as [|n IH]; intros r st last out; subst out.
  - cbn [retry_loop bind].
    destruct (Hk r) as [E|[e E]]; rewrite E; cbn -[count].
    + destruct last; cbn -[count]; repeat split; try discriminate; try lia; auto.
    + repeat split; try discriminate; try lia; auto.
  - cbn [retry_loop]. unfold retry_once.
    destruct (status_code r =? 429).
    + destruct (wait_time r) as [w|e]; cbn -[count].
      2:{ repeat split; try discriminate; try lia; auto. }
      destruct (reply env (sent st) req) as [r2|e]; cbn -[count].
      2:{ tally. split; [discriminate|]. split; [lia|]. split; [lia|].
          intros q [H|[H|[H|[H|H]]]]; try discriminate; auto.
          injection H as <-. auto. }
      destruct (hook r2); cbn -[count].
      { tally. split; [discriminate|]. split; [lia|]. split; [lia|].
        intros q [H|[H|[H|[H|H]]]]; try discriminate; auto.
        injection H as <-. auto. }
      match goal with
      | |- context [run env ?p ?s] =>
          match p with
          | send_handling_auth _ _ ?l =>
              specialize (IH r2 s l); cbv zeta in IH
          end
      end.
      destruct IH as (H1 & H2 & H3 & H5).
      cbn [log] in H2, H3, H5. tally.
      split; [exact H1|]. split; [lia|]. split; [lia|].
      intros q Hq. apply H5 in Hq.
      destruct Hq as [[H|[H|[H|[H|H]]]]|H]; try discriminate; auto.
      injection H as <-. auto.
    + cbn [bind]. specialize (IH r st last). cbv zeta in IH.
      destruct IH as (H1 & H2 & H3 & H5).
      split; [exact H1|]. split; [lia|]. split; [lia|]. exact H5.
Qed.

(** X3: one call of the login client sends the request at least once and
    at most four times, always the same request, sleeps once before each
    resend and so at most three times, and comes to an end, whatever the
    transport answers. *)
Theorem login_client_bounded_retries (env : Env) (req : Request) (st : State) :
  let out := run env (MyBMWLoginClient.send req) st in
  fst out <> Stuck
  /\ (count is_send (log st) + 1 <= count is_send (log (snd out))
      <= count is_send (log st) + 4)%nat
  /\ (count is_sleep (log (snd out)) + count is_send (log st) + 1
      = count is_sleep (log st) + count is_send (log (snd out)))%nat
  /\ (forall q, In (EvSend q) (log (snd out)) -> In (EvSend q) (log st) \/ q = req).
Proof.
  intros out. subst out. rewrite login_client_send_unfold. cbn [run exchange].
  destruct (reply env (sent st) req) as [r1|e]; cbn -[count retry_loop].
  2:{ tally. split; [discriminate|]. split; [lia|]. split; [lia|].
      intros q [H|[H|H]]; try discriminate; auto. injection H as <-. auto. }
  destruct (MyBMWLoginClient.raise_for_status_event_handler r1); cbn -[count retry_loop].
  { tally. split; [discriminate|]. split; [lia|]. split; [lia|].
    intros q [H|[H|H]]; try discriminate; auto. injection H as <-. auto. }
  match goal with
  | |- context [run env ?p ?s] =>
      pose proof (retry_loop_bounded env
                    MyBMWLoginClient.raise_for_status_event_handler
                    login_retry_end req 3 login_retry_end_leaf r1 s (Some r1)) as HB
  end.
  cbv zeta in HB. destruct HB as (H1 & H2 & H3 & H5).
  cbn [log] in H2, H3, H5. tally.
  split; [exact H1|]. split; [lia|]. split; [lia|].
  intros q Hq. apply H5 in Hq.
  destruct Hq as [[H|[H|H]]|H]; try discriminate; auto.
  injection H as <-. auto.
Qed.

Lemma retry_loop_other (n : nat) (req : Request) (r : Response) :
  status_code r <> 429 -> retry_loop n req r = Ret r.
Proof.
  intros H. induction n as [|n IH]; [reflexivity|].
  cbn [retry_loop]. rewrite (retry_once_other req r H). exact IH.
Qed.

(** X4: a first response that is not a 429 ends the call of the login client
    after this one exchange, without a sleep: a 4xx or 5xx is raised as the
    classified failure with its status and body, any other response is the
    result. *)
Theorem login_client_answers_at_once
    (env : Env) (req : Request) (st : State) (r1 : Response) :
  reply env (sent st) req = Ok r1 ->
  status_code r1 <> 429 ->
  run env (MyBMWLoginClient.send req) st
  = (if is_error r1
     then Raised (MyBMWAPIError (status_code r1) (text r1))
     else Returned r1,
     snd (exchange env req st)).
Proof.
  intros Hreply Hs. rewrite login_client_send_unfold.
  cbn [run]. unfold exchange. rewrite Hreply. cbn [snd].
  rewrite (retry_loop_other 3 req r1 Hs). cbn [bind].
  unfold login_retry_end.
  assert (E : (status_code r1 =? 429) = false) by (apply Z.eqb_neq; exact Hs).
  unfold MyBMWLoginClient.raise_for_status_event_handler. rewrite E.
  destruct (is_error r1) eqn:Herr; cbn.
  - assert (R : raise_for_status r1 = true).
    { unfold raise_for_status, is_success. unfold is_error in Herr.
      destruct (Z.leb_spec 400 (status_code r1)); [|discriminate Herr].
      destruct (Z.leb_spec (status_code r1) 299); [lia|].
      rewrite Bool.andb_false_r. reflexivity. }
    rewrite R. reflexivity.
  - reflexivity.
Qed.

Lemma login_client_answers_at_once_witness :
  let env := Demo.env_of [Demo.invalid_grant; Demo.ok_response] Demo.ok_response in
  run env (MyBMWLoginClient.send Demo.request) Demo.logged_in
  = (Raised (MyBMWAPIError 400 "invalid_grant"),
     snd (exchange env Demo.request Demo.logged_in)).
Proof.
  intros env.
  apply (login_client_answers_at_once env Demo.request Demo.logged_in
           Demo.invalid_grant); [reflexivity|discriminate].
Defined.

(** ** The wait, outside the plain case *)

Lemma int_of_one_char (c : ascii) :
  Py.int_of_str (String c EmptyString)
  = if Py.is_decimal c then Ok (Py.code c - 48) else Err ValueError.
Proof. rewrite int_of_str_char. reflexivity. Qed.

Lemma isdigit_one_char (c : ascii) :
  Py.str_isdigit (String c EmptyString) = Py.isdigit c.
Proof. unfold Py.str_isdigit, Py.str_isdigit_all. apply Bool.andb_true_r. Qed.

Lemma decimal_value (c : ascii) :
  Py.is_decimal c = true -> 0 <= Py.code c - 48 <= 9.
Proof.
  unfold Py.is_decimal. intros H. apply Bool.andb_true_iff in H.
  destruct H as [H1 H2]. apply Z.leb_le in H1. apply Z.leb_le in H2. lia.
Qed.

(** The list comprehension over the characters of a string: what it gives
    when it gives something, and how it fails. *)
Lemma digits_of_string (s : string) :
  match
    digits_of (map (fun c => PStr (String c EmptyString)) (list_ascii_of_string s))
  with
  | Ok ds => Forall (fun d => 0 <= d <= 9) ds
  | Err e =>
      e = ValueError
      /\ exists c, In c (list_ascii_of_string s)
                   /\ Py.isdigit c = true /\ Py.is_decimal c = false
  end.
Proof.
  induction s as [|c s IH]; [constructor|].
  cbn [list_ascii_of_string map digits_of].
  rewrite isdigit_one_char, int_of_one_char.
  destruct (Py.isdigit c) eqn:Hd.
  - destruct (Py.is_decimal c) eqn:Hc.
    + destruct (digits_of _) as [ds|e].
      * constructor; [apply decimal_value; exact Hc|exact IH].
      * destruct IH as [-> (c' & Hin & H1 & H2)]. split; [reflexivity|].
        exists c'. split; [right; exact Hin|auto].
    + split; [reflexivity|]. exists c. split; [left; reflexivity|auto].
  - destruct (digits_of _) as [ds|e]; [exact IH|].
    destruct IH as [-> (c' & Hin & H1 & H2)]. split; [reflexivity|].
    exists c'. split; [right; exact Hin|auto].
Qed.

Lemma scale_wait_digit (d w : Z) :
  0 <= d <= 9 -> scale_wait d = Ok w -> 0 <= w <= 12.
Proof.
  intros H.
  assert (C : d = 0 \/ d = 1 \/ d = 2 \/ d = 3 \/ d = 4 \/ d = 5 \/ d = 6
              \/ d = 7 \/ d = 8 \/ d = 9) by lia.
  repeat (destruct C as [->|C];
          [vm_compute; intros E; injection E as <-; split; discriminate|]).
  subst d. vm_compute. intros E. injection E as <-. split; discriminate.
Qed.

(** X5: when the body of a 429 is a JSON object whose [message] is a string
    or is missing, a wait that is computed lies between 0 and 12 seconds,
    whatever number the message announces; without a [message] it is 3. *)
Theorem wait_is_at_most_twelve_seconds
    (r : Response) (m : list (string * pyobj)) (w : Z) :
  json r = Some (PDict m) ->
  (Py.dict_get "message" m = None
   \/ exists s, Py.dict_get "message" m = Some (PStr s)) ->
  wait_time r = Ok w ->
  0 <= w <= 12 /\ (Py.dict_get "message" m = None -> w = 3).
Proof.
  intros Hj Hm. unfold wait_time, base_wait, response_json, get_message.
  rewrite Hj. destruct Hm as [Hm|[s Hm]]; rewrite Hm; cbn [Py.iterate].
  - cbn [map list_ascii_of_string digits_of next_or].
    change (scale_wait 2) with (Ok (A := Z) 3).
    intros H. injection H as <-. split; [lia|reflexivity].
  - pose proof (digits_of_string s) as Hd.
    destruct (digits_of _) as [ds|e]; [|discriminate].
    intros H. split; [|discriminate].
    apply (scale_wait_digit (next_or ds 2)); [|exact H].
    destruct Hd as [|d ds Hd _]; cbn; [lia|exact Hd].
Qed.

Lemma wait_is_at_most_twelve_seconds_witness :
  0 <= 12 <= 12
  /\ wait_time (too_many_requests "" "Retry after 90 seconds") = Ok 12.
Proof.
  split; [|vm_compute; reflexivity].
  apply (wait_is_at_most_twelve_seconds
           (too_many_requests "" "Retry after 90 seconds")
           [("message", PStr "Retry after 90 seconds")] 12 eq_refl).
  - right. eexists. reflexivity.
  - vm_compute. reflexivity.
Defined.
















(** X7: a character of the message on which [isdigit] holds and which is
    not a decimal digit (a superscript two, three or one) makes the wait
    computation raise ValueError, wherever it stands in the message: the list
    comprehension converts every such character before [next] takes the
    first. *)
Theorem superscript_digit_raises_value_error
    (r : Response) (m : list (string * pyobj)) (s : string) (c : ascii) :
  json r = Some (PDict m) ->
  Py.dict_get "message" m = Some (PStr s) ->
  In c (list_ascii_of_string s) ->
  Py.isdigit c = true ->
  Py.is_decimal c = false ->
  wait_time r = Err ValueError.
Proof.
  intros Hj Hm Hin Hd Hn. unfold wait_time, base_wait, response_json, get_message.
  rewrite Hj, Hm. cbn [Py.iterate].
  assert (K : digits_of (map (fun c => PStr (String c EmptyString))
                           (list_ascii_of_string s)) = Err ValueError).
  { clear Hj Hm. induction s as [|c' s IH]; [destruct Hin|].
    cbn [list_ascii_of_string map digits_of].
    rewrite isdigit_one_char, int_of_one_char.
    destruct Hin as [->|Hin].
    - rewrite Hd, Hn. reflexivity.
    - specialize (IH Hin). rewrite IH.
      destruct (Py.isdigit c'); [|reflexivity].
      destruct (Py.is_decimal c'); reflexivity. }
  rewrite K. reflexivity.
Qed.

Lemma superscript_digit_raises_value_error_witness :
  wait_time
    (too_many_requests ""
       ("Retry after 5" ++ String (ascii_of_nat 178) EmptyString ++ " seconds"))
  = Err ValueError.
Proof.
  apply (superscript_digit_raises_value_error _
           [("message",
             PStr ("Retry after 5" ++ String (ascii_of_nat 178) EmptyString
                   ++ " seconds"))]
           ("Retry after 5" ++ String (ascii_of_nat 178) EmptyString ++ " seconds")
           (ascii_of_nat 178)); try reflexivity.
  cbn. tauto.
Defined.

(** ** Edges of the authenticated flow *)

(** X8: when the wait cannot be computed from a 429 (its body is not JSON,
    say), both flows give up at once with the exception of the computation:
    there is no sleep and no resend, and the caller gets neither the response
    nor the classified failure. *)
Theorem unreadable_429_aborts
    (lib : Externals) (me : Account) (env : Env) (hook : Response -> option exn)
    (req : Request) (st : State) (r1 : Response) (e : exn) :
  status_code r1 = 429 ->
  wait_time r1 = Err e ->
  (locked st = false ->
   Py.truthy (access_token (self st)) = true ->
   let q := MyBMWAuthentication.with_auth_headers lib me (access_token (self st)) req in
   reply env (sent st) q = Ok r1 ->
   hook r1 = None ->
   run env (MyBMWAuthentication.apply lib me hook req) st
   = (Raised e, first_answered env q r1 st))
  /\ (reply env (sent st) req = Ok r1 ->
      run env (MyBMWLoginClient.send req) st
      = (Raised e, snd (exchange env req st))).
Proof.
  intros Hs Hw. split.
  - intros Hl Ht q Hr Hh.
    rewrite (auth_flow_first_response lib me env hook req st r1 Hl Ht Hr Hh).
    rewrite Hs, (is_quota_429 lib r1 Hs). cbn [Z.eqb Pos.eqb retry_loop].
    unfold retry_once. rewrite Hs, Hw. reflexivity.
  - intros Hr. rewrite login_client_send_unfold. cbn [run]. unfold exchange.
    rewrite Hr, (hook_passes_429 r1 Hs). cbn [retry_loop snd].
    unfold retry_once. rewrite Hs, Hw. reflexivity.
Qed.

Lemma unreadable_429_aborts_witness :
  let env := Demo.env_of [Demo.busy] Demo.ok_response in
  fst (run env
         (MyBMWAuthentication.apply Demo.lib (Demo.account REST_OF_WORLD)
            (fun _ => None) Demo.request)
         Demo.logged_in)
  = Raised JSONDecodeError
  /\ fst (run env (MyBMWLoginClient.send Demo.request) Demo.logged_in)
     = Raised JSONDecodeError.
Proof.
  intros env.
  destruct (unreadable_429_aborts Demo.lib (Demo.account REST_OF_WORLD) env
              (fun _ => None) Demo.request Demo.logged_in Demo.busy JSONDecodeError
              eq_refl eq_refl) as [H1 H2].
  split.
  - rewrite (H1 eq_refl eq_refl eq_refl eq_refl). reflexivity.
  - rewrite (H2 eq_refl). reflexivity.
Defined.

(** ** The headers the flow writes *)

Lemma same_header_eq (a b : string) :
  same_header a b = true <-> Py.ascii_lower a = Py.ascii_lower b.
Proof. apply String.eqb_eq. Qed.

Lemma same_header_refl (a : string) : same_header a a = true.
Proof. apply String.eqb_refl. Qed.

Lemma same_header_sym (a b : string) : same_header a b = same_header b a.
Proof. apply String.eqb_sym. Qed.

(** A name that is the header [k] is not another header [k']. *)
Lemma same_header_other (a k k' : string) :
  same_header a k = true -> same_header k k' = false -> same_header a k' = false.
Proof.
  intros H. apply same_header_eq in H. unfold same_header in *. rewrite H. auto.
Qed.

Lemma del_item_cons (a b key : string) (hs : list (string * string)) :
  del_item key ((a, b) :: hs)
  = if same_header a key then del_item key hs else (a, b) :: del_item key hs.
Proof.
  unfold del_item. cbn [filter fst]. destruct (same_header a key); reflexivity.
Qed.

Lemma del_item_twice (key : string) (hs : list (string * string)) :
  del_item key (del_item key hs) = del_item key hs.
Proof.
  induction hs as [|[a b] hs IH]; [reflexivity|].
  rewrite del_item_cons. destruct (same_header a key) eqn:E; [exact IH|].
  rewrite del_item_cons, E, IH. reflexivity.
Qed.

Lemma del_item_comm (k k' : string) (hs : list (string * string)) :
  del_item k (del_item k' hs) = del_item k' (del_item k hs).
Proof.
  induction hs as [|[a b] hs IH]; [reflexivity|].
  rewrite !del_item_cons.
  destruct (same_header a k') eqn:E'; destruct (same_header a k) eqn:E;
    rewrite ?del_item_cons, ?E, ?E', IH; reflexivity.
Qed.

Lemma set_item_del_item (k v k' : string) (hs : list (string * string)) :
  same_header k k' = false ->
  set_item k v (del_item k' hs) = del_item k' (set_item k v hs).
Proof.
  intros Hk. induction hs as [|[a b] hs IH].
  - change (del_item k' []) with (@nil (string * string)). cbn [set_item].
    rewrite del_item_cons, Hk. reflexivity.
  - rewrite del_item_cons. cbn [set_item].
    destruct (same_header a k') eqn:E'; destruct (same_header a k) eqn:E.
    + apply same_header_eq in E, E'. apply Bool.not_true_iff_false in Hk.
      exfalso. apply Hk. apply same_header_eq. congruence.
    + rewrite del_item_cons, E'. exact IH.
    + cbn [set_item]. rewrite E, del_item_cons, Hk, del_item_comm. reflexivity.
    + cbn [set_item]. rewrite E, del_item_cons, E', IH. reflexivity.
Qed.

Lemma set_item_twice (key v1 v2 : string) (hs : list (string * string)) :
  set_item key v2 (set_item key v1 hs) = set_item key v2 hs.
Proof.
  induction hs as [|[k v] hs IH]; cbn [set_item].
  - rewrite same_header_refl. reflexivity.
  - destruct (same_header k key) eqn:E; cbn [set_item].
    + rewrite same_header_refl, del_item_twice. reflexivity.
    + rewrite E, IH. reflexivity.
Qed.

(** The headers of the name [key], in whatever case it is written. *)
Lemma header_values_del_item (key : string) (hs : list (string * string)) :
  header_values key (del_item key hs) = [].
Proof.
  induction hs as [|[a b] hs IH]; [reflexivity|].
  rewrite del_item_cons. destruct (same_header a key) eqn:E; [exact IH|].
  unfold header_values in *. cbn [filter fst]. rewrite E. exact IH.
Qed.

Lemma header_values_del_other (k key : string) (hs : list (string * string)) :
  same_header key k = false ->
  header_values k (del_item key hs) = header_values k hs.
Proof.
  intros Hk. induction hs as [|[a b] hs IH]; [reflexivity|].
  rewrite del_item_cons. unfold header_values in *.
  destruct (same_header a key) eqn:E; cbn [filter fst].
  - rewrite (same_header_other a key k E Hk). exact IH.
  - rewrite IH. reflexivity.
Qed.

Lemma header_values_set_item (key value : string) (hs : list (string * string)) :
  header_values key (set_item key value hs) = [(key, value)].
Proof.
  induction hs as [|[a b] hs IH]; cbn [set_item].
  - unfold header_values. cbn [filter fst]. rewrite same_header_refl. reflexivity.
  - destruct (same_header a key) eqn:E.
    + unfold header_values. cbn [filter fst]. rewrite same_header_refl.
      f_equal. apply header_values_del_item.
    + unfold header_values in *. cbn [filter fst]. rewrite E. exact IH.
Qed.

Lemma header_values_set_other (k key value : string) (hs : list (string * string)) :
  same_header key k = false ->
  header_values k (set_item key value hs) = header_values k hs.
Proof.
  intros Hk. induction hs as [|[a b] hs IH]; cbn [set_item].
  - unfold header_values. cbn [filter fst]. rewrite Hk. reflexivity.
  - destruct (same_header a key) eqn:E.
    + unfold header_values. cbn [filter fst].
      rewrite Hk, (same_header_other a key k E Hk).
      apply header_values_del_other. exact Hk.
    + unfold header_values in *. cbn [filter fst]. rewrite IH. reflexivity.
Qed.

(** Two assignments to different headers can be swapped when the first
    header is on the request already. *)
Lemma set_item_swap (k v k' v' : string) (hs : list (string * string)) :
  same_header k k' = false -> header_values k hs <> [] ->
  set_item k v (set_item k' v' hs) = set_item k' v' (set_item k v hs).
Proof.
  intros Hne. assert (Hne' : same_header k' k = false)
    by (rewrite same_header_sym; exact Hne).
  induction hs as [|[a b] hs IH]; [intros H; exfalso; apply H; reflexivity|].
  intros Hin. cbn [set_item].
  destruct (same_header a k') eqn:E'; destruct (same_header a k) eqn:E;
    cbn [set_item]; rewrite ?E, ?E', ?Hne, ?Hne'.
  - rewrite (same_header_other a k k' E Hne) in E'. discriminate E'.
  - rewrite set_item_del_item by exact Hne. reflexivity.
  - rewrite set_item_del_item by exact Hne'. reflexivity.
  - f_equal. apply IH. unfold header_values in *. cbn [filter fst] in Hin.
    rewrite E in Hin. exact Hin.
Qed.

(** X9: the two header assignments overwrite.  Writing the headers again
    with another token, as the flow does after a 401, gives the request that
    writing them once with that token gives; and whatever headers the request
    came with, in whatever case their names were written, the one
    authorization header left is the bearer of the token written last, and
    the one bmw-session-id header left is the session id: neither a stale
    token nor an Authorization header of the caller stays on the request. *)
Theorem auth_headers_overwrite
    (lib : Externals) (me : Account) (stale fresh_token : pyobj) (req : Request) :
  MyBMWAuthentication.with_auth_headers lib me fresh_token
    (MyBMWAuthentication.with_auth_headers lib me stale req)
  = MyBMWAuthentication.with_auth_headers lib me fresh_token req
  /\ header_values "authorization"
       (headers (MyBMWAuthentication.with_auth_headers lib me fresh_token
                   (MyBMWAuthentication.with_auth_headers lib me stale req)))
     = [("authorization", "Bearer " ++ py_str lib fresh_token)]
  /\ header_values "bmw-session-id"
       (headers (MyBMWAuthentication.with_auth_headers lib me fresh_token
                   (MyBMWAuthentication.with_auth_headers lib me stale req)))
     = [("bmw-session-id", session_id me)].
Proof.
  assert (E : MyBMWAuthentication.with_auth_headers lib me fresh_token
                (MyBMWAuthentication.with_auth_headers lib me stale req)
              = MyBMWAuthentication.with_auth_headers lib me fresh_token req).
  { unfold MyBMWAuthentication.with_auth_headers, set_header.
    cbn [headers method url params data json_body basic_auth]. f_equal.
    rewrite (set_item_swap "authorization" _ "bmw-session-id");
      [|reflexivity|].
    - rewrite set_item_twice, set_item_twice. reflexivity.
    - rewrite header_values_set_item. discriminate. }
  split; [exact E|]. rewrite E.
  unfold MyBMWAuthentication.with_auth_headers, set_header. cbn [headers].
  split.
  - rewrite header_values_set_other by reflexivity. apply header_values_set_item.
  - apply header_values_set_item.
Qed.

(** ** The first call, without a token *)

Lemma run_with_lock {A : Type} (env : Env) (body : prog A) (st : State) :
  locked st = false ->
  run env (with_lock body) st
  = match run env body (record EvAcquire (set_locked true st)) with
    | (Stuck, s1) => (Stuck, s1)
    | (other, s1) => (other, released s1)
    end.
Proof.
  intros Hl. unfold with_lock. cbn [run]. rewrite Hl. rewrite run_try_finally.
  destruct (run env body (record EvAcquire (set_locked true st))) as [[a|e|] s1];
    reflexivity.
Qed.

Lemma every_first_lock (lib : Externals) (me : Account) :
  every no_yield
    (with_lock
       (token <- getattr AccessToken ;;
        if negb (Py.truthy token) then MyBMWAuthentication.login lib me else Ret tt)).
Proof.
  apply every_with_lock; try exact I.
  apply every_bind; [simpl; auto|]. intros tok.
  destruct (negb (Py.truthy tok)); [|exact I].
  eapply every_weaken; [apply login_node_no_yield|apply every_login].
Qed.

Section FirstCall.

Variables (lib : Externals) (me : Account) (env : Env).
Variables (hook : Response -> option exn) (req : Request) (st : State).

Hypothesis unlocked : locked st = false.
Hypothesis no_token : Py.truthy (access_token (self st)) = false.

(** Without a token the flow starts with [login], under the lock. *)
Lemma auth_flow_logs_in_first (tail : prog unit) :
  MyBMWAuthentication.async_auth_flow lib me req
  = (with_lock
       (token <- getattr AccessToken ;;
        if negb (Py.truthy token) then MyBMWAuthentication.login lib me else Ret tt) ;;
     tail) ->
  run env (MyBMWAuthentication.apply lib me hook req) st
  = match
      run env (MyBMWAuthentication.login lib me) (record EvAcquire (set_locked true st))
    with
    | (Returned _, s1) => run env (send_handling_auth hook tail None) (released s1)
    | (Raised e, s1) => (Raised e, released s1)
    | (Stuck, s1) => (Stuck, s1)
    end.
Proof.
  intros Hshape. unfold MyBMWAuthentication.apply, client_send. rewrite Hshape.
  rewrite run_driver_bind; [|apply every_first_lock].
  rewrite (run_with_lock env _ st unlocked).
  cbn [getattr bind run get_field record set_locked self]. rewrite no_token.
  cbn [negb].
  destruct (run env (MyBMWAuthentication.login lib me) (record EvAcquire (set_locked true st)))
    as [[u|e|] s1]; reflexivity.
Qed.

End FirstCall.

(** X10: on a credential without a token (none, or an empty one) the flow
    calls [login] under the lock before anything is sent, and the request then
    goes out with the token that [login] stored in its authorization header;
    a response that is neither a 401 nor a quota error is the result. *)
Theorem first_call_logs_in_then_sends
    (lib : Externals) (me : Account) (env : Env) (hook : Response -> option exn)
    (req : Request) (st s1 : State) (u : unit) (r1 : Response) :
  locked st = false ->
  Py.truthy (access_token (self st)) = false ->
  run env (MyBMWAuthentication.login lib me) (record EvAcquire (set_locked true st))
  = (Returned u, s1) ->
  let q := MyBMWAuthentication.with_auth_headers lib me (access_token (self s1)) req in
  reply env (sent s1) q = Ok r1 ->
  hook r1 = None ->
  status_code r1 <> 401 ->
  MyBMWAuthentication.is_quota r1 = false ->
  run env (MyBMWAuthentication.apply lib me hook req) st
  = (Returned r1, snd (exchange env q (released s1)))
  /\ In ("authorization", "Bearer " ++ py_str lib (access_token (self s1))) (headers q)
  /\ count (is_call "login") (log s1) = S (count (is_call "login") (log st)).
Proof.
  intros Hl Ht Hlogin q Hr Hh Hs Hq. split; [|split].
  - rewrite (auth_flow_logs_in_first lib me env hook req st Hl Ht _ eq_refl).
    rewrite Hlogin. unfold MyBMWAuthentication.attach.
    cbn -[MyBMWAuthentication.with_auth_headers MyBMWAuthentication.is_quota
          retry_loop MyBMWAuthentication.login].
    fold q. rewrite Hr, Hh.
    assert (E : (status_code r1 =? 401) = false) by (apply Z.eqb_neq; exact Hs).
    rewrite E, Hq. reflexivity.
  - apply bearer_header_attached.
  - pose proof (login_counts_once lib me env (record EvAcquire (set_locked true st))) as Hc.
    rewrite Hlogin in Hc. cbn [snd] in Hc. rewrite Hc.
    cbn [record log]. rewrite count_cons. reflexivity.
Qed.

Lemma first_call_logs_in_then_sends_witness :
  let env := Demo.env_of Demo.script_full_login_then_200 Demo.ok_response in
  let out :=
    run env
      (MyBMWAuthentication.apply Demo.lib (Demo.account REST_OF_WORLD)
         (fun _ => None) Demo.request)
      Demo.logged_out in
  fst out = Returned Demo.ok_response
  /\ access_token (self (snd out)) = PStr "token-2".
Proof.
  intros env out.
  assert (H := first_call_logs_in_then_sends Demo.lib (Demo.account REST_OF_WORLD) env
              (fun _ => None) Demo.request Demo.logged_out
              (snd (run env (MyBMWAuthentication.login Demo.lib (Demo.account REST_OF_WORLD))
                      (record EvAcquire (set_locked true Demo.logged_out))))
              tt Demo.ok_response eq_refl eq_refl).
  assert (H1 := H ltac:(vm_compute; reflexivity)). clear H.
  cbv zeta in H1.
  assert (H2 := H1 ltac:(vm_compute; reflexivity) eq_refl). clear H1.
  assert (H3 := H2 ltac:(discriminate) ltac:(vm_compute; reflexivity)). clear H2.
  destruct H3 as [H _].
  subst out. rewrite H. split; [reflexivity|vm_compute; reflexivity].
Defined.

(** X11: when that first [login] raises, the lock is given back, the
    exception reaches the caller, the request is never sent, and the
    credential is what it was: still without a token, so that the next call
    logs in again. *)
Theorem first_call_login_failure
    (lib : Externals) (me : Account) (env : Env) (hook : Response -> option exn)
    (req : Request) (st s1 : State) (e : exn) :
  locked st = false ->
  Py.truthy (access_token (self st)) = false ->
  run env (MyBMWAuthentication.login lib me) (record EvAcquire (set_locked true st))
  = (Raised e, s1) ->
  let out := run env (MyBMWAuthentication.apply lib me hook req) st in
  out = (Raised e, released s1)
  /\ locked (snd out) = false
  /\ self (snd out) = self st
  /\ count is_send (log (snd out)) = count is_send (log s1).
Proof.
  intros Hl Ht Hlogin out. subst out.
  rewrite (auth_flow_logs_in_first lib me env hook req st Hl Ht _ eq_refl).
  rewrite Hlogin. repeat split.
  apply login_raised in Hlogin. exact Hlogin.
Qed.

Lemma first_call_login_failure_witness :
  let env := Demo.env_of [Demo.server_error] Demo.ok_response in
  let out :=
    run env
      (MyBMWAuthentication.apply Demo.lib (Demo.account REST_OF_WORLD)
         (fun _ => None) Demo.request)
      Demo.logged_out in
  fst out = Raised (MyBMWAPIError 500 "Internal Server Error")
  /\ locked (snd out) = false
  /\ self (snd out) = self Demo.logged_out.
Proof.
  intros env out.
  assert (H := first_call_login_failure Demo.lib (Demo.account REST_OF_WORLD) env
              (fun _ => None) Demo.request Demo.logged_out
              (snd (run env (MyBMWAuthentication.login Demo.lib (Demo.account REST_OF_WORLD))
                      (record EvAcquire (set_locked true Demo.logged_out))))
              (MyBMWAPIError 500 "Internal Server Error") eq_refl eq_refl
              ltac:(vm_compute; reflexivity)).
  cbv zeta in H. destruct H as (H1 & H2 & H3 & _).
  subst out. split; [rewrite H1; reflexivity|]. split; assumption.
Defined.

(** ** The lock *)

Lemma run_free {A : Type} (env : Env) (p : prog A) (st : State) :
  every free_node p ->
  fst (run env p st) <> Stuck /\ locked (snd (run env p st)) = locked st.
Proof.
  intros H. split.
  - apply run_ends. eapply every_weaken; [|exact H]. intros n; destruct n; simpl; auto.
  - apply run_keeps_locked. eapply every_weaken; [|exact H].
    intros n; destruct n; simpl; auto.
Qed.

Lemma driver_free (env : Env) (hook : Response -> option exn) (flow : prog unit)
    (last : option Response) (st : State) :
  every (driven free_node) flow ->
  locked st = false ->
  ends_unlocked (run env (send_handling_auth hook flow last) st).
Proof.
  intros H Hl.
  destruct (run_free env (send_handling_auth hook flow last) st) as [H1 H2].
  - apply every_send_handling_auth. exact H.
  - split; [exact H1|]. rewrite H2. exact Hl.
Qed.

Lemma login_free (lib : Externals) (me : Account) :
  every free_node (MyBMWAuthentication.login lib me).
Proof.
  eapply every_weaken; [|apply every_login].
  intros n [H|H]; [destruct n; simpl in *; auto | subst; exact I].
Qed.

(** A block under the lock, then the rest of the flow. *)
Lemma driver_lock_then (env : Env) (hook : Response -> option exn)
    (body tail : prog unit) (last : option Response) (st : State) :
  every free_node body ->
  locked st = false ->
  (forall st', locked st' = false ->
     ends_unlocked (run env (send_handling_auth hook tail last) st')) ->
  ends_unlocked (run env (send_handling_auth hook (with_lock body ;; tail) last) st).
Proof.
  intros Hb Hl Htail.
  rewrite run_driver_bind.
  2:{ apply every_with_lock; try exact I.
      eapply every_weaken; [|exact Hb]. intros n; destruct n; simpl; auto. }
  rewrite (run_with_lock env body st Hl).
  destruct (run_free env body (record EvAcquire (set_locked true st)) Hb) as [H1 H2].
  destruct (run env body (record EvAcquire (set_locked true st))) as [[u|e|] s1];
    cbn [fst snd] in *.
  - apply Htail. reflexivity.
  - split; [discriminate|reflexivity].
  - contradiction.
Qed.

(** X12: whatever the transport answers and whatever [login] does, a call
    of the flow that starts with the lock free comes to an end, by a response
    or by an exception, and leaves the lock free: no path keeps the lock, and
    none waits for it while holding it. *)
Theorem auth_flow_gives_the_lock_back
    (lib : Externals) (me : Account) (env : Env) (hook : Response -> option exn)
    (req : Request) (st : State) :
  locked st = false ->
  let out := run env (MyBMWAuthentication.apply lib me hook req) st in
  fst out <> Stuck /\ locked (snd out) = false.
Proof.
  intros Hl out. subst out.
  change (ends_unlocked (run env (MyBMWAuthentication.apply lib me hook req) st)).
  unfold MyBMWAuthentication.apply, client_send, MyBMWAuthentication.async_auth_flow.
  apply driver_lock_then; [|exact Hl|].
  { apply every_bind; [simpl; auto|]. intros tok.
    destruct (negb (Py.truthy tok)); [apply login_free|exact I]. }
  intros s1 Hl1. unfold MyBMWAuthentication.attach.
  cbn -[MyBMWAuthentication.with_auth_headers MyBMWAuthentication.is_quota
        retry_loop MyBMWAuthentication.login with_lock].
  destruct (reply env (sent s1) _) as [r1|e];
    [|split; [discriminate|exact Hl1]].
  destruct (hook r1); [split; [discriminate|exact Hl1]|].
  destruct (status_code r1 =? 401).
  - apply driver_lock_then; [| exact Hl1 |].
    { split; [exact I|apply login_free]. }
    intros s2 Hl2. apply driver_free; [|exact Hl2]. simpl. auto.
  - destruct (MyBMWAuthentication.is_quota r1).
    + apply driver_free; [|exact Hl1].
      apply every_bind.
      * eapply every_weaken; [|apply every_retry_loop].
        intros n; destruct n as [| | | | | | | | |ev]; simpl; auto.
      * intros r. destruct (raise_for_status r); exact I.
    + split; [discriminate|exact Hl1].
Qed.

Lemma auth_flow_gives_the_lock_back_witness :
  let out :=
    run (Demo.env_of Demo.script_401_login_401 Demo.ok_response)
      (MyBMWAuthentication.apply Demo.lib (Demo.account REST_OF_WORLD)
         (fun _ => None) Demo.request)
      Demo.logged_in in
  fst out <> Stuck /\ locked (snd out) = false.
Proof.
  apply (auth_flow_gives_the_lock_back Demo.lib (Demo.account REST_OF_WORLD)
           (Demo.env_of Demo.script_401_login_401 Demo.ok_response)
           (fun _ => None) Demo.request Demo.logged_in).
  reflexivity.
Defined.

(** ** Responses the flow does not act on *)

(** X13: a first response that is not a 401, not a 429 and not a 403 that
    speaks of a quota (a 500, a 404, a plain 403 Forbidden, ...) is handed to
    the caller as it is: the flow raises nothing for it, sends the request this
    one time, does not sleep, does not call [login] and leaves the credential
    alone. *)
Theorem other_responses_pass_through
    (lib : Externals) (me : Account) (env : Env) (hook : Response -> option exn)
    (req : Request) (st : State) (r1 : Response) :
  locked st = false ->
  Py.truthy (access_token (self st)) = true ->
  let q := MyBMWAuthentication.with_auth_headers lib me (access_token (self st)) req in
  reply env (sent st) q = Ok r1 ->
  hook r1 = None ->
  status_code r1 <> 401 ->
  status_code r1 <> 429 ->
  (status_code r1 = 403 -> Py.contains "quota" (Py.lower (text r1)) = false) ->
  let out := run env (MyBMWAuthentication.apply lib me hook req) st in
  fst out = Returned r1
  /\ log (snd out) = EvRecv (Ok r1) :: EvSend q :: EvRelease :: EvAcquire :: log st
  /\ count is_sleep (log (snd out)) = count is_sleep (log st)
  /\ count (is_call "login") (log (snd out)) = count (is_call "login") (log st)
  /\ self (snd out) = self st.
Proof.
  intros Hl Ht q Hr Hh H401 H429 H403 out. subst out.
  assert (Hq : MyBMWAuthentication.is_quota r1 = false).
  { unfold MyBMWAuthentication.is_quota.
    destruct (Z.eqb_spec (status_code r1) 429); [contradiction|].
    destruct (Z.eqb_spec (status_code r1) 403); [|reflexivity].
    rewrite H403; auto. }
  rewrite (auth_flow_plain_response lib me env hook req st r1 Hl Ht Hr Hh H401 Hq).
  repeat split.
Qed.

Lemma other_responses_pass_through_witness :
  let out :=
    run (Demo.env_of [Demo.forbidden] Demo.ok_response)
      (MyBMWAuthentication.apply Demo.lib (Demo.account REST_OF_WORLD)
         (fun _ => None) Demo.request)
      Demo.logged_in in
  fst out = Returned Demo.forbidden
  /\ count is_sleep (log (snd out)) = 0%nat
  /\ count (is_call "login") (log (snd out)) = 0%nat.
Proof.
  intros out.
  destruct (other_responses_pass_through Demo.lib (Demo.account REST_OF_WORLD)
              (Demo.env_of [Demo.forbidden] Demo.ok_response) (fun _ => None)
              Demo.request Demo.logged_in Demo.forbidden
              eq_refl eq_refl eq_refl eq_refl
              ltac:(discriminate) ltac:(discriminate) ltac:(reflexivity))
    as (H1 & _ & H3 & H4 & _).
  split; [exact H1|]. split; [exact H3|exact H4].
Defined.

(** X14: when the transport fails on the first exchange (no connection, a
    timeout), its exception reaches the caller of either flow as it is: the
    authenticated flow has given the lock back, has sent the request once and
    has called no [login]; the login client does not retry. *)
Theorem transport_error_propagates
    (lib : Externals) (me : Account) (env : Env) (hook : Response -> option exn)
    (req : Request) (st : State) (e : exn) :
  (locked st = false ->
   Py.truthy (access_token (self st)) = true ->
   let q := MyBMWAuthentication.with_auth_headers lib me (access_token (self st)) req in
   reply env (sent st) q = Err e ->
   let out := run env (MyBMWAuthentication.apply lib me hook req) st in
   fst out = Raised e
   /\ log (snd out) = EvRecv (Err e) :: EvSend q :: EvRelease :: EvAcquire :: log st
   /\ locked (snd out) = false
   /\ self (snd out) = self st)
  /\ (reply env (sent st) req = Err e ->
      run env (MyBMWLoginClient.send req) st = (Raised e, snd (exchange env req st))).
Proof.
  split.
  - intros Hl Ht q Hr out. subst out.
    unfold MyBMWAuthentication.apply, client_send,
      MyBMWAuthentication.async_auth_flow, MyBMWAuthentication.attach, with_lock.
    cbn -[MyBMWAuthentication.login MyBMWAuthentication.with_auth_headers
          MyBMWAuthentication.is_quota retry_loop].
    rewrite Hl.
    cbn -[MyBMWAuthentication.login MyBMWAuthentication.with_auth_headers
          MyBMWAuthentication.is_quota retry_loop].
    rewrite Ht.
    cbn -[MyBMWAuthentication.login MyBMWAuthentication.with_auth_headers
          MyBMWAuthentication.is_quota retry_loop].
    fold q. rewrite Hr. repeat split.
  - intros Hr. rewrite login_client_send_unfold. cbn [run]. unfold exchange.
    rewrite Hr. reflexivity.
Qed.

Lemma transport_error_propagates_witness :
  fst (run Demo.offline
         (MyBMWAuthentication.apply Demo.lib (Demo.account REST_OF_WORLD)
            (fun _ => None) Demo.request)
         Demo.logged_in)
  = Raised (TransportError "connection refused")
  /\ run Demo.offline (MyBMWLoginClient.send Demo.request) Demo.logged_in
     = (Raised (TransportError "connection refused"),
        snd (exchange Demo.offline Demo.request Demo.logged_in)).
Proof.
  destruct (transport_error_propagates Demo.lib (Demo.account REST_OF_WORLD)
              Demo.offline (fun _ => None) Demo.request Demo.logged_in
              (TransportError "connection refused")) as [H1 H2].
  split.
  - apply (H1 eq_refl eq_refl eq_refl).
  - apply (H2 eq_refl).
Defined.

(** X15: the retry loop of the authenticated flow stops at the first
    response that is not a 429: after one wait and one resend, a 2xx is the
    result and anything else is raised as the classified failure with its
    status and body.  A 401 that follows a 429 is raised as well: the flow
    does not log in again for it. *)
Theorem retry_ends_at_first_other_response
    (lib : Externals) (me : Account) (env : Env) (hook : Response -> option exn)
    (req : Request) (st : State) (r1 r2 : Response) (w1 : Z) :
  locked st = false ->
  Py.truthy (access_token (self st)) = true ->
  let q := MyBMWAuthentication.with_auth_headers lib me (access_token (self st)) req in
  reply env (sent st) q = Ok r1 ->
  hook r1 = None ->
  status_code r1 = 429 ->
  wait_time r1 = Ok w1 ->
  reply env (S (sent st)) q = Ok r2 ->
  hook r2 = None ->
  status_code r2 <> 429 ->
  let out := run env (MyBMWAuthentication.apply lib me hook req) st in
  fst out = (if is_success r2 then Returned r2
             else Raised (MyBMWAPIError (status_code r2) (text r2)))
  /\ log (snd out)
     = (round q w1 r2
        ++ EvRecv (Ok r1) :: EvSend q :: EvRelease :: EvAcquire :: log st)%list
  /\ self (snd out) = self st.
Proof.
  intros Hl Ht q Hr1 Hh1 Hs1 Hw1 Hr2 Hh2 Hs2 out. subst out.
  rewrite (auth_flow_first_response lib me env hook req st r1 Hl Ht Hr1 Hh1).
  assert (Eq : MyBMWAuthentication.with_auth_headers lib me (access_token (self st)) req
               = q) by reflexivity.
  clearbody q. rewrite Eq.
  rewrite Hs1, (is_quota_429 lib r1 Hs1).
  cbn [Z.eqb Pos.eqb retry_loop].
  rewrite (retry_once_429 q r1 w1 Hs1 Hw1).
  cbn -[retry_once]. rewrite Hr2, Hh2.
  rewrite (retry_once_other q r2 Hs2). cbn [bind].
  rewrite (retry_once_other q r2 Hs2). cbn [bind send_handling_auth run].
  unfold raise_for_status, handle_httpstatuserror.
  destruct (is_success r2); repeat split.
Qed.

Lemma retry_ends_at_first_other_response_witness :
  fst (run (Demo.env_of [Demo.rate_limited; Demo.unauthorized] Demo.ok_response)
         (MyBMWAuthentication.apply Demo.lib (Demo.account REST_OF_WORLD)
            (fun _ => None) Demo.request)
         Demo.logged_in)
  = Raised (MyBMWAPIError 401 "Unauthorized").
Proof.
  destruct (retry_ends_at_first_other_response Demo.lib (Demo.account REST_OF_WORLD)
              (Demo.env_of [Demo.rate_limited; Demo.unauthorized] Demo.ok_response)
              (fun _ => None) Demo.request Demo.logged_in
              Demo.rate_limited Demo.unauthorized 3
              eq_refl eq_refl eq_refl eq_refl eq_refl
              ltac:(vm_compute; reflexivity) eq_refl eq_refl ltac:(discriminate))
    as (H1 & _).
  exact H1.
Defined.

(** ** What [login] stores *)

(** X16: a [login] that returns has stored the refresh token of the same
    token data as the access token; in China it has stored the gcid of that
    data too, elsewhere the gcid is what it was. *)
Theorem login_stores_refresh_token_and_gcid
    (lib : Externals) (me : Account) (env : Env) (st st' : State) (u : unit) :
  run env (MyBMWAuthentication.login lib me) st = (Returned u, st') ->
  exists name strategy s0 s_end a t r gc,
    In (name, strategy) (strategies lib me)
    /\ run env strategy s0 = (Returned (token_data_of a (PDatetime t) r gc), s_end)
    /\ access_token (self st') = a
    /\ refresh_token (self st') = r
    /\ match gc with
       | Some g => region me = CHINA /\ gcid (self st') = g
       | None => region me <> CHINA /\ gcid (self st') = gcid (self st)
       end.
Proof.
  intros R. apply login_returned in R.
  destruct R as (name & strategy & s0 & s_end & a & t & r & gc
                 & Hin & Hrun & _ & _ & Ha & _ & Hr & Hg).
  exists name, strategy, s0, s_end, a, t, r, gc. auto.
Qed.

Lemma login_stores_refresh_token_and_gcid_witness :
  let out :=
    run (Demo.env_of Demo.script_china_login Demo.ok_response)
      (MyBMWAuthentication.login Demo.lib (Demo.account CHINA))
      Demo.logged_out in
  (exists a r g,
     access_token (self (snd out)) = a /\ refresh_token (self (snd out)) = r
     /\ gcid (self (snd out)) = g)
  /\ refresh_token (self (snd out)) = PStr "cn-refresh"
  /\ gcid (self (snd out)) = PStr "gcid-1".
Proof.
  intros out. split; [|split; vm_compute; reflexivity].
  destruct (login_stores_refresh_token_and_gcid Demo.lib (Demo.account CHINA)
              (Demo.env_of Demo.script_china_login Demo.ok_response)
              Demo.logged_out (snd out) tt ltac:(vm_compute; reflexivity))
    as (name & strategy & s0 & s_end & a & t & r & gc & _ & _ & Ha & Hr & Hg).
  destruct gc as [g|].
  - exists a, r, g. destruct Hg as [_ Hg]. auto.
  - destruct Hg as [Hg _]. exfalso. apply Hg. reflexivity.
Defined.

(** X17: a [login] that raises has assigned nothing: the access token, the
    expiry, the refresh token and the gcid are what they were, and the lock is
    as it was.  In China the gcid is assigned before the other three, but only
    after everything that can fail. *)
Theorem failed_login_changes_nothing
    (lib : Externals) (me : Account) (env : Env) (st st' : State) (e : exn) :
  run env (MyBMWAuthentication.login lib me) st = (Raised e, st') ->
  self st' = self st /\ locked st' = locked st.
Proof.
  intros R. split.
  - eapply login_raised. exact R.
  - pose proof (login_keeps_locked lib me env st) as H. rewrite R in H. exact H.
Qed.

Lemma failed_login_changes_nothing_witness :
  let out :=
    run (Demo.env_of Demo.script_china_refresh_and_login_fail Demo.ok_response)
      (MyBMWAuthentication.login Demo.lib (Demo.account CHINA))
      Demo.logged_in_china in
  fst out = Raised (MyBMWAPIError 500 "Internal Server Error")
  /\ self (snd out) = self Demo.logged_in_china.
Proof.
  intros out.
  assert (R : run (Demo.env_of Demo.script_china_refresh_and_login_fail Demo.ok_response)
                (MyBMWAuthentication.login Demo.lib (Demo.account CHINA))
                Demo.logged_in_china
              = (Raised (MyBMWAPIError 500 "Internal Server Error"), snd out))
    by (vm_compute; reflexivity).
  split; [subst out; rewrite R; reflexivity|].
  apply (failed_login_changes_nothing _ _ _ _ _ _ R).
Defined.

(** ** What the strategies and [login] leave alone *)

Lemma every_strategy (lib : Externals) (me : Account) (name : string)
    (strategy : prog (list (string * pyobj))) :
  In (name, strategy) (strategies lib me) -> every strategy_node strategy.
Proof.
  unfold strategies. intros Hin.
  destruct (region me); simpl in Hin; destruct Hin as [Hin|[Hin|[]]];
    injection Hin as <- <-;
    first [ apply every_refresh_token_row_na | apply every_login_row_na
          | apply every_refresh_token_china | apply every_login_china ].
Qed.

(** X18: the four login strategies only talk to the backend: whatever they
    are answered, a call comes to an end, assigns no attribute of [self] and
    does not touch the lock.  Storing the tokens is left to [login]. *)
Theorem strategies_leave_self_alone
    (lib : Externals) (me : Account) (env : Env) (name : string)
    (strategy : prog (list (string * pyobj))) (st : State) :
  In (name, strategy) (strategies lib me) ->
  let out := run env strategy st in
  fst out <> Stuck /\ self (snd out) = self st /\ locked (snd out) = locked st.
Proof.
  intros Hin out. subst out. apply every_strategy in Hin.
  split; [|split].
  - apply run_ends. eapply every_weaken; [|exact Hin].
    intros n; destruct n as [| | | | | | | | |ev]; simpl; auto.
  - apply run_keeps_self. eapply every_weaken; [apply strategy_no_setattr|exact Hin].
  - apply run_keeps_locked. eapply every_weaken; [|exact Hin].
    intros n; destruct n as [| | | | | | | | |ev]; simpl; auto.
Qed.

Lemma strategies_leave_self_alone_witness :
  let out :=
    run (Demo.env_of Demo.script_china_login Demo.ok_response)
      (MyBMWAuthentication._login_china Demo.lib (Demo.account CHINA))
      Demo.logged_out in
  fst out <> Stuck /\ self (snd out) = self Demo.logged_out
  /\ locked (snd out) = locked Demo.logged_out.
Proof.
  apply (strategies_leave_self_alone Demo.lib (Demo.account CHINA)
           (Demo.env_of Demo.script_china_login Demo.ok_response)
           "_login_china" (MyBMWAuthentication._login_china Demo.lib (Demo.account CHINA))
           Demo.logged_out).
  right. left. reflexivity.
Defined.

(** X19: [login] never waits: it takes no lock and yields to no driver, so
    it comes to an end, by returning or by raising, also when the lock is
    held, as it is when the flow calls it; the lock is as before, and the
    trace has one more call of [login], not two: [login] does not call
    itself. *)
Theorem login_never_waits
    (lib : Externals) (me : Account) (env : Env) (st : State) :
  let out := run env (MyBMWAuthentication.login lib me) st in
  fst out <> Stuck
  /\ locked (snd out) = locked st
  /\ count (is_call "login") (log (snd out)) = S (count (is_call "login") (log st)).
Proof.
  intros out. subst out. split; [|split].
  - apply login_ends.
  - apply login_keeps_locked.
  - apply login_counts_once.
Qed.

(** ** Which strategy [login] calls *)

Lemma run_keeps_calls {A : Type} (env : Env) (fn : string) (p : prog A) :
  every (no_call_of fn) p ->
  forall st,
    count (is_call fn) (log (snd (run env p st))) = count (is_call fn) (log st).
Proof.
  intros Hp st.
  apply (run_keeps env (no_call_of fn)
           (fun s s' => count (is_call fn) (log s') = count (is_call fn) (log s)) p); auto.
  - intros s1 s2 s3 H12 H23. congruence.
  - repeat split; intros; simpl; auto.
    destruct ev; simpl in *; rewrite count_cons; simpl; auto.
    destruct (String.eqb fn0 fn) eqn:E; [|reflexivity].
    apply String.eqb_eq in E. contradiction.
Qed.

Lemma strategy_no_call_of (fn : string) (n : node) : strategy_node n -> no_call_of fn n.
Proof. destruct n as [| | | | | | | | |ev]; simpl; auto. destruct ev; simpl; tauto. Qed.

Lemma every_traced_no_call_of {A : Type} (fn name : string) (body : prog A) :
  name <> fn -> every strategy_node body -> every (no_call_of fn) (traced name body).
Proof.
  intros Hne Hb. apply every_traced; [exact Hne|exact I|intros; exact I|].
  eapply every_weaken; [apply strategy_no_call_of|exact Hb].
Qed.

Section WhichStrategy.

Variables (lib : Externals) (me : Account) (env : Env).

(** [login] as the refresh function, the full login, and what follows
    them. *)
Lemma login_shape :
  every strategy_node (refresh_strategy lib me)
  /\ every strategy_node (full_login_strategy lib me)
  /\ exists k,
       (forall fn td, every (no_call_of fn) (k td))
       /\ MyBMWAuthentication.login lib me
          = traced "login"
              (token_data <-
                 (token_data <-
                    MyBMWAuthentication.refresh_or_login
                      (traced (refresh_name (region me)) (refresh_strategy lib me))
                      (traced (full_login_name (region me)) (full_login_strategy lib me)) ;;
                  k token_data) ;;
               MyBMWAuthentication.store_tokens token_data).
Proof.
  unfold MyBMWAuthentication.login, MyBMWAuthentication.login_body,
    MyBMWAuthentication.token_data_for_region, refresh_strategy, full_login_strategy.
  destruct (region me).
  - split; [apply every_refresh_token_row_na|]. split; [apply every_login_row_na|].
    exists (MyBMWAuthentication.shift_expiry lib). split; [|reflexivity].
    intros fn td. unfold MyBMWAuthentication.shift_expiry, MyBMWAuthentication.item. walk.
  - split; [apply every_refresh_token_row_na|]. split; [apply every_login_row_na|].
    exists (MyBMWAuthentication.shift_expiry lib). split; [|reflexivity].
    intros fn td. unfold MyBMWAuthentication.shift_expiry, MyBMWAuthentication.item. walk.
  - split; [apply every_refresh_token_china|]. split; [apply every_login_china|].
    exists (fun token_data =>
         token_data <- MyBMWAuthentication.shift_expiry lib token_data ;;
         g <- MyBMWAuthentication.item token_data "gcid" ;;
         setattr Gcid g ;;
         Ret token_data).
    split; [|reflexivity].
    intros fn td. unfold MyBMWAuthentication.shift_expiry, MyBMWAuthentication.item. walk.
Qed.

(** [login] when one of the two strategies is known to be the only one
    that runs. *)
Lemma login_runs_one (name : string) (strategy : prog (list (string * pyobj)))
    (k : list (string * pyobj) -> prog (list (string * pyobj))) (st : State) :
  MyBMWAuthentication.login lib me
  = traced "login"
      (token_data <-
         (token_data <-
            MyBMWAuthentication.refresh_or_login
              (traced (refresh_name (region me)) (refresh_strategy lib me))
              (traced (full_login_name (region me)) (full_login_strategy lib me)) ;;
          k token_data) ;;
       MyBMWAuthentication.store_tokens token_data) ->
  run env (MyBMWAuthentication.refresh_or_login
             (traced (refresh_name (region me)) (refresh_strategy lib me))
             (traced (full_login_name (region me)) (full_login_strategy lib me)))
      (record (EvCall "login") st)
  = run env (traced name strategy) (record (EvCall "login") st) ->
  run env (MyBMWAuthentication.login lib me) st
  = run env
      (traced "login"
         (token_data <- (token_data <- traced name strategy ;; k token_data) ;;
          MyBMWAuthentication.store_tokens token_data)) st.
Proof.
  intros -> Hrun. rewrite !run_traced, !run_bind, Hrun. reflexivity.
Qed.

Lemma every_store_tokens_no_call_of (fn : string) (td : list (string * pyobj)) :
  every (no_call_of fn) (MyBMWAuthentication.store_tokens td).
Proof.
  unfold MyBMWAuthentication.store_tokens, MyBMWAuthentication.item. walk.
Qed.


End WhichStrategy.



(** X21: the full login, which sends the user name and the password, is
    called only after the refresh function has returned the empty token data.
    With a refresh token at hand, when the refresh function returns token data
    or raises, [login] calls no full login. *)
Theorem full_login_only_after_empty_refresh
    (lib : Externals) (me : Account) (env : Env) (st : State) :
  Py.truthy (refresh_token (self st)) = true ->
  fst (run env (traced (refresh_name (region me)) (refresh_strategy lib me))
         (record (EvCall "login") st))
  <> Returned [] ->
  let out := run env (MyBMWAuthentication.login lib me) st in
  count (is_call (full_login_name (region me))) (log (snd out))
  = count (is_call (full_login_name (region me))) (log st)
  /\ extends (log (snd out))
       (EvCall (refresh_name (region me)) :: EvCall "login" :: log st).
Proof.
  intros Ht Hne out. subst out.
  destruct (login_shape lib me) as (Hr & Hf & k & Hk & Hshape).
  rewrite (login_runs_one lib me env (refresh_name (region me))
             (refresh_strategy lib me) k st Hshape).
  2:{ rewrite run_refresh_or_login. cbn [record self]. rewrite Ht.
      destruct (run env (traced (refresh_name (region me)) (refresh_strategy lib me))
                  (record (EvCall "login") st)) as [[td|e|] s1]; try reflexivity.
      destruct td as [|kv td]; [exfalso; apply Hne; reflexivity|reflexivity]. }
  split.
  - apply run_keeps_calls.
    apply every_traced; [destruct (region me); discriminate|exact I|intros; exact I|].
    apply every_bind; [|intros td; apply every_store_tokens_no_call_of].
    apply every_bind; [|intros td; apply Hk].
    apply every_traced_no_call_of; [destruct (region me); discriminate|exact Hr].
  - eapply extends_trans; [apply run_traced_extends|].
    eapply extends_trans; [apply run_bind_extends|].
    eapply extends_trans; [apply run_bind_extends|].
    eapply extends_trans; [apply run_traced_extends|].
    apply run_extends_log.
Qed.

Lemma full_login_only_after_empty_refresh_witness :
  let out :=
    run (Demo.env_of [Demo.oauth_settings; Demo.token_response] Demo.ok_response)
      (MyBMWAuthentication.login Demo.lib (Demo.account REST_OF_WORLD))
      Demo.logged_in in
  count (is_call "_login_row_na") (log (snd out)) = 0%nat
  /\ access_token (self (snd out)) = PStr "token-2".
Proof.
  intros out. split; [|vm_compute; reflexivity].
  apply (full_login_only_after_empty_refresh Demo.lib (Demo.account REST_OF_WORLD)
           (Demo.env_of [Demo.oauth_settings; Demo.token_response] Demo.ok_response)
           Demo.logged_in eq_refl).
  vm_compute. discriminate.
Defined.

(** X22: the [except] clause of the refresh functions catches the
    classified failure only.  Any other exception of the [try] block (a
    transport error, a token response without [expires_in], ...) leaves the
    refresh function as it is, and [login] then fails with it: there is no
    fallback to the full login for it. *)
Theorem refresh_lets_other_errors_out
    (lib : Externals) (me : Account) (env : Env) (st s1 : State) (e : exn) :
  is_api_error e = false ->
  (run env (MyBMWAuthentication._refresh_token_row_na_try lib me) st = (Raised e, s1) ->
   run env (MyBMWAuthentication._refresh_token_row_na lib me) st = (Raised e, s1))
  /\ (run env (MyBMWAuthentication._refresh_token_china_try lib me) st = (Raised e, s1) ->
      run env (MyBMWAuthentication._refresh_token_china lib me) st = (Raised e, s1))
  /\ (Py.truthy (refresh_token (self st)) = true ->
      run env (refresh_strategy lib me)
        (record (EvCall (refresh_name (region me))) (record (EvCall "login") st))
      = (Raised e, s1) ->
      run env (MyBMWAuthentication.login lib me) st
      = (Raised e,
         record (EvRaise "login" e) (record (EvRaise (refresh_name (region me)) e) s1))).
Proof.
  intros He.
  assert (Hh : MyBMWAuthentication.except_api_error (A := pyobj * pyobj) e = None).
  { unfold MyBMWAuthentication.except_api_error. rewrite He. reflexivity. }
  split; [|split].
  - intros H. unfold MyBMWAuthentication._refresh_token_row_na.
    rewrite run_bind, run_try_except, H, Hh. reflexivity.
  - intros H. unfold MyBMWAuthentication._refresh_token_china.
    rewrite run_bind, run_try_except, H, Hh. reflexivity.
  - intros Ht H.
    destruct (login_shape lib me) as (_ & _ & k & _ & Hshape).
    rewrite Hshape. rewrite !run_traced, !run_bind, run_refresh_or_login.
    cbn [record self]. rewrite Ht. rewrite run_traced, H. reflexivity.
Qed.

Lemma refresh_lets_other_errors_out_witness :
  let env := Demo.env_of [Demo.oauth_settings; Demo.ok_response] Demo.ok_response in
  let out :=
    run env (MyBMWAuthentication.login Demo.lib (Demo.account REST_OF_WORLD))
      Demo.logged_in in
  fst out = Raised (KeyError "expires_in")
  /\ count (is_call "_login_row_na") (log (snd out)) = 0%nat.
Proof.
  intros env out.
  destruct (refresh_lets_other_errors_out Demo.lib (Demo.account REST_OF_WORLD) env
              Demo.logged_in
              (snd (run env (refresh_strategy Demo.lib (Demo.account REST_OF_WORLD))
                      (record (EvCall "_refresh_token_row_na")
                         (record (EvCall "login") Demo.logged_in))))
              (KeyError "expires_in") eq_refl) as (_ & _ & H).
  specialize (H eq_refl ltac:(vm_compute; reflexivity)).
  subst out. rewrite H. split; [reflexivity|vm_compute; reflexivity].
Defined.

(** ** What the refresh functions send *)




Section WhatGoesOut.

Variables (lib : Externals) (me : Account) (G : Request -> Prop).



End WhatGoesOut.





(** * Several callers on one event loop *)

(** ** A step is a step of [run] *)

Lemma run_step {A : Type} (env : Env) (p : prog A) (st : State) :
  run env p st
  = match step env p st with
    | Some (p', st') => run env p' st'
    | None =>
        (match p with
         | Ret a => Returned a
         | Raise e => Raised e
         | _ => Stuck
         end, st)
    end.
Proof.
  destruct p; cbn; try reflexivity.
  destruct (locked st); reflexivity.
Qed.

(** ** The lock discipline of the flow *)

Lemma lockwise_unique {A : Type} (y : bool) (p : prog A) :
  forall h h', lockwise y h p -> lockwise y h' p -> h = h'.
Proof.
  induction p as [a|e|req k IH|req k IH|secs k IH|k IH|k IH|k IH|fld k IH|fld v k IH|kind k IH|ev k IH];
    cbn; intros h h' H H'.
  - congruence.
  - congruence.
  - destruct H as (_ & -> & _). destruct H' as (_ & -> & _). reflexivity.
  - apply (IH (Err JSONDecodeError)); auto.
  - apply IH; auto.
  - apply (IH 0); auto.
  - destruct H as [-> _]. destruct H' as [-> _]. reflexivity.
  - destruct H as [-> _]. destruct H' as [-> _]. reflexivity.
  - apply (IH PNone); auto.
  - destruct H as [-> _]. destruct H' as [-> _]. reflexivity.
  - apply (IH EmptyString); auto.
  - destruct H as [_ H]. destruct H' as [_ H']. apply IH; auto.
Qed.

(** A block under the lock, with the release that ends it and what
    follows. *)
Lemma lockwise_under_lock {A B : Type} (y : bool) (body : prog A) (f : A -> prog B) :
  every free_node body ->
  (forall a, lockwise y false (f a)) ->
  lockwise y true
    (bind (try_finally body (Release (Note EvRelease (Ret tt)))) f).
Proof.
  intros Hb Hf.
  induction body as [a|e|req k IH|req k IH|secs k IH|k IH|k IH|k IH|fld k IH|fld v k IH|kind k IH|ev k IH];
    cbn in *; try (destruct Hb as [Hn Hk]); try contradiction; auto.
Qed.

Lemma lockwise_with_lock {A B : Type} (y : bool) (body : prog A) (f : A -> prog B) :
  every free_node body ->
  (forall a, lockwise y false (f a)) ->
  lockwise y false (bind (with_lock body) f).
Proof.
  intros Hb Hf. unfold with_lock. cbn.
  split; [reflexivity|]. split; [discriminate|].
  apply lockwise_under_lock; assumption.
Qed.

Lemma lockwise_quiet {A B : Type} (p : prog A) (f : A -> prog B) :
  every quiet_node p ->
  (forall a, lockwise true false (f a)) ->
  lockwise true false (bind p f).
Proof.
  intros Hp Hf.
  induction p as [a|e|req k IH|req k IH|secs k IH|k IH|k IH|k IH|fld k IH|fld v k IH|kind k IH|ev k IH];
    cbn in *; try (destruct Hp as [Hn Hk]); try contradiction; auto.
  split; [|auto]. intros H. destruct ev; cbn in H, Hn; discriminate.
Qed.

Lemma lockwise_driver (hook : Response -> option exn) (flow : prog unit) :
  forall held last,
    lockwise true held flow ->
    lockwise false held (send_handling_auth hook flow last).
Proof.
  induction flow as [a|e|req k IH|req k IH|secs k IH|k IH|k IH|k IH|fld k IH|fld v k IH|kind k IH|ev k IH];
    cbn; intros held last H; auto.
  - destruct last; exact H.
  - destruct H as (_ & Hh & Hk). intros [r|e]; cbn; [|exact Hh].
    destruct (hook r); cbn; [exact Hh|]. apply IH. apply Hk.
  - destruct H as [Hh Hk]. split; auto.
  - destruct H as [Hh Hk]. split; auto.
  - destruct H as [Hh Hk]. split; auto.
  - destruct H as [Hh Hk]. split; auto.
Qed.

Lemma retry_loop_quiet (n : nat) (q : Request) (r : Response) :
  every quiet_node (retry_loop n q r).
Proof.
  eapply every_weaken; [|apply every_retry_loop].
  intros m. destruct m as [| | | | | | | | |ev]; simpl; auto; try contradiction.
  destruct ev; simpl; auto; contradiction.
Qed.

Lemma lockwise_flow (lib : Externals) (me : Account) (req : Request) :
  lockwise true false (MyBMWAuthentication.async_auth_flow lib me req).
Proof.
  unfold MyBMWAuthentication.async_auth_flow, MyBMWAuthentication.attach.
  apply lockwise_with_lock.
  { apply every_bind; [simpl; auto|]. intros tok.
    destruct (negb (Py.truthy tok)); [apply login_free|exact I]. }
  intros _. cbn -[with_lock retry_loop MyBMWAuthentication.login
                  MyBMWAuthentication.with_auth_headers MyBMWAuthentication.is_quota].
  intros tok. split; [reflexivity|]. split; [reflexivity|]. intros r.
  destruct (status_code r =? 401).
  - apply lockwise_with_lock.
    + split; [exact I|apply login_free].
    + intros _. cbn. intros tok'. repeat split.
  - destruct (MyBMWAuthentication.is_quota r); [|reflexivity].
    apply lockwise_quiet; [apply retry_loop_quiet|].
    intros r'. destruct (raise_for_status r'); reflexivity.
Qed.

Lemma lockwise_apply (lib : Externals) (me : Account) (hook : Response -> option exn)
    (req : Request) :
  lockwise false false (MyBMWAuthentication.apply lib me hook req).
Proof.
  unfold MyBMWAuthentication.apply, client_send.
  apply lockwise_driver. apply lockwise_flow.
Qed.

(** ** The pool keeps the discipline *)

(** How a step changes who holds the lock. *)
Lemma step_lockwise {A : Type} (env : Env) (p p' : prog A) (st st' : State) (h : bool) :
  lockwise false h p ->
  step env p st = Some (p', st') ->
  exists h',
    lockwise false h' p'
    /\ ((h' = h /\ locked st' = locked st)
        \/ (h = false /\ h' = true /\ locked st = false /\ locked st' = true)
        \/ (h = true /\ h' = false /\ locked st' = false)).
Proof.
  destruct p as [a|e|req k|req k|secs k|k|k|k|fld k|fld v k|kind k|ev k];
    cbn; intros H Hs; try discriminate Hs.
  - injection Hs as <- <-. exists h. split; [apply H|]. left. auto.
  - injection Hs as <- <-. exists h. split; [apply H|]. left. auto.
  - injection Hs as <- <-. exists h. split; [apply H|]. left. auto.
  - destruct H as [-> Hk]. destruct (locked st) eqn:Hl; [discriminate Hs|].
    injection Hs as <- <-. exists true. split; [exact Hk|]. right. left. auto.
  - destruct H as [-> Hk]. injection Hs as <- <-.
    exists false. split; [exact Hk|]. right. right. auto.
  - injection Hs as <- <-. exists h. split; [apply H|]. left. auto.
  - destruct H as [_ Hk]. injection Hs as <- <-. exists h. split; [exact Hk|]. left. auto.
  - injection Hs as <- <-. exists h. split; [apply H|]. left. auto.
  - destruct H as [_ Hk]. injection Hs as <- <-. exists h. split; [exact Hk|]. left. auto.
Qed.

(** A step that assigns an attribute or calls [login] is a step of a task
    that holds the lock. *)
Lemma step_under_lock {A : Type} (env : Env) (p p' : prog A) (st st' : State) (h : bool) :
  lockwise false h p ->
  step env p st = Some (p', st') ->
  self st' <> self st
  \/ count (is_call "login") (log st') <> count (is_call "login") (log st) ->
  h = true.
Proof.
  destruct p as [a|e|req k|req k|secs k|k|k|k|fld k|fld v k|kind k|ev k];
    cbn -[count]; intros H Hs Hd; try discriminate Hs;
    try (destruct (locked st); [discriminate Hs|]);
    try (injection Hs as <- <-; cbn -[count] in Hd; rewrite ?count_cons in Hd;
         cbn -[count] in Hd;
         destruct Hd as [Hd|Hd]; exfalso; apply Hd; reflexivity).
  - apply H.
  - injection Hs as <- <-. cbn -[count] in Hd. rewrite count_cons in Hd.
    destruct H as [Hc _]. destruct (is_call "login" ev) eqn:E; [apply Hc; reflexivity|].
    destruct Hd as [Hd|Hd]; exfalso; apply Hd; reflexivity.
Qed.

Lemma holders_set_nth (i : nat) (h h' : bool) (flags : list bool) :
  nth_error flags i = Some h ->
  (holders (set_nth i h' flags) + (if h then 1 else 0)
   = holders flags + (if h' then 1 else 0))%nat.
Proof.
  revert i. induction flags as [|b flags IH]; intros i; [destruct i; discriminate|].
  destruct i as [|i]; cbn.
  - intros H. injection H as ->. unfold holders. cbn.
    destruct h; destruct h'; cbn; lia.
  - intros H. specialize (IH i H). unfold holders in *. cbn.
    destruct b; cbn; lia.
Qed.

Lemma forall2_set_nth {X Y : Type} (R : X -> Y -> Prop) (i : nat) (x : X) (y : Y)
    (xs : list X) (ys : list Y) :
  Forall2 R xs ys -> R x y -> Forall2 R (set_nth i x xs) (set_nth i y ys).
Proof.
  intros H Hxy. revert i. induction H as [|x0 y0 xs ys H0 H IH]; intros i.
  - destruct i; constructor.
  - destruct i as [|i]; cbn; constructor; auto.
Qed.

Lemma forall2_nth {X Y : Type} (R : X -> Y -> Prop) (i : nat) (y : Y)
    (xs : list X) (ys : list Y) :
  Forall2 R xs ys -> nth_error ys i = Some y ->
  exists x, nth_error xs i = Some x /\ R x y.
Proof.
  intros H. revert i. induction H as [|x0 y0 xs ys H0 H IH]; intros i Hi.
  - destruct i; discriminate.
  - destruct i as [|i]; cbn in *.
    + injection Hi as <-. exists x0. auto.
    + apply IH. exact Hi.
Qed.

Lemma holders_one (flags : list bool) (i j : nat) :
  (holders flags <= 1)%nat ->
  nth_error flags i = Some true -> nth_error flags j = Some true -> i = j.
Proof.
  revert i j. induction flags as [|b flags IH]; intros i j Hh Hi Hj;
    [destruct i; discriminate|].
  unfold holders in *. cbn in Hh.
  assert (Hnone : forall n, b = true -> nth_error flags n = Some true -> False).
  { intros n -> Hn. cbn in Hh.
    assert (K : forall l m, nth_error l m = Some true ->
                (1 <= Datatypes.length (filter (fun b => b) l))%nat).
    { clear. induction l as [|c l IHl]; intros m Hm; [destruct m; discriminate|].
      destruct m as [|m]; cbn in *.
      - injection Hm as ->. cbn. lia.
      - specialize (IHl m Hm). destruct c; cbn; lia. }
    specialize (K flags n Hn). lia. }
  destruct i as [|i]; destruct j as [|j]; cbn in *; auto.
  - injection Hi as ->. exfalso. eapply Hnone; eauto.
  - injection Hj as ->. exfalso. eapply Hnone; eauto.
  - f_equal. apply IH; auto. destruct b; cbn in Hh; lia.
Qed.

Lemma holders_some (flags : list bool) :
  (1 <= holders flags)%nat -> exists i, nth_error flags i = Some true.
Proof.
  induction flags as [|b flags IH]; unfold holders in *; cbn; [lia|].
  destruct b; cbn.
  - intros _. exists O. reflexivity.
  - intros H. destruct (IH H) as [i Hi]. exists (S i). exact Hi.
Qed.

(** The state of a pool in which every task keeps the discipline: [flags]
    says which task holds the lock. *)
Definition disciplined {A : Type} (flags : list bool) (tasks : list (prog A))
    (st : State) : Prop :=
  Forall2 (fun h p => lockwise false h p) flags tasks
  /\ holders flags = (if locked st then 1 else 0)%nat.

Lemma turn_disciplined {A : Type} (env : Env) (i : nat) (flags : list bool)
    (tasks : list (prog A)) (st : State) :
  disciplined flags tasks st ->
  exists flags',
    disciplined flags' (fst (turn env i tasks st)) (snd (turn env i tasks st)).
Proof.
  intros [Hf Hh]. unfold turn.
  destruct (nth_error tasks i) as [p|] eqn:Hp; [|exists flags; split; assumption].
  destruct (step env p st) as [[p' st']|] eqn:Hs; [|exists flags; split; assumption].
  destruct (forall2_nth _ i p flags tasks Hf Hp) as (h & Hi & Hhp).
  destruct (step_lockwise env p p' st st' h Hhp Hs) as (h' & Hp' & Hcase).
  exists (set_nth i h' flags). cbn [fst snd]. split.
  - apply forall2_set_nth; assumption.
  - pose proof (holders_set_nth i h h' flags Hi) as Hn.
    destruct Hcase as [[-> Hl]|[(-> & -> & Hl & Hl')|(-> & -> & Hl')]].
    + rewrite Hl. destruct h; lia.
    + rewrite Hl in Hh. rewrite Hl'. lia.
    + rewrite Hl'. destruct (locked st); lia.
Qed.

Lemma run_tasks_disciplined {A : Type} (env : Env) (schedule : list nat) :
  forall (flags : list bool) (tasks : list (prog A)) (st : State),
    disciplined flags tasks st ->
    exists flags',
      disciplined flags' (fst (run_tasks env schedule tasks st))
                         (snd (run_tasks env schedule tasks st)).
Proof.
  induction schedule as [|i rest IH]; intros flags tasks st H; cbn.
  - exists flags. exact H.
  - destruct (turn_disciplined env i flags tasks st H) as [flags' H'].
    destruct (turn env i tasks st) as [tasks' st']. cbn [fst snd] in H'.
    apply (IH flags' tasks' st' H').
Qed.

Lemma callers_disciplined (lib : Externals) (me : Account)
    (hook : Response -> option exn) (requests : list Request) (st : State) :
  locked st = false ->
  disciplined (map (fun _ => false) requests) (callers lib me hook requests) st.
Proof.
  intros Hl. split.
  - unfold callers. induction requests as [|q requests IH]; cbn; constructor; auto.
    apply lockwise_apply.
  - rewrite Hl. unfold holders. induction requests as [|q requests IH]; cbn; auto.
Qed.

Lemma forall2_nth_left {X Y : Type} (R : X -> Y -> Prop) (i : nat) (x : X)
    (xs : list X) (ys : list Y) :
  Forall2 R xs ys -> nth_error xs i = Some x ->
  exists y, nth_error ys i = Some y /\ R x y.
Proof.
  intros H. revert i. induction H as [|x0 y0 xs ys H0 H IH]; intros i Hi.
  - destruct i; discriminate.
  - destruct i as [|i]; cbn in *.
    + injection Hi as <-. exists y0. auto.
    + apply IH. exact Hi.
Qed.

Lemma holders_pos (flags : list bool) (i : nat) :
  nth_error flags i = Some true -> (1 <= holders flags)%nat.
Proof.
  unfold holders. revert i. induction flags as [|c l IHl]; intros m Hm;
    [destruct m; discriminate|].
  destruct m as [|m]; cbn in *.
  - injection Hm as ->. cbn. lia.
  - specialize (IHl m Hm). destruct c; cbn; lia.
Qed.

Lemma holder_flag {A : Type} (flags : list bool) (tasks : list (prog A)) (i : nat)
    (p : prog A) :
  Forall2 (fun h p => lockwise false h p) flags tasks ->
  nth_error tasks i = Some p -> holds_lock p -> nth_error flags i = Some true.
Proof.
  intros Hf Hp Hh. destruct (forall2_nth _ i p flags tasks Hf Hp) as (h & Hi & Hhp).
  rewrite (lockwise_unique false p h true Hhp Hh) in Hi. exact Hi.
Qed.

(** X24: mutual exclusion.  However the event loop schedules any number
    of callers of the flow on one authentication object, starting with the lock
    free, at most one of them holds the lock at any time, and the lock is taken
    exactly when one of them holds it. *)
Theorem callers_exclude_each_other
    (lib : Externals) (me : Account) (env : Env) (hook : Response -> option exn)
    (requests : list Request) (schedule : list nat) (st : State) :
  locked st = false ->
  let out := run_tasks env schedule (callers lib me hook requests) st in
  (forall i j p p',
     nth_error (fst out) i = Some p -> nth_error (fst out) j = Some p' ->
     holds_lock p -> holds_lock p' -> i = j)
  /\ (locked (snd out) = true
      <-> exists i p, nth_error (fst out) i = Some p /\ holds_lock p).
Proof.
  intros Hl out. subst out.
  destruct (run_tasks_disciplined env schedule _ _ st
              (callers_disciplined lib me hook requests st Hl)) as (flags & Hf & Hh).
  split; [|split].
  - intros i j p p' Hi Hj Hp Hp'.
    apply (holders_one flags).
    + rewrite Hh.
      match goal with |- context [if ?b then _ else _] => destruct b end; lia.
    + eapply holder_flag; eauto.
    + eapply holder_flag; eauto.
  - intros Hlk. rewrite Hlk in Hh.
    destruct (holders_some flags) as [i Hi]; [lia|].
    destruct (forall2_nth_left _ i true _ _ Hf Hi) as (p & Hp & Hhp).
    exists i, p. split; assumption.
  - intros (i & p & Hp & Hhp).
    pose proof (holders_pos flags i (holder_flag _ _ _ _ Hf Hp Hhp)) as Hpos.
    rewrite Hh in Hpos.
    match goal with |- ?b = true => destruct b end; [reflexivity|lia].
Qed.

Lemma callers_exclude_each_other_witness :
  let out :=
    run_tasks (Demo.env_of Demo.script_full_login_then_200 Demo.ok_response)
      Demo.first_then_both Demo.two_callers Demo.logged_out in
  locked (snd out) = true
  /\ exists i p, nth_error (fst out) i = Some p /\ holds_lock p.
Proof.
  intros out.
  destruct (callers_exclude_each_other Demo.lib (Demo.account REST_OF_WORLD)
              (Demo.env_of Demo.script_full_login_then_200 Demo.ok_response)
              (fun _ => None) [Demo.request; Demo.request] Demo.first_then_both
              Demo.logged_out eq_refl) as [_ [H _]].
  assert (Hl : locked (snd out) = true) by (vm_compute; reflexivity).
  split; [exact Hl|]. apply H. exact Hl.
Defined.

(** X25: the attributes of the authentication object are assigned, and
    [login] is called, only under the lock: when the turn of a caller changes
    an attribute or records a call of [login], the lock is taken and it is this
    caller that holds it. *)
Theorem only_the_lock_holder_logs_in
    (lib : Externals) (me : Account) (env : Env) (hook : Response -> option exn)
    (requests : list Request) (schedule : list nat) (st : State) (i : nat) :
  locked st = false ->
  let out := run_tasks env schedule (callers lib me hook requests) st in
  let next := turn env i (fst out) (snd out) in
  self (snd next) <> self (snd out)
  \/ count (is_call "login") (log (snd next))
     <> count (is_call "login") (log (snd out)) ->
  locked (snd out) = true
  /\ exists p, nth_error (fst out) i = Some p /\ holds_lock p.
Proof.
  intros Hl out next Hd. subst next.
  destruct (run_tasks_disciplined env schedule _ _ st
              (callers_disciplined lib me hook requests st Hl)) as (flags & Hf & Hh).
  fold out in Hf, Hh. unfold turn in Hd.
  destruct (nth_error (fst out) i) as [p|] eqn:Hp;
    [|destruct Hd as [Hd|Hd]; exfalso; apply Hd; reflexivity].
  destruct (step env p (snd out)) as [[p' st']|] eqn:Hs;
    [|destruct Hd as [Hd|Hd]; exfalso; apply Hd; reflexivity].
  cbn [snd] in Hd.
  destruct (forall2_nth _ i p flags _ Hf Hp) as (h & Hi & Hhp).
  pose proof (step_under_lock env p p' (snd out) st' h Hhp Hs Hd) as ->.
  split.
  - pose proof (holders_pos flags i Hi) as Hpos.
    destruct (locked (snd out)); [reflexivity|lia].
  - exists p. split; [reflexivity|exact Hhp].
Qed.

Lemma step_blocked {A : Type} (env : Env) (p : prog A) (st : State) (h : bool) :
  lockwise false h p -> finished p = false -> step env p st = None ->
  h = false /\ locked st = true.
Proof.
  destruct p as [a|e|req k|req k|secs k|k|k|k|fld k|fld v k|kind k|ev k];
    cbn; intros H Hf Hs; try discriminate.
  - destruct H as [H _]. discriminate H.
  - destruct H as [-> _]. destruct (locked st); [auto|discriminate Hs].
Qed.

Lemma holder_moves {A : Type} (env : Env) (p : prog A) (st : State) :
  lockwise false true p -> exists p' st', step env p st = Some (p', st').
Proof.
  destruct p as [a|e|req k|req k|secs k|k|k|k|fld k|fld v k|kind k|ev k];
    cbn; intros H; try discriminate H;
    try (destruct H as [H _]; discriminate H);
    try (do 2 eexists; reflexivity).
Qed.

Lemma only_the_lock_holder_logs_in_witness :
  let out :=
    run_tasks (Demo.env_of Demo.script_full_login_then_200 Demo.ok_response)
      [0; 1; 0; 0]%nat Demo.two_callers Demo.logged_out in
  locked (snd out) = true
  /\ exists p, nth_error (fst out) 0 = Some p /\ holds_lock p.
Proof.
  apply (only_the_lock_holder_logs_in Demo.lib (Demo.account REST_OF_WORLD)
           (Demo.env_of Demo.script_full_login_then_200 Demo.ok_response)
           (fun _ => None) [Demo.request; Demo.request] [0; 1; 0; 0]%nat
           Demo.logged_out 0 eq_refl).
  right. vm_compute. discriminate.
Defined.

(** X26: the callers never block each other for good: however they were
    scheduled so far, as long as one of them is not over, one of them can take
    a step.  A caller that waits for the lock waits for a caller that can
    move. *)
Theorem callers_never_deadlock
    (lib : Externals) (me : Account) (env : Env) (hook : Response -> option exn)
    (requests : list Request) (schedule : list nat) (st : State) :
  locked st = false ->
  let out := run_tasks env schedule (callers lib me hook requests) st in
  (exists j p, nth_error (fst out) j = Some p /\ finished p = false) ->
  exists i p p' st',
    nth_error (fst out) i = Some p /\ step env p (snd out) = Some (p', st').
Proof.
  intros Hl out (j & p & Hp & Hfin).
  destruct (run_tasks_disciplined env schedule _ _ st
              (callers_disciplined lib me hook requests st Hl)) as (flags & Hf & Hh).
  fold out in Hf, Hh.
  destruct (step env p (snd out)) as [[p' st']|] eqn:Hs.
  - exists j, p, p', st'. auto.
  - destruct (forall2_nth _ j p flags _ Hf Hp) as (h & Hj & Hhp).
    destruct (step_blocked env p (snd out) h Hhp Hfin Hs) as [_ Hlk].
    rewrite Hlk in Hh.
    destruct (holders_some flags) as [i Hi]; [lia|].
    destruct (forall2_nth_left _ i true _ _ Hf Hi) as (q & Hq & Hhq).
    destruct (holder_moves env q (snd out) Hhq) as (q' & st' & Hq').
    exists i, q, q', st'. auto.
Qed.

Lemma callers_never_deadlock_witness :
  let env := Demo.env_of Demo.script_full_login_then_200 Demo.ok_response in
  let out := run_tasks env Demo.first_then_both Demo.two_callers Demo.logged_out in
  exists i p p' st',
    nth_error (fst out) i = Some p /\ step env p (snd out) = Some (p', st').
Proof.
  intros env out.
  apply (callers_never_deadlock Demo.lib (Demo.account REST_OF_WORLD) env
           (fun _ => None) [Demo.request; Demo.request] Demo.first_then_both
           Demo.logged_out eq_refl).
  exists 1%nat. eexists. split; [reflexivity|reflexivity].
Defined.

(** ** One login for all callers *)

Lemma calm_bind {A B : Type} (p : prog A) (f : A -> prog B) :
  calm p -> (forall a, calm (f a)) -> calm (bind p f).
Proof.
  intros Hp Hf.
  induction p as [a|e|req k IH|req k IH|secs k IH|k IH|k IH|k IH|fld k IH|fld v k IH|kind k IH|ev k IH];
    cbn in *; auto.
  destruct Hp as [Hn Hk]. auto.
Qed.

Lemma calm_try_finally {A : Type} (p : prog A) (fin : prog unit) :
  calm p -> calm fin -> calm (try_finally p fin).
Proof.
  intros Hp Hf.
  induction p as [a|e|req k IH|req k IH|secs k IH|k IH|k IH|k IH|fld k IH|fld v k IH|kind k IH|ev k IH];
    cbn in *; auto.
  - apply calm_bind; [exact Hf|]. intros _. exact I.
  - apply calm_bind; [exact Hf|]. intros _. exact I.
  - destruct Hp as [Hn Hk]. auto.
Qed.

Lemma calm_with_lock {A : Type} (body : prog A) : calm body -> calm (with_lock body).
Proof.
  intros H. unfold with_lock. cbn. split; [reflexivity|].
  apply calm_try_finally; [exact H|]. cbn. auto.
Qed.

Lemma calm_quiet {A : Type} (p : prog A) : every quiet_node p -> calm p.
Proof.
  induction p as [a|e|req k IH|req k IH|secs k IH|k IH|k IH|k IH|fld k IH|fld v k IH|kind k IH|ev k IH];
    cbn; intros H; auto; try (destruct H as [Hn Hk]); try contradiction; auto.
Qed.

Lemma calm_driver (hook : Response -> option exn) (flow : prog unit) :
  forall last, calm flow -> calm (send_handling_auth hook flow last).
Proof.
  induction flow as [a|e|req k IH|req k IH|secs k IH|k IH|k IH|k IH|fld k IH|fld v k IH|kind k IH|ev k IH];
    cbn; intros last H; auto.
  - destruct last; exact I.
  - intros [r|e] Hr; cbn; [|exact I].
    destruct (hook r); cbn; [exact I|]. apply IH. apply H. apply Hr. reflexivity.
  - destruct H as [Hn Hk]. auto.
Qed.

Section FlowShape.

Variables (lib : Externals) (me : Account) (hook : Response -> option exn).

(** What the flow does after its first block is calm. *)
Lemma flow_shape (req : Request) :
  exists f,
    MyBMWAuthentication.async_auth_flow lib me req
    = bind (with_lock (login_if_no_token lib me)) f
    /\ forall a, calm (f a).
Proof.
  eexists. split; [reflexivity|]. intros a. cbv beta.
  unfold MyBMWAuthentication.attach.
  cbn -[with_lock retry_loop MyBMWAuthentication.login
        MyBMWAuthentication.with_auth_headers MyBMWAuthentication.is_quota].
  intros tok _ r Hr.
  assert (E : (status_code r =? 401) = false) by (apply Z.eqb_neq; exact Hr).
  rewrite E. destruct (MyBMWAuthentication.is_quota r); [|exact I].
  apply calm_bind; [apply calm_quiet, retry_loop_quiet|].
  intros r'. destruct (raise_for_status r'); exact I.
Qed.

Lemma calm_apply (req : Request) : calm (MyBMWAuthentication.apply lib me hook req).
Proof.
  unfold MyBMWAuthentication.apply, client_send.
  destruct (flow_shape req) as (f & -> & Hf).
  apply calm_driver. apply calm_bind; [|exact Hf].
  apply calm_with_lock. unfold login_if_no_token. cbn -[MyBMWAuthentication.login].
  intros v Hv. rewrite (Hv eq_refl). exact I.
Qed.

(** A caller is the lock to take, and then its first block under the
    lock. *)
Lemma apply_shape (req : Request) :
  exists f,
    MyBMWAuthentication.apply lib me hook req
    = Acquire (under_lock hook f (Note EvAcquire (login_if_no_token lib me)))
    /\ forall a, calm (f a).
Proof.
  unfold MyBMWAuthentication.apply, client_send.
  destruct (flow_shape req) as (f & -> & Hf).
  exists f. split; [reflexivity|exact Hf].
Qed.

End FlowShape.

Lemma nth_error_set_nth_eq {X : Type} (i : nat) (x y : X) (l : list X) :
  nth_error l i = Some y -> nth_error (set_nth i x l) i = Some x.
Proof.
  revert i. induction l as [|z l IH]; intros i; [destruct i; discriminate|].
  destruct i as [|i]; cbn; auto.
Qed.

Lemma nth_error_set_nth_neq {X : Type} (i j : nat) (x : X) (l : list X) :
  i <> j -> nth_error (set_nth i x l) j = nth_error l j.
Proof.
  revert i j. induction l as [|z l IH]; intros i j Hne; [destruct i; reflexivity|].
  destruct i as [|i]; destruct j as [|j]; cbn; auto. contradiction.
Qed.

Lemma set_nth_twice {X : Type} (i : nat) (x y : X) (l : list X) :
  set_nth i x (set_nth i y l) = set_nth i x l.
Proof.
  revert i. induction l as [|z l IH]; intros i; [destruct i; reflexivity|].
  destruct i as [|i]; cbn; [reflexivity|]. rewrite IH. reflexivity.
Qed.

Lemma forall_set_nth {X : Type} (P : X -> Prop) (i : nat) (x : X) (l : list X) :
  Forall P l -> P x -> Forall P (set_nth i x l).
Proof.
  intros H Hx. revert i. induction H as [|z l Hz H IH]; intros i.
  - destruct i; constructor.
  - destruct i as [|i]; cbn; constructor; auto.
Qed.

Lemma forall_nth {X : Type} (P : X -> Prop) (i : nat) (x : X) (l : list X) :
  Forall P l -> nth_error l i = Some x -> P x.
Proof.
  intros H Hi. eapply Forall_forall; [exact H|]. eapply nth_error_In. exact Hi.
Qed.

Lemma not_a_call_not_login (ev : event) :
  is_a_call ev = false -> is_call "login" ev = false.
Proof. destruct ev; cbn; auto; discriminate. Qed.

(** A calm task stays calm and changes neither the credential nor the
    number of logins, when the token is there and no response is a 401. *)
Lemma step_calm {A : Type} (env : Env) (p p' : prog A) (st st' : State) :
  (forall n q r, reply env n q = Ok r -> status_code r <> 401) ->
  Py.truthy (access_token (self st)) = true ->
  calm p ->
  step env p st = Some (p', st') ->
  calm p' /\ self st' = self st
  /\ count (is_call "login") (log st') = count (is_call "login") (log st).
Proof.
  intros Henv Ht.
  destruct p as [a|e|req k|req k|secs k|k|k|k|fld k|fld v k|kind k|ev k];
    cbn -[count]; intros H Hs; try discriminate Hs;
    try (destruct (locked st); [discriminate Hs|]);
    try (injection Hs as <- <-; cbn -[count]; rewrite ?count_cons; cbn -[count];
         repeat split; solve [auto]).
  - injection Hs as <- <-. cbn -[count]. rewrite ?count_cons. cbn -[count].
    repeat split. apply H. intros resp Hr. eapply Henv. exact Hr.
  - injection Hs as <- <-. repeat split. apply H. intros ->. exact Ht.
  - destruct H.
  - injection Hs as <- <-. cbn -[count]. rewrite count_cons.
    destruct H as [Hn Hk]. rewrite (not_a_call_not_login ev Hn).
    repeat split. exact Hk.
Qed.

(** Nor does it record a call of any function. *)
Lemma step_calm_calls {A : Type} (env : Env) (p p' : prog A) (st st' : State) :
  calm p ->
  step env p st = Some (p', st') ->
  filter is_a_call (log st') = filter is_a_call (log st).
Proof.
  destruct p as [a|e|req k|req k|secs k|k|k|k|fld k|fld v k|kind k|ev k];
    cbn [step calm]; intros H Hs; try discriminate Hs;
    try (destruct (locked st); [discriminate Hs|]);
    try (injection Hs as <- <-; reflexivity).
  injection Hs as <- <-. destruct H as [Hn _].
  cbn [record log filter]. rewrite Hn. reflexivity.
Qed.

Section UnderLock.

Variables (env : Env) (hook : Response -> option exn) (f : unit -> prog unit).

Lemma under_lock_ret (a : unit) :
  under_lock hook f (Ret a)
  = Release (Note EvRelease (send_handling_auth hook (f a) None)).
Proof. destruct a. reflexivity. Qed.

Lemma under_lock_step (b b' : prog unit) (st st' : State) :
  every free_node b ->
  step env b st = Some (b', st') ->
  step env (under_lock hook f b) st = Some (under_lock hook f b', st')
  /\ every free_node b'
  /\ locked st' = locked st.
Proof.
  destruct b as [a|e|req k|req k|secs k|k|k|k|fld k|fld v k|kind k|ev k];
    cbn; intros H Hs; try discriminate Hs;
    destruct H as [Hn Hk]; try contradiction;
    injection Hs as <- <-; repeat split; auto.
Qed.

Lemma free_step (b : prog unit) (st : State) :
  every free_node b -> finished b = false ->
  exists b' st', step env b st = Some (b', st').
Proof.
  destruct b as [a|e|req k|req k|secs k|k|k|k|fld k|fld v k|kind k|ev k];
    cbn; intros H Hf; try discriminate Hf;
    destruct H as [Hn Hk]; try contradiction;
    do 2 eexists; reflexivity.
Qed.

End UnderLock.

Lemma count_grows {A : Type} (env : Env) (pr : event -> bool) (p : prog A) (st : State) :
  (count pr (log st) <= count pr (log (snd (run env p st))))%nat.
Proof.
  destruct (run_extends_log env p st) as [new ->]. rewrite count_app. lia.
Qed.

Section OneLogin.

Variables (lib : Externals) (me : Account) (env : Env).
Variables (hook : Response -> option exn) (requests : list Request).
Variables (st0 s1 : State).

Hypothesis unlocked : locked st0 = false.
Hypothesis no_token : Py.truthy (access_token (self st0)) = false.
Hypothesis login_returns :
  run env (MyBMWAuthentication.login lib me) (record EvAcquire (set_locked true st0))
  = (Returned tt, s1).
Hypothesis token_stored : Py.truthy (access_token (self s1)) = true.
Hypothesis no_401 : forall n q r, reply env n q = Ok r -> status_code r <> 401.

Let everyone : list (prog Response) := callers lib me hook requests.
Let logins (st : State) : nat := count (is_call "login") (log st).

(** Where the pool is: nobody has moved; or one caller is in its first
    block, under the lock, and the others have not moved; or the login is done
    and the token is there. *)
Definition before_login (tasks : list (prog Response)) (st : State) : Prop :=
  tasks = everyone /\ st = st0.

Definition during_login (tasks : list (prog Response)) (st : State) : Prop :=
  exists i f b,
    nth_error everyone i <> None
    /\ tasks = set_nth i (under_lock hook f b) everyone
    /\ (forall a, calm (f a))
    /\ every free_node b
    /\ run env b st = (Returned tt, s1)
    /\ locked st = true.

Definition after_login (tasks : list (prog Response)) (st : State) : Prop :=
  Forall (fun p => calm p) tasks
  /\ self st = self s1
  /\ logins st = S (logins st0)
  /\ filter is_a_call (log st) = filter is_a_call (log s1).

Lemma everyone_calm : Forall (fun p => calm p) everyone.
Proof.
  unfold everyone, callers. induction requests as [|q l IH]; cbn; constructor; auto.
  apply calm_apply.
Qed.

Lemma everyone_waits (j : nat) (p : prog Response) (st : State) :
  nth_error everyone j = Some p -> locked st = true -> step env p st = None.
Proof.
  unfold everyone, callers. intros Hj Hl.
  apply nth_error_In in Hj. apply in_map_iff in Hj. destruct Hj as (q & <- & _).
  destruct (apply_shape lib me hook q) as (f & -> & _). cbn. rewrite Hl. reflexivity.
Qed.

Lemma logins_s1 : logins s1 = S (logins st0).
Proof.
  unfold logins.
  pose proof (login_counts_once lib me env (record EvAcquire (set_locked true st0))) as H.
  rewrite login_returns in H. cbn [snd] in H. rewrite H.
  cbn [record log]. rewrite count_cons. reflexivity.
Qed.

Lemma logins_grow {A : Type} (p : prog A) (st : State) :
  (logins st <= logins (snd (run env p st)))%nat.
Proof.
  unfold logins.
  destruct (run_extends_log env p st) as [new ->]. rewrite count_app. lia.
Qed.

Lemma turn_before (i : nat) :
  before_login (fst (turn env i everyone st0)) (snd (turn env i everyone st0))
  \/ during_login (fst (turn env i everyone st0)) (snd (turn env i everyone st0)).
Proof.
  unfold turn. destruct (nth_error everyone i) as [p|] eqn:Hp; [|left; split; reflexivity].
  pose proof Hp as Hin. unfold everyone, callers in Hin.
  apply nth_error_In in Hin. apply in_map_iff in Hin. destruct Hin as (q & <- & _).
  destruct (apply_shape lib me hook q) as (f & Hshape & Hf).
  rewrite Hshape. cbn [step]. rewrite unlocked. cbn [fst snd].
  right. exists i, f, (Note EvAcquire (login_if_no_token lib me)).
  split; [rewrite Hp; discriminate|]. split; [reflexivity|].
  split; [exact Hf|]. split; [|split; [|reflexivity]].
  - split; [exact I|]. unfold login_if_no_token.
    apply every_bind; [simpl; auto|]. intros tok.
    destruct (negb (Py.truthy tok)); [apply login_free|exact I].
  - unfold login_if_no_token.
    cbn [run getattr bind get_field record set_locked self]. rewrite no_token.
    cbn [negb]. exact login_returns.
Qed.

Lemma turn_during (i : nat) (tasks : list (prog Response)) (st : State) :
  during_login tasks st ->
  during_login (fst (turn env i tasks st)) (snd (turn env i tasks st))
  \/ after_login (fst (turn env i tasks st)) (snd (turn env i tasks st)).
Proof.
  intros (j & f & b & Hj & -> & Hf & Hb & Hrun & Hl).
  destruct (nth_error everyone j) as [pj|] eqn:Hpj; [clear Hj|contradiction].
  unfold turn. destruct (Nat.eq_dec j i) as [<-|Hne].
  - rewrite (nth_error_set_nth_eq j _ pj everyone Hpj).
    destruct (finished b) eqn:Hfin.
    + destruct b as [a|e| | | | | | | | | |]; try discriminate Hfin.
      * destruct a. cbn in Hrun. injection Hrun as ->.
        rewrite under_lock_ret. cbn [step fst snd]. rewrite set_nth_twice.
        right. split; [|split; [|split]].
        -- apply forall_set_nth; [apply everyone_calm|].
           split; [reflexivity|]. apply calm_driver. apply Hf.
        -- reflexivity.
        -- apply logins_s1.
        -- reflexivity.
      * cbn in Hrun. discriminate Hrun.
    + destruct (free_step env b st Hb Hfin) as (b' & st' & Hs).
      destruct (under_lock_step env hook f b b' st st' Hb Hs) as (Hs' & Hb' & Hl').
      rewrite Hs'. cbn [fst snd]. rewrite set_nth_twice.
      left. exists j, f, b'. rewrite Hpj.
      split; [discriminate|]. split; [reflexivity|]. split; [exact Hf|].
      split; [exact Hb'|]. split; [|congruence].
      rewrite (run_step env b st), Hs in Hrun. exact Hrun.
  - rewrite (nth_error_set_nth_neq j i _ everyone Hne).
    destruct (nth_error everyone i) as [p|] eqn:Hp.
    + rewrite (everyone_waits i p st Hp Hl). cbn [fst snd].
      left. exists j, f, b. rewrite Hpj. repeat split; auto. discriminate.
    + cbn [fst snd]. left. exists j, f, b. rewrite Hpj. repeat split; auto. discriminate.
Qed.

Lemma turn_after (i : nat) (tasks : list (prog Response)) (st : State) :
  after_login tasks st ->
  after_login (fst (turn env i tasks st)) (snd (turn env i tasks st)).
Proof.
  intros (Hc & Hself & Hn & Hcalls). unfold turn.
  destruct (nth_error tasks i) as [p|] eqn:Hp; [|repeat split; auto].
  destruct (step env p st) as [[p' st']|] eqn:Hs; [|repeat split; auto].
  cbn [fst snd].
  assert (Ht : Py.truthy (access_token (self st)) = true) by (rewrite Hself; exact token_stored).
  destruct (step_calm env p p' st st' no_401 Ht (forall_nth _ i p tasks Hc Hp) Hs)
    as (Hp' & Hself' & Hn').
  pose proof (step_calm_calls env p p' st st' (forall_nth _ i p tasks Hc Hp) Hs)
    as Hcalls'.
  split; [|split; [|split]].
  - apply forall_set_nth; assumption.
  - congruence.
  - unfold logins in *. congruence.
  - congruence.
Qed.

Definition phase (tasks : list (prog Response)) (st : State) : Prop :=
  before_login tasks st \/ during_login tasks st \/ after_login tasks st.

Lemma turn_phase (i : nat) (tasks : list (prog Response)) (st : State) :
  phase tasks st -> phase (fst (turn env i tasks st)) (snd (turn env i tasks st)).
Proof.
  intros [[-> ->]|[H|H]].
  - destruct (turn_before i) as [H|H]; [left; exact H|right; left; exact H].
  - destruct (turn_during i tasks st H) as [H'|H']; [right; left; exact H'|right; right; exact H'].
  - right. right. apply turn_after. exact H.
Qed.

Lemma run_tasks_phase (schedule : list nat) :
  forall tasks st,
    phase tasks st ->
    phase (fst (run_tasks env schedule tasks st)) (snd (run_tasks env schedule tasks st)).
Proof.
  induction schedule as [|i rest IH]; intros tasks st H; cbn; [exact H|].
  pose proof (turn_phase i tasks st H) as H'.
  destruct (turn env i tasks st) as [tasks' st']. apply IH. exact H'.
Qed.

Lemma phase_logins (tasks : list (prog Response)) (st : State) :
  phase tasks st ->
  (logins st <= S (logins st0))%nat
  /\ ((exists j p, nth_error tasks j = Some p /\ finished p = true) ->
      logins st = S (logins st0) /\ self st = self s1).
Proof.
  intros [[-> ->]|[H|H]].
  - split; [lia|]. intros (j & p & Hp & Hfin). exfalso.
    unfold everyone, callers in Hp.
    apply nth_error_In in Hp. apply in_map_iff in Hp. destruct Hp as (q & <- & _).
    destruct (apply_shape lib me hook q) as (f & Hshape & _).
    rewrite Hshape in Hfin. discriminate Hfin.
  - destruct H as (i & f & b & Hi & -> & Hf & Hb & Hrun & Hl). split.
    + pose proof (logins_grow b st) as Hg. rewrite Hrun in Hg. cbn [snd] in Hg.
      rewrite logins_s1 in Hg. exact Hg.
    + intros (j & p & Hp & Hfin). exfalso.
      destruct (nth_error everyone i) as [pi|] eqn:Hpi; [|contradiction].
      destruct (Nat.eq_dec i j) as [<-|Hne].
      * rewrite (nth_error_set_nth_eq i _ pi everyone Hpi) in Hp. injection Hp as <-.
        destruct b as [a|e| | | | | | | | | |]; cbn in Hfin; try discriminate Hfin;
          try (destruct Hb as [Hn _]; contradiction).
      * rewrite (nth_error_set_nth_neq i j _ everyone Hne) in Hp.
        unfold everyone, callers in Hp.
        apply nth_error_In in Hp. apply in_map_iff in Hp. destruct Hp as (q & <- & _).
        destruct (apply_shape lib me hook q) as (f' & Hshape & _).
        rewrite Hshape in Hfin. discriminate Hfin.
  - destruct H as (Hc & Hself & Hn & _). split; [lia|]. intros _. split; assumption.
Qed.

(** The calls the pool has recorded are calls that the first [login]
    records, and all of them once a caller is over. *)
Lemma phase_calls (tasks : list (prog Response)) (st : State) (pr : event -> bool) :
  (forall ev, pr ev = true -> is_a_call ev = true) ->
  phase tasks st ->
  (count pr (log st) <= count pr (log s1))%nat
  /\ ((exists j p, nth_error tasks j = Some p /\ finished p = true) ->
      count pr (log st) = count pr (log s1)).
Proof.
  intros Hpr Hphase.
  assert (Hfilter : forall l, count pr l = count pr (filter is_a_call l)).
  { intros l. unfold count. f_equal. induction l as [|ev l IH]; [reflexivity|].
    cbn [filter]. destruct (pr ev) eqn:E.
    - rewrite (Hpr ev E). cbn [filter]. rewrite E, IH. reflexivity.
    - destruct (is_a_call ev); cbn [filter]; rewrite ?E; exact IH. }
  destruct (phase_logins tasks st Hphase) as [_ Hfin].
  destruct Hphase as [[-> ->]|[H|H]].
  - split.
    + pose proof (count_grows env pr (MyBMWAuthentication.login lib me)
                    (record EvAcquire (set_locked true st0))) as Hg.
      rewrite login_returns in Hg. cbn [snd record log set_locked] in Hg.
      rewrite count_cons in Hg. destruct (pr EvAcquire); lia.
    + intros Hex. exfalso. destruct (Hfin Hex) as [Hn _].
      fold (logins st0) in Hn. lia.
  - pose proof H as (i & f & b & Hi & -> & Hf & Hb & Hrun & Hl). split.
    + pose proof (count_grows env pr b st) as Hg. rewrite Hrun in Hg. exact Hg.
    + intros Hex. exfalso.
      destruct Hex as (j & p & Hp & Hfinished).
      destruct (nth_error everyone i) as [pi|] eqn:Hpi; [|contradiction].
      destruct (Nat.eq_dec i j) as [<-|Hne].
      * rewrite (nth_error_set_nth_eq i _ pi everyone Hpi) in Hp. injection Hp as <-.
        destruct b as [a|e| | | | | | | | | |]; cbn in Hfinished;
          try discriminate Hfinished;
          try (destruct Hb as [Hn _]; contradiction).
      * rewrite (nth_error_set_nth_neq i j _ everyone Hne) in Hp.
        unfold everyone, callers in Hp.
        apply nth_error_In in Hp. apply in_map_iff in Hp. destruct Hp as (q & <- & _).
        destruct (apply_shape lib me hook q) as (f' & Hshape & _).
        rewrite Hshape in Hfinished. discriminate Hfinished.
  - destruct H as (_ & _ & _ & Hcalls).
    rewrite (Hfilter (log st)), (Hfilter (log s1)), Hcalls. split; [lia|reflexivity].
Qed.

End OneLogin.

(** X27: single flight.  Let any number of callers start on a credential
    without a token, and let the [login] of the caller that takes the lock
    first return with a token stored.  Then, as long as no response is a 401,
    however the callers are scheduled there is one call of [login] and no
    more: the callers that take the lock later find the token and skip
    [login], and when a caller is over, the credential is the one that this
    [login] stored. *)
Theorem one_login_for_all_callers
    (lib : Externals) (me : Account) (env : Env) (hook : Response -> option exn)
    (requests : list Request) (schedule : list nat) (st s1 : State) :
  locked st = false ->
  Py.truthy (access_token (self st)) = false ->
  run env (MyBMWAuthentication.login lib me) (record EvAcquire (set_locked true st))
  = (Returned tt, s1) ->
  Py.truthy (access_token (self s1)) = true ->
  (forall n q r, reply env n q = Ok r -> status_code r <> 401) ->
  let out := run_tasks env schedule (callers lib me hook requests) st in
  (count (is_call "login") (log (snd out)) <= S (count (is_call "login") (log st)))%nat
  /\ ((exists j p, nth_error (fst out) j = Some p /\ finished p = true) ->
      count (is_call "login") (log (snd out)) = S (count (is_call "login") (log st))
      /\ self (snd out) = self s1).
Proof.
  intros Hl Ht Hlogin Htok Henv out.
  apply (phase_logins lib me env hook requests st s1 Hlogin).
  subst out. apply run_tasks_phase; try assumption.
  left. split; reflexivity.
Qed.

Lemma one_login_for_all_callers_witness :
  let env := Demo.env_of Demo.script_full_login_then_200 Demo.ok_response in
  let out := run_tasks env (Demo.in_turns 30) Demo.two_callers Demo.logged_out in
  map finished (fst out) = [true; true]
  /\ count (is_call "login") (log (snd out)) = 1%nat
  /\ count is_send (log (snd out)) = 6%nat.
Proof.
  intros env out.
  assert (Hdone : map finished (fst out) = [true; true]) by (vm_compute; reflexivity).
  split; [exact Hdone|]. split; [|vm_compute; reflexivity].
  assert (Henv : forall n q r, reply env n q = Ok r -> status_code r <> 401).
  { intros n q r H. cbn in H. injection H as <-.
    do 5 (destruct n as [|n]; [discriminate|]). destruct n; discriminate. }
  destruct (one_login_for_all_callers Demo.lib (Demo.account REST_OF_WORLD) env
              (fun _ => None) [Demo.request; Demo.request] (Demo.in_turns 30)
              Demo.logged_out
              (snd (run env (MyBMWAuthentication.login Demo.lib (Demo.account REST_OF_WORLD))
                      (record EvAcquire (set_locked true Demo.logged_out))))
              eq_refl eq_refl ltac:(vm_compute; reflexivity)
              ltac:(vm_compute; reflexivity) Henv) as [_ H].
  apply H. exists 0%nat. eexists. split; [vm_compute; reflexivity|reflexivity].
Defined.

(** X28: a login that fails is not shared.  When the [login] of a first
    call raises, that call ends with the lock free and the credential still
    without a token, so the caller that comes next calls [login] again: the
    single login of X27 needs the first [login] to succeed. *)
Theorem failed_login_is_not_shared
    (lib : Externals) (me : Account) (env : Env) (hook : Response -> option exn)
    (req req' : Request) (st s1 : State) (e : exn) :
  locked st = false ->
  Py.truthy (access_token (self st)) = false ->
  run env (MyBMWAuthentication.login lib me) (record EvAcquire (set_locked true st))
  = (Raised e, s1) ->
  let st' := snd (run env (MyBMWAuthentication.apply lib me hook req) st) in
  locked st' = false
  /\ Py.truthy (access_token (self st')) = false
  /\ count (is_call "login") (log st') = S (count (is_call "login") (log st))
  /\ (S (S (count (is_call "login") (log st)))
      <= count (is_call "login")
           (log (snd (run env (MyBMWAuthentication.apply lib me hook req') st'))))%nat.
Proof.
  intros Hl Ht Hlogin st'.
  assert (E : st' = released s1).
  { subst st'. rewrite (auth_flow_logs_in_first lib me env hook req st Hl Ht _ eq_refl).
    rewrite Hlogin. reflexivity. }
  assert (Hself : self s1 = self st)
    by (apply (login_raised lib me env _ _ _ Hlogin)).
  assert (Hcount : count (is_call "login") (log s1) = S (count (is_call "login") (log st))).
  { pose proof (login_counts_once lib me env (record EvAcquire (set_locked true st))) as H.
    rewrite Hlogin in H. cbn [snd] in H. rewrite H.
    cbn [record log]. rewrite count_cons. reflexivity. }
  clearbody st'. subst st'.
  assert (Hl' : locked (released s1) = false) by reflexivity.
  assert (Ht' : Py.truthy (access_token (self (released s1))) = false).
  { cbn [released record set_locked self]. rewrite Hself. exact Ht. }
  split; [exact Hl'|]. split; [exact Ht'|]. split.
  { cbn [released record log]. rewrite count_cons. exact Hcount. }
  rewrite (auth_flow_logs_in_first lib me env hook req' (released s1) Hl' Ht' _ eq_refl).
  pose proof (login_counts_once lib me env
                (record EvAcquire (set_locked true (released s1)))) as H2.
  cbn [record log released set_locked] in H2. rewrite !count_cons in H2.
  cbn [is_call Nat.add] in H2. rewrite Hcount in H2.
  destruct (run env (MyBMWAuthentication.login lib me)
              (record EvAcquire (set_locked true (released s1)))) as [[u|e2|] s2];
    cbn [snd] in H2 |- *.
  - match goal with
    | |- context [run env ?p (released s2)] =>
        pose proof (count_grows env (is_call "login") p (released s2)) as Hg
    end.
    cbn [released record log set_locked] in Hg. rewrite count_cons in Hg.
    cbn [is_call] in Hg. lia.
  - cbn [released record log set_locked]. rewrite count_cons. cbn [is_call]. lia.
  - lia.
Qed.

Lemma failed_login_is_not_shared_witness :
  let env := Demo.env_of [Demo.server_error; Demo.server_error] Demo.ok_response in
  let st' :=
    snd (run env
           (MyBMWAuthentication.apply Demo.lib (Demo.account REST_OF_WORLD)
              (fun _ => None) Demo.request)
           Demo.logged_out) in
  locked st' = false
  /\ count (is_call "login") (log st') = 1%nat
  /\ (2 <= count (is_call "login")
            (log (snd (run env
                         (MyBMWAuthentication.apply Demo.lib (Demo.account REST_OF_WORLD)
                            (fun _ => None) Demo.request)
                         st'))))%nat.
Proof.
  intros env st'.
  destruct (failed_login_is_not_shared Demo.lib (Demo.account REST_OF_WORLD) env
              (fun _ => None) Demo.request Demo.request Demo.logged_out
              (snd (run env (MyBMWAuthentication.login Demo.lib (Demo.account REST_OF_WORLD))
                      (record EvAcquire (set_locked true Demo.logged_out))))
              (MyBMWAPIError 500 "Internal Server Error")
              eq_refl eq_refl ltac:(vm_compute; reflexivity))
    as (H1 & _ & H3 & H4).
  split; [exact H1|]. split; [exact H3|exact H4].
Defined.

(** A caller alone in the pool does what [run] does: after any number of
    turns, running what is left of it gives the result of running it from the
    start. *)
Lemma alone_is_sequential {A : Type} (env : Env) (n : nat) :
  forall (p : prog A) (st : State),
    exists p',
      fst (run_tasks env (List.repeat 0%nat n) [p] st) = [p']
      /\ run env p st = run env p' (snd (run_tasks env (List.repeat 0%nat n) [p] st)).
Proof.
  induction n as [|n IH]; intros p st; cbn.
  - exists p. split; reflexivity.
  - unfold turn. cbn [nth_error].
    destruct (step env p st) as [[p1 st1]|] eqn:Hs.
    + cbn [set_nth]. destruct (IH p1 st1) as (p' & H1 & H2).
      exists p'. split; [exact H1|]. rewrite (run_step env p st), Hs. exact H2.
    + apply IH.
Qed.

(** ** Concurrent first calls *)

Lemma keeps_strategy_calls {A : Type} (env : Env) (p : prog A) :
  every no_call p ->
  forall st,
    count is_strategy_call (log (snd (run env p st)))
    = count is_strategy_call (log st).
Proof.
  intros Hp st.
  apply (run_keeps env no_call
           (fun s s' => count is_strategy_call (log s')
                        = count is_strategy_call (log s)) p); auto.
  - intros s1 s2 s3 H12 H23. congruence.
  - repeat split; intros; simpl; auto; try contradiction.
    destruct ev; simpl in *; try contradiction; rewrite count_cons; reflexivity.
Qed.

Lemma bind_keeps_strategy_calls {A B : Type} (env : Env) (p : prog A)
    (f : A -> prog B) (st : State) :
  (forall a, every no_call (f a)) ->
  count is_strategy_call (log (snd (run env (bind p f) st)))
  = count is_strategy_call (log (snd (run env p st))).
Proof.
  intros Hf. rewrite run_bind.
  destruct (run env p st) as [[a|e|] s]; cbn [snd];
    [apply keeps_strategy_calls, Hf|reflexivity|reflexivity].
Qed.

(** A strategy called under its name records one call, however it ends. *)
Lemma traced_strategy_calls_once (env : Env) (fn : string)
    (p : prog (list (string * pyobj))) (st : State) :
  every strategy_node p ->
  is_strategy_call (EvCall fn) = true ->
  count is_strategy_call (log (snd (run env (traced fn p) st)))
  = S (count is_strategy_call (log st)).
Proof.
  intros Hp Hfn. rewrite run_traced.
  pose proof (keeps_strategy_calls env p (every_weaken _ _ _ strategy_no_call Hp)
                (record (EvCall fn) st)) as H.
  cbn [record log] in H. rewrite count_cons, Hfn in H.
  destruct (run env p (record (EvCall fn) st)) as [[x|e|] s];
    cbn [snd record log] in *; rewrite ?count_cons; exact H.
Qed.

Lemma refresh_or_login_strategy_calls (env : Env) (rn fn : string)
    (refresh full : prog (list (string * pyobj))) (st : State) :
  every strategy_node refresh -> every strategy_node full ->
  is_strategy_call (EvCall rn) = true -> is_strategy_call (EvCall fn) = true ->
  let n :=
    count is_strategy_call
      (log (snd (run env (MyBMWAuthentication.refresh_or_login
                            (traced rn refresh) (traced fn full)) st))) in
  n = S (count is_strategy_call (log st))
  \/ (Py.truthy (refresh_token (self st)) = true
      /\ n = S (S (count is_strategy_call (log st)))).
Proof.
  intros Hr Hf Hrn Hfn n. subst n. rewrite run_refresh_or_login.
  destruct (Py.truthy (refresh_token (self st))) eqn:Et.
  - pose proof (traced_strategy_calls_once env rn refresh st Hr Hrn) as H1.
    destruct (run env (traced rn refresh) st) as [[td|e|] s1] eqn:R;
      cbn [snd] in H1; [|left; exact H1|left; exact H1].
    destruct (negb (Py.truthy (PDict td))); [|left; exact H1].
    right. split; [reflexivity|].
    rewrite (traced_strategy_calls_once env fn full s1 Hf Hfn), H1. reflexivity.
  - left. apply traced_strategy_calls_once; assumption.
Qed.

(** One call of [login] calls one strategy, or two when a refresh token is
    stored: the refresh function and, after it, the full login. *)
Lemma login_strategy_calls (lib : Externals) (me : Account) (env : Env) (st : State) :
  let n :=
    count is_strategy_call (log (snd (run env (MyBMWAuthentication.login lib me) st))) in
  n = S (count is_strategy_call (log st))
  \/ (Py.truthy (refresh_token (self st)) = true
      /\ n = S (S (count is_strategy_call (log st)))).
Proof.
  intros n. subst n. unfold MyBMWAuthentication.login. rewrite run_traced.
  assert (Hstore : forall td, every no_call (MyBMWAuthentication.store_tokens td)).
  { intros td. unfold MyBMWAuthentication.store_tokens, MyBMWAuthentication.item. walk. }
  assert (Hshift : forall td, every no_call (MyBMWAuthentication.shift_expiry lib td)).
  { intros td. unfold MyBMWAuthentication.shift_expiry, MyBMWAuthentication.item. walk. }
  assert (K :
    let m :=
      count is_strategy_call
        (log (snd (run env (MyBMWAuthentication.login_body lib me)
                     (record (EvCall "login") st)))) in
    m = S (count is_strategy_call (log st))
    \/ (Py.truthy (refresh_token (self st)) = true
        /\ m = S (S (count is_strategy_call (log st))))).
  { intros m. subst m. unfold MyBMWAuthentication.login_body.
    rewrite bind_keeps_strategy_calls by exact Hstore.
    unfold MyBMWAuthentication.token_data_for_region.
    destruct (region me).
    - rewrite bind_keeps_strategy_calls by exact Hshift.
      apply (refresh_or_login_strategy_calls env _ _ _ _ (record (EvCall "login") st));
        [apply every_refresh_token_row_na|apply every_login_row_na
        |reflexivity|reflexivity].
    - rewrite bind_keeps_strategy_calls by exact Hshift.
      apply (refresh_or_login_strategy_calls env _ _ _ _ (record (EvCall "login") st));
        [apply every_refresh_token_row_na|apply every_login_row_na
        |reflexivity|reflexivity].
    - rewrite bind_keeps_strategy_calls.
      + apply (refresh_or_login_strategy_calls env _ _ _ _ (record (EvCall "login") st));
          [apply every_refresh_token_china|apply every_login_china
          |reflexivity|reflexivity].
      + intros td. apply every_bind; [apply Hshift|]. intros td2.
        unfold MyBMWAuthentication.item. walk. }
  cbv zeta in K.
  destruct (run env (MyBMWAuthentication.login_body lib me) (record (EvCall "login") st))
    as [[u|e|] s]; cbn [snd record log] in *; rewrite ?count_cons; exact K.
Qed.

Lemma strategy_call_is_a_call (ev : event) :
  is_strategy_call ev = true -> is_a_call ev = true.
Proof. destruct ev; cbn; auto. Qed.

(** C9, as the code has it.  Let any number of callers start on a
    credential without an access token, with the lock free; let the [login]
    of the caller that takes the lock first return with a truthy token stored,
    and let no response be a 401.  Then, however the callers are scheduled,
    [login] is called once at most, and no strategy is called but by that
    [login]; that [login] calls one strategy, or two when a refresh token was
    stored (the refresh function, and the full login after it).  Once a caller
    is over, [login] has been called exactly once, the strategies called are
    those of that call, and the access token is the one it stored: the callers
    that took the lock later found the token and skipped [login]. *)
Theorem C9_one_login_for_concurrent_callers
    (lib : Externals) (me : Account) (env : Env) (hook : Response -> option exn)
    (requests : list Request) (schedule : list nat) (st s1 : State) :
  locked st = false ->
  Py.truthy (access_token (self st)) = false ->
  run env (MyBMWAuthentication.login lib me) (record EvAcquire (set_locked true st))
  = (Returned tt, s1) ->
  Py.truthy (access_token (self s1)) = true ->
  (forall n q r, reply env n q = Ok r -> status_code r <> 401) ->
  let out := run_tasks env schedule (callers lib me hook requests) st in
  let logins := fun l => count (is_call "login") l in
  let invoked := fun l => count is_strategy_call l in
  (logins (log (snd out)) <= S (logins (log st)))%nat
  /\ (invoked (log (snd out)) <= invoked (log s1))%nat
  /\ (invoked (log s1) = S (invoked (log st))
      \/ (Py.truthy (refresh_token (self st)) = true
          /\ invoked (log s1) = S (S (invoked (log st)))))
  /\ ((exists j p, nth_error (fst out) j = Some p /\ finished p = true) ->
      logins (log (snd out)) = S (logins (log st))
      /\ invoked (log (snd out)) = invoked (log s1)
      /\ access_token (self (snd out)) = access_token (self s1)).
Proof.
  intros Hl Ht Hlogin Htok Henv out logins invoked.
  assert (Hphase : phase lib me env hook requests st s1 (fst out) (snd out)).
  { subst out. apply run_tasks_phase; try assumption. left. split; reflexivity. }
  destruct (phase_logins lib me env hook requests st s1 Hlogin _ _ Hphase)
    as [Hle Hfin].
  destruct (phase_calls lib me env hook requests st s1 Hlogin _ _ is_strategy_call
              strategy_call_is_a_call Hphase) as [Hle' Hfin'].
  split; [exact Hle|]. split; [exact Hle'|]. split.
  - pose proof (login_strategy_calls lib me env (record EvAcquire (set_locked true st)))
      as H.
    cbv zeta in H. rewrite Hlogin in H. exact H.
  - intros Hex. destruct (Hfin Hex) as [Hn Hself].
    split; [exact Hn|]. split; [exact (Hfin' Hex)|]. rewrite Hself. reflexivity.
Qed.

Lemma C9_one_login_for_concurrent_callers_witness :
  let env := Demo.env_of Demo.script_full_login_then_200 Demo.ok_response in
  let out := run_tasks env (Demo.in_turns 30) Demo.two_callers Demo.logged_out in
  map finished (fst out) = [true; true]
  /\ count (is_call "login") (log (snd out)) = 1%nat
  /\ count is_strategy_call (log (snd out)) = 1%nat
  /\ access_token (self (snd out)) = PStr "token-2".
Proof.
  intros env out.
  assert (Hdone : map finished (fst out) = [true; true]) by (vm_compute; reflexivity).
  split; [exact Hdone|].
  assert (Henv : forall n q r, reply env n q = Ok r -> status_code r <> 401).
  { intros n q r H. cbn in H. injection H as <-.
    do 5 (destruct n as [|n]; [discriminate|]). destruct n; discriminate. }
  destruct (C9_one_login_for_concurrent_callers Demo.lib (Demo.account REST_OF_WORLD)
              env (fun _ => None) [Demo.request; Demo.request] (Demo.in_turns 30)
              Demo.logged_out
              (snd (run env (MyBMWAuthentication.login Demo.lib (Demo.account REST_OF_WORLD))
                      (record EvAcquire (set_locked true Demo.logged_out))))
              eq_refl eq_refl ltac:(vm_compute; reflexivity)
              ltac:(vm_compute; reflexivity) Henv) as (_ & _ & _ & H).
  destruct H as (H1 & H2 & H3).
  { exists 0%nat. eexists. split; [vm_compute; reflexivity|reflexivity]. }
  split; [exact H1|]. split.
  - etransitivity; [exact H2|]. vm_compute. reflexivity.
  - etransitivity; [exact H3|]. vm_compute. reflexivity.
Defined.

(** C9 as stated fails in two ways.  When the first [login] fails, here on
    a server error, nothing is stored and the second caller logs in again: two
    calls of [login], two calls of a strategy.  And one [login] alone calls two
    strategies when the stored refresh token is rejected: the refresh function
    and then the full login. *)
Lemma C9_failed_login_counterexample :
  let failing :=
    run_tasks (Demo.env_of [] Demo.server_error) (Demo.in_turns 30)
      Demo.two_callers Demo.logged_out in
  let rejected :=
    run (Demo.env_of (Demo.script_refresh_fails ++ [Demo.ok_response]) Demo.ok_response)
      (MyBMWAuthentication.apply Demo.lib (Demo.account REST_OF_WORLD)
         (fun _ => None) Demo.request)
      (Demo.start (Demo.credential PNone (PStr "refresh-1"))) in
  Py.truthy (access_token (self Demo.logged_out)) = false
  /\ map finished (fst failing) = [true; true]
  /\ count (is_call "login") (log (snd failing)) = 2%nat
  /\ count is_strategy_call (log (snd failing)) = 2%nat
  /\ fst rejected = Returned Demo.ok_response
  /\ count (is_call "login") (log (snd rejected)) = 1%nat
  /\ count is_strategy_call (log (snd rejected)) = 2%nat.
Proof.
  intros failing rejected.
  split; [reflexivity|].
  split; [vm_compute; reflexivity|]. split; [vm_compute; reflexivity|].
  split; [vm_compute; reflexivity|]. split; [vm_compute; reflexivity|].
  split; vm_compute; reflexivity.
Qed.
